(** * Resumable GraphQL subscriptions: publisher, intermediary, subscriber

    A shallow embedding of the JavaScript sources of the demo
    (servers, proxy hooks and WebSocket clients) and the properties the
    specification states about them.

    Conventions used throughout:
    - JavaScript numbers that hold integers (timestamps, delays, counters)
      are [Z];
    - [null] / [undefined] are [None];
    - calls into the environment ([Date.now()], [randomUUID()],
      [Math.random()], [new WebSocket], [setInterval]) take their result
      as an extra argument;
    - what a function does to the outside world (frames sent, handlers
      called, timers armed) is returned as a list of effects, in program
      order; console output is left out, except the warning of a refused
      [subscribe]. *)

From Stdlib Require Import ZArith String List Bool Lia.
From stdpp Require Import base gmap strings list pretty sorting.
Import ListNotations.

Local Open Scope string_scope.
Local Open Scope list_scope.

(** ** Shared data *)

(** A chat message, as the GraphQL schema declares it
    ([type Message { id text user at }]). *)
Record Message := mkMessage {
  id : string;
  text : string;
  user : string;
  at_ : string
}.

(** The payload published on the topic: [{ onMessage: message }]. *)
Record Payload := mkPayload { onMessage : Message }.

(** JavaScript truthiness of a value that is a string, [null] or
    [undefined]: only a non-empty string is truthy. *)
Definition truthy (v : option string) : bool :=
  match v with
  | Some s => negb (String.eqb s "")
  | None => false
  end.

(** [Array.prototype.findIndex]: the first index whose element satisfies
    [p], or [-1]. *)
Fixpoint findIndex {A : Type} (p : A -> bool) (l : list A) : Z :=
  match l with
  | [] => (-1)%Z
  | x :: l' =>
      if p x then 0%Z
      else match findIndex p l' with
           | Zneg _ => (-1)%Z
           | i => (i + 1)%Z
           end
  end.

(** [Array.prototype.slice(start)] for a start index that is not negative. *)
Definition slice {A : Type} (start : Z) (l : list A) : list A :=
  skipn (Z.to_nat start) l.

(** ** The intermediary with a backup buffer (unnamed/part_002, first file) *)

Module ProxyBackup.

(** One backup entry: [{ message: <raw frame>, timestamp: Date.now() }]. *)
Record Entry := mkEntry { message : string; timestamp : Z }.

(** A frame after [JSON.parse]: the fields the hooks read. *)
Record Frame := mkFrame {
  f_id : option string;
  f_type : string;
  f_query : option string;
  f_variables : option string;
  f_data : option string
}.

(** Module state: [let backup = []] and [let lastPong = Date.now()]. *)
Record Proxy := mkProxy { backup : list Entry; lastPong : Z }.

(** The per-connection [source] object: only [clientId] is used. *)
Record Source := mkSource { clientId : option string }.

(** Calls that leave the module: the upstream socket, the timer and the
    [StatefulSubscriptions] object of the external package. *)
Inductive Effect :=
| TargetSend (raw : string)
| Wait (ms : Z)
| AddSubscription (c : option string) (query variables : option string)
| UpdateSubscriptionState (c : option string) (data : option string)
| RemoveSubscription (c : option string)
| RemoveAllSubscriptions (c : option string)
| RestoreSubscriptions (c : option string).

Definition init (now : Z) : Proxy := {| backup := []; lastPong := now |}.

(** [resendMessages(target)]; [now] is the value of [Date.now()] read on
    entry. The list to resend is computed before the first [await]. *)
Definition resendMessages (now : Z) (st : Proxy) : list Effect :=
  let messagesToResend :=
    List.filter
      (fun m => (lastPong st <? timestamp m)%Z && (timestamp m <=? now)%Z)
      (backup st) in
  if (length messagesToResend =? 0)%nat then []
  else flat_map (fun m => [TargetSend (message m); Wait 250]) messagesToResend.

Definition onDisconnect (src : Source) (st : Proxy) : Proxy * list Effect :=
  ({| backup := []; lastPong := lastPong st |},
   [RemoveAllSubscriptions (clientId src)]).

Definition onReconnect (now : Z) (src : Source) (st : Proxy)
  : Proxy * list Effect :=
  (st, RestoreSubscriptions (clientId src) :: resendMessages now st).

Definition onIncomingMessage (now : Z) (raw : string) (m : Frame)
    (src : Source) (st : Proxy) : Source * Proxy * list Effect :=
  let src' := {| clientId := f_id m |} in
  if negb (String.eqb (f_type m) "start") then (src', st, [])
  else
    (src',
     {| backup := backup st ++ [{| message := raw; timestamp := now |}];
        lastPong := lastPong st |},
     [AddSubscription (clientId src') (f_query m) (f_variables m)]).

Definition onOutgoingMessage (m : Frame) (src : Source) : list Effect :=
  if String.eqb (f_type m) "data"
  then [UpdateSubscriptionState (clientId src) (f_data m)]
  else if String.eqb (f_type m) "error" then []
  else if String.eqb (f_type m) "complete"
  then [RemoveSubscription (clientId src)]
  else [].

(** [onPong]: [lastPong = Date.now()], then the buffer keeps only the
    entries enqueued after it. *)
Definition onPong (now : Z) (st : Proxy) : Proxy :=
  let lastPong' := now in
  {| backup := List.filter (fun m => (lastPong' <? timestamp m)%Z) (backup st);
     lastPong := lastPong' |}.

(** The raw frames a list of effects hands to the upstream socket. *)
Definition sent (es : list Effect) : list string :=
  flat_map (fun e => match e with TargetSend r => [r] | _ => [] end) es.

End ProxyBackup.

(** ** The earlier intermediary (unnamed/part_003, first file) *)

Module ProxyBackupEarly.

Import ProxyBackup.

(** [resendMessages(target)]: a loop over the buffer that skips an entry
    when [m.timestamp < lastPong || m.timestamp > now]. This is the whole
    of a replay during whose waits no other hook runs: the first frame is
    sent before the first [await], and [lastPong] and the array are then
    those of the entry. What a pong, a frame or a disconnect during a wait
    changes is in [ProxyReplay] below. *)
Fixpoint resendLoop (now : Z) (lastPong : Z) (l : list Entry) : list Effect :=
  match l with
  | [] => []
  | m :: rest =>
      if (timestamp m <? lastPong)%Z || (now <? timestamp m)%Z
      then resendLoop now lastPong rest
      else TargetSend (message m) :: Wait 250 :: resendLoop now lastPong rest
  end.

Definition resendMessages (now : Z) (st : Proxy) : list Effect :=
  resendLoop now (lastPong st) (backup st).

Definition onDisconnect (src : Source) (st : Proxy) : Proxy * list Effect :=
  ({| backup := []; lastPong := lastPong st |},
   [RemoveAllSubscriptions (clientId src)]).

Definition onReconnect (now : Z) (src : Source) (st : Proxy)
  : Proxy * list Effect :=
  (st, RestoreSubscriptions (clientId src) :: resendMessages now st).

(** Here every inbound frame is backed up, before the type is looked at. *)
Definition onIncomingMessage (now : Z) (raw : string) (m : Frame)
    (src : Source) (st : Proxy) : Source * Proxy * list Effect :=
  let src' := {| clientId := f_id m |} in
  let st' := {| backup := backup st ++ [{| message := raw; timestamp := now |}];
                lastPong := lastPong st |} in
  if negb (String.eqb (f_type m) "start") then (src', st', [])
  else (src', st', [AddSubscription (clientId src') (f_query m) (f_variables m)]).

Definition onOutgoingMessage (m : Frame) (src : Source) : list Effect :=
  if negb (String.eqb (f_type m) "data") then []
  else [UpdateSubscriptionState (clientId src) (f_data m)].

Definition onPong (now : Z) (st : Proxy) : Proxy :=
  let lastPong' := now in
  {| backup := List.filter (fun m => (lastPong' <? timestamp m)%Z) (backup st);
     lastPong := lastPong' |}.

End ProxyBackupEarly.

(** ** The resumable publisher (src/src/server-with-resume.js) *)

Module ServerWithResume.

(** [pubsub.publish({ topic, payload })] of the framework. *)
Inductive Effect :=
| Publish (topic : string) (payload : Payload).

(** [Mutation.sendMessage]: [uuid] is the value of [randomUUID()], [now]
    that of [new Date().toISOString()]. The log is [storage.messages]. *)
Definition sendMessage (uuid now : string) (text user : string)
    (messages : list Message) : Message * list Message * list Effect :=
  let message := {| id := uuid; text := text; user := user; at_ := now |} in
  (message, messages ++ [message],
   [Publish "MESSAGE_SENT" {| onMessage := message |}]).

(** What [Subscription.onMessage.subscribe] returns: the framework's live
    iterator, the async generator closed over [messagesToSend], or
    nothing at all when the function falls off its end. *)
Inductive Subscription :=
| LiveOnly
| Resuming (messagesToSend : list Message)
| Undefined.

Definition subscribe (cursor : option string) (messages : list Message)
  : Subscription :=
  if negb (truthy cursor) then LiveOnly
  else
    let startIndex :=
      findIndex (fun msg => bool_decide (Some (id msg) = cursor)) messages in
    if negb (startIndex =? -1)%Z
    then Resuming (slice startIndex messages)
    else Undefined.

(** The [for await] loop of the generator over the payloads the live
    iterator delivers, with the loop variable [resumeFromNext]. *)
Fixpoint liveLoop (messagesToSend : list Message) (resumeFromNext : bool)
    (live : list Payload) : list Payload :=
  match live with
  | [] => []
  | message :: rest =>
      if (length messagesToSend =? 0)%nat || resumeFromNext
      then message :: liveLoop messagesToSend resumeFromNext rest
      else if match last messagesToSend with
              | Some m => String.eqb (id (onMessage message)) (id m)
              | None => false
              end
      then liveLoop messagesToSend true rest
      else liveLoop messagesToSend resumeFromNext rest
  end.

(** Everything the generator yields when the live iterator, subscribed to
    once the stored messages are out, delivers [live]. *)
Definition generator (messagesToSend : list Message) (live : list Payload)
  : list Payload :=
  map mkPayload messagesToSend ++ liveLoop messagesToSend false live.

(** The payloads a subscriber gets from the returned value; [None] when
    there is no stream to read. *)
Definition yields (s : Subscription) (live : list Payload)
  : option (list Payload) :=
  match s with
  | LiveOnly => Some live
  | Resuming messagesToSend => Some (generator messagesToSend live)
  | Undefined => None
  end.

End ServerWithResume.

(** ** The unstable publisher with its own pubsub (unnamed/part_001) *)

Module ServerUnstable.

Inductive ProblemKind := unresponsive | close_connection | break_connection.

Definition problems : list ProblemKind :=
  [unresponsive; close_connection; break_connection].

(** The object [scheduleSubscriptionProblem] builds,
    [{ subscriptionId, [p]: { timeout } }]; [run] is set by the timer of
    an [unresponsive] problem. *)
Record Problem := mkProblem {
  p_kind : ProblemKind;
  p_timeout : Z;
  p_run : bool
}.

(** What one call of [Pubsub.subscribe] closes over: the subscription id,
    the socket, the queue it feeds, the cursor, the problem object shared
    by the ping handler and the listener, and whether the listener is
    still registered on the emitter. *)
Record Call := mkCall {
  c_subscriptionId : string;
  c_ws : nat;
  c_queue : nat;
  c_cursor : option string;
  c_problem : option Problem;
  c_listening : bool
}.

(** Process state: [storage.messages], [problemIndex], the subscribe
    calls made so far in order, what has been pushed on every queue, and
    the listener invocations asleep in [sleep(MESSAGE_DELAY)], oldest
    first. The counters of [problemStats] and the log lines are left out. *)
Record Server := mkServer {
  messages : list Message;
  problemIndex : nat;
  calls : list Call;
  queues : gmap nat (list Payload);
  sleeping : list (nat * Payload)
}.

Inductive Effect :=
| SetTimeout (ms : Z) (call : nat)
| Pong (ws : nat)
| SocketEnd (ws : nat)
| SocketDestroy (ws : nat).

Definition init : Server :=
  {| messages := []; problemIndex := 0; calls := []; queues := ∅;
     sleeping := [] |}.

Definition queue_of (q : nat) (s : Server) : list Payload :=
  default [] (queues s !! q).

(** [queue.push(p)] *)
Definition push (q : nat) (p : Payload) (qs : gmap nat (list Payload))
  : gmap nat (list Payload) :=
  <[q := default [] (qs !! q) ++ [p]]> qs.

(** [problem?.unresponsive && problem?.run] *)
Definition silenced (c : Call) : bool :=
  match c_problem c with
  | Some p =>
      match p_kind p with
      | unresponsive => p_run p
      | _ => false
      end
  | None => false
  end.

(** [scheduleSubscriptionProblem]: [roll] is the outcome of
    [Math.random() > SUBSCRIPTION_PROBLEM_CHANCE], [timeout] the rounded
    delay drawn in the configured window. The kind is taken round robin. *)
Definition scheduleSubscriptionProblem (roll : bool) (timeout : Z)
    (index : nat) : option Problem * nat :=
  if roll then (None, index)
  else
    match problems !! index with
    | Some p =>
        (Some {| p_kind := p; p_timeout := timeout; p_run := false |},
         (index + 1) mod length problems)
    | None => (None, (index + 1) mod length problems)
    end.

(** [Pubsub.subscribe(topic, queue, context, id)]. [uuid] is the value of
    [randomUUID()], used when the context has no id. *)
Definition subscribe (uuid : string) (roll : bool) (timeout : Z)
    (queue : nat) (ws : nat) (context_id : option string)
    (cursor : option string) (s : Server) : Server * list Effect :=
  let subscriptionId :=
    match context_id with
    | Some i => if truthy context_id then i else uuid
    | None => uuid
    end in
  let '(problem, index') :=
    scheduleSubscriptionProblem roll timeout (problemIndex s) in
  let call := {| c_subscriptionId := subscriptionId; c_ws := ws;
                 c_queue := queue; c_cursor := cursor;
                 c_problem := problem; c_listening := true |} in
  let timers :=
    match problem with
    | Some p => [SetTimeout (p_timeout p) (length (calls s))]
    | None => []
    end in
  let registered :=
    {| messages := messages s; problemIndex := index';
       calls := calls s ++ [call]; queues := queues s;
       sleeping := sleeping s |} in
  if negb (truthy cursor) then (registered, timers)
  else
    let startIndex :=
      findIndex (fun msg => bool_decide (Some (id msg) = cursor))
                (messages s) in
    if negb (startIndex =? -1)%Z then
      let messagesToSend := slice (startIndex + 1) (messages s) in
      ({| messages := messages s; problemIndex := index';
          calls := calls s ++ [call];
          queues := foldl (fun qs m => push queue {| onMessage := m |} qs)
                          (queues s) messagesToSend;
          sleeping := sleeping s |},
       timers)
    else (registered, timers).

(** The timer armed by [triggerProblem] for call number [i] fires. *)
Definition problemFires (i : nat) (s : Server) : Server * list Effect :=
  match calls s !! i with
  | Some c =>
      match c_problem c with
      | Some p =>
          match p_kind p with
          | unresponsive =>
              ({| messages := messages s; problemIndex := problemIndex s;
                  calls := <[i := {| c_subscriptionId := c_subscriptionId c;
                                     c_ws := c_ws c; c_queue := c_queue c;
                                     c_cursor := c_cursor c;
                                     c_problem :=
                                       Some {| p_kind := p_kind p;
                                               p_timeout := p_timeout p;
                                               p_run := true |};
                                     c_listening := c_listening c |}]>
                             (calls s);
                  queues := queues s; sleeping := sleeping s |}, [])
          | close_connection => (s, [SocketEnd (c_ws c)])
          | break_connection => (s, [SocketDestroy (c_ws c)])
          end
      | None => (s, [])
      end
  | None => (s, [])
  end.

(** A ping arrives on socket [ws]: every handler registered on it runs. *)
Definition onPing (ws : nat) (s : Server) : list Effect :=
  flat_map (fun c => if (c_ws c =? ws)%nat && negb (silenced c)
                     then [Pong ws] else [])
           (calls s).

(** [queue.on('close', subscription.close)]: the listener is removed. *)
Definition closeQueue (q : nat) (s : Server) : Server :=
  {| messages := messages s; problemIndex := problemIndex s;
     calls := map (fun c => if (c_queue c =? q)%nat
                            then {| c_subscriptionId := c_subscriptionId c;
                                    c_ws := c_ws c; c_queue := c_queue c;
                                    c_cursor := c_cursor c;
                                    c_problem := c_problem c;
                                    c_listening := false |}
                            else c) (calls s);
     queues := queues s; sleeping := sleeping s |}.

(** [emitter.emit(topic, message)]: every registered listener runs up to
    its [await sleep(MESSAGE_DELAY)], unless it has gone silent. *)
Definition emit (p : Payload) (cs : list Call) : list (nat * Payload) :=
  flat_map (fun c => if c_listening c && negb (silenced c)
                     then [(c_queue c, p)] else [])
           cs.

(** [Mutation.sendMessage] *)
Definition sendMessage (uuid now : string) (text user : string)
    (s : Server) : Message * Server :=
  let message := {| id := uuid; text := text; user := user; at_ := now |} in
  (message,
   {| messages := messages s ++ [message]; problemIndex := problemIndex s;
      calls := calls s; queues := queues s;
      sleeping := sleeping s ++ emit {| onMessage := message |} (calls s) |}).

(** The oldest sleeping listener wakes up and pushes on its queue. *)
Definition wake (s : Server) : Server :=
  match sleeping s with
  | [] => s
  | (q, p) :: rest =>
      {| messages := messages s; problemIndex := problemIndex s;
         calls := calls s; queues := push q p (queues s);
         sleeping := rest |}
  end.

(** All sleeping listeners wake up, in the order they went to sleep. *)
Definition drain (s : Server) : Server :=
  {| messages := messages s; problemIndex := problemIndex s;
     calls := calls s;
     queues := foldl (fun qs '(q, p) => push q p qs) (queues s) (sleeping s);
     sleeping := [] |}.

(** A publish request as it reaches the server. *)
Record Request := mkRequest {
  r_uuid : string; r_now : string; r_text : string; r_user : string
}.

Definition created (r : Request) : Message :=
  {| id := r_uuid r; text := r_text r; user := r_user r; at_ := r_now r |}.

Definition publishAll (rs : list Request) (s : Server) : Server :=
  foldl (fun s r => snd (sendMessage (r_uuid r) (r_now r) (r_text r) (r_user r) s))
        s rs.

End ServerUnstable.

(** ** What the WebSocket clients share *)

Module Js.

(** Identities of the objects the clients hold by reference. *)
Definition Handler := nat.
Definition Socket := nat.
Definition Timer := nat.

Inductive Error :=
| Err (msg : string)
| TypeError (msg : string).

Inductive Outcome (A : Type) :=
| Returned (a : A)
| Threw (e : Error).
Arguments Returned {A} a.
Arguments Threw {A} e.

(** The two subscription documents a client sends. *)
Inductive Query := OnMessage | OnMessageWithId.

(** Frames a client writes on the socket. *)
Inductive Frame :=
| ConnectionInit
| Start (i : string) (query : Query) (variables : option string)
| Stop (i : string).

(** A frame read from the socket, after [JSON.parse]; [Data None] is a
    data frame whose [payload?.data?.onMessage] is missing. *)
Inductive Incoming :=
| ConnectionAck
| Data (m : option Message)
| ErrorFrame (payload : string)
| OtherFrame.

(** The answer of the HTTP endpoint to a mutation. *)
Inductive Response :=
| FetchFailed (msg : string)
| Errors (first : string)
| Created (m : Message).

Inductive Effect :=
| NewWebSocket (s : Socket) (url : string)
| WsSend (s : Socket) (f : Frame)
| WsClose (s : Socket)
| WsPing (s : Socket)
| SetInterval (t : Timer) (ms : Z)
| ClearInterval (t : Timer)
| SetTimeout (ms : Z)
| Sleep (ms : Z)
| Call (h : Handler) (m : Message)
| Resolve
| Reject (e : Error)
| Warn (msg : string)
| Fetch (url : string) (text user : string).

(** A method body: it reads and writes the object [S], may throw, and
    leaves effects behind. A throw keeps the writes made before it. *)
Definition M (S A : Type) : Type := S -> Outcome A * S * list Effect.

Definition ret {S A} (a : A) : M S A := fun s => (Returned a, s, []).

Definition bind {S A B} (m : M S A) (f : A -> M S B) : M S B :=
  fun s =>
    match m s with
    | (Returned a, s1, e1) =>
        let '(r, s2, e2) := f a s1 in (r, s2, e1 ++ e2)
    | (Threw e, s1, e1) => (Threw e, s1, e1)
    end.

Definition get {S} : M S S := fun s => (Returned s, s, []).
Definition modify {S} (f : S -> S) : M S unit := fun s => (Returned tt, f s, []).
Definition emit {S} (e : Effect) : M S unit := fun s => (Returned tt, s, [e]).
Definition throw {S A} (e : Error) : M S A := fun s => (Threw e, s, []).

(** [try { m } catch (error) { h }] *)
Definition try_catch {S A} (m : M S A) (h : Error -> M S A) : M S A :=
  fun s =>
    match m s with
    | (Returned a, s1, e1) => (Returned a, s1, e1)
    | (Threw e, s1, e1) =>
        let '(r, s2, e2) := h e s1 in (r, s2, e1 ++ e2)
    end.

Definition state_of {S A} (x : Outcome A * S * list Effect) : S := snd (fst x).
Definition outcome_of {S A} (x : Outcome A * S * list Effect) : Outcome A :=
  fst (fst x).
Definition effects_of {S A} (x : Outcome A * S * list Effect) : list Effect :=
  snd x.

(** [String.prototype.replace(pattern, replacement)] with a string
    pattern: the first occurrence only. *)
Fixpoint replace (pattern replacement s : string) : string :=
  if String.prefix pattern s
  then (replacement ++ String.substring (String.length pattern)
                         (String.length s - String.length pattern) s)%string
  else match s with
       | EmptyString => EmptyString
       | String c s' => String c (replace pattern replacement s')
       end.

(** [`${v}`] for a value that is a string or [null]. *)
Definition show (v : option string) : string := default "null" v.

Definition is_call (e : Effect) : bool :=
  match e with Call _ _ => true | _ => false end.

Definition is_send (e : Effect) : bool :=
  match e with WsSend _ _ => true | _ => false end.

End Js.

(** The methods are written with stdpp's monad notation. *)
#[global] Instance M_ret {S} : MRet (Js.M S) := fun A a => Js.ret a.
#[global] Instance M_bind {S} : MBind (Js.M S) := fun A B f m => Js.bind m f.

(** ** The single-subscription client (src/src/server-simple.js, third file,
       lines 600-920) *)

Module Client.

Import Js.

Definition CONNECTION_TIMEOUT : Z := 5000.
Definition HEARTBEAT_INTERVAL : Z := 30000.
Definition MAX_RECONNECT_ATTEMPTS : Z := 5.
Definition INITIAL_RECONNECT_DELAY : Z := 2000.
Definition MAX_RECONNECT_DELAY : Z := 30000.

(** The fields of a [GraphQLClient]. [subscriptions] is a property that
    [disconnect] reads and the constructor never sets: [None] is
    [undefined]. *)
Record Client := mkClient {
  url : string;
  httpUrl : string;
  clientId : option string;
  ws : option Socket;
  connected : bool;
  subscriptionId : option string;
  messageHandler : option Handler;
  lastMessageId : option string;
  heartbeatInterval : option Timer;
  reconnectAttempts : Z;
  maxReconnectAttempts : Z;
  reconnectDelay : Z;
  shouldReconnect : bool;
  subscriptions : option (gmap string Handler)
}.

Definition set_ws v c :=
  mkClient (url c) (httpUrl c) (clientId c) v (connected c)
    (subscriptionId c) (messageHandler c) (lastMessageId c)
    (heartbeatInterval c) (reconnectAttempts c) (maxReconnectAttempts c)
    (reconnectDelay c) (shouldReconnect c) (subscriptions c).
Definition set_connected v c :=
  mkClient (url c) (httpUrl c) (clientId c) (ws c) v
    (subscriptionId c) (messageHandler c) (lastMessageId c)
    (heartbeatInterval c) (reconnectAttempts c) (maxReconnectAttempts c)
    (reconnectDelay c) (shouldReconnect c) (subscriptions c).
Definition set_subscriptionId v c :=
  mkClient (url c) (httpUrl c) (clientId c) (ws c) (connected c)
    v (messageHandler c) (lastMessageId c)
    (heartbeatInterval c) (reconnectAttempts c) (maxReconnectAttempts c)
    (reconnectDelay c) (shouldReconnect c) (subscriptions c).
Definition set_messageHandler v c :=
  mkClient (url c) (httpUrl c) (clientId c) (ws c) (connected c)
    (subscriptionId c) v (lastMessageId c)
    (heartbeatInterval c) (reconnectAttempts c) (maxReconnectAttempts c)
    (reconnectDelay c) (shouldReconnect c) (subscriptions c).
Definition set_lastMessageId v c :=
  mkClient (url c) (httpUrl c) (clientId c) (ws c) (connected c)
    (subscriptionId c) (messageHandler c) v
    (heartbeatInterval c) (reconnectAttempts c) (maxReconnectAttempts c)
    (reconnectDelay c) (shouldReconnect c) (subscriptions c).
Definition set_heartbeatInterval v c :=
  mkClient (url c) (httpUrl c) (clientId c) (ws c) (connected c)
    (subscriptionId c) (messageHandler c) (lastMessageId c)
    v (reconnectAttempts c) (maxReconnectAttempts c)
    (reconnectDelay c) (shouldReconnect c) (subscriptions c).
Definition set_reconnectAttempts v c :=
  mkClient (url c) (httpUrl c) (clientId c) (ws c) (connected c)
    (subscriptionId c) (messageHandler c) (lastMessageId c)
    (heartbeatInterval c) v (maxReconnectAttempts c)
    (reconnectDelay c) (shouldReconnect c) (subscriptions c).
Definition set_reconnectDelay v c :=
  mkClient (url c) (httpUrl c) (clientId c) (ws c) (connected c)
    (subscriptionId c) (messageHandler c) (lastMessageId c)
    (heartbeatInterval c) (reconnectAttempts c) (maxReconnectAttempts c)
    v (shouldReconnect c) (subscriptions c).
Definition set_shouldReconnect v c :=
  mkClient (url c) (httpUrl c) (clientId c) (ws c) (connected c)
    (subscriptionId c) (messageHandler c) (lastMessageId c)
    (heartbeatInterval c) (reconnectAttempts c) (maxReconnectAttempts c)
    (reconnectDelay c) v (subscriptions c).

(** [constructor(url, clientId)] *)
Definition new (url : string) (clientId : option string) : Client :=
  {| url := url;
     httpUrl := replace "wss://" "https://" (replace "ws://" "http://" url);
     clientId := clientId;
     ws := None;
     connected := false;
     subscriptionId := None;
     messageHandler := None;
     lastMessageId := None;
     heartbeatInterval := None;
     reconnectAttempts := 0;
     maxReconnectAttempts := MAX_RECONNECT_ATTEMPTS;
     reconnectDelay := INITIAL_RECONNECT_DELAY;
     shouldReconnect := true;
     subscriptions := None |}.

(** [this.ws.send(frame)]: a [TypeError] when [this.ws] is [null]. *)
Definition ws_send (f : Frame) : M Client unit :=
  c ← get;
  match ws c with
  | Some s => emit (WsSend s f)
  | None => throw (TypeError "Cannot read properties of null (reading 'send')")
  end.

Definition stopHeartbeat : M Client unit :=
  c ← get;
  match heartbeatInterval c with
  | Some t => emit (ClearInterval t) ;; modify (set_heartbeatInterval None)
  | None => mret tt
  end.

(** [startHeartbeat()]; [t] is the handle [setInterval] returns. *)
Definition startHeartbeat (t : Timer) : M Client unit :=
  stopHeartbeat ;;
  emit (SetInterval t HEARTBEAT_INTERVAL) ;;
  modify (set_heartbeatInterval (Some t)).

(** One tick of the heartbeat interval; [open] is
    [this.ws.readyState === WebSocket.OPEN]. *)
Definition heartbeatTick (open : bool) : M Client unit :=
  c ← get;
  match ws c with
  | Some s => if open then emit (WsPing s) else mret tt
  | None => mret tt
  end.

(** [connect()] up to the point where the promise is handed back; [s] is
    the socket [new WebSocket] creates. *)
Definition connect (s : Socket) : M Client unit :=
  c ← get;
  emit (NewWebSocket s (url c)) ;;
  modify (set_ws (Some s)) ;;
  emit (SetTimeout CONNECTION_TIMEOUT).

(** The ['open'] listener. *)
Definition onOpen (t : Timer) : M Client unit :=
  ws_send ConnectionInit ;;
  startHeartbeat t ;;
  modify (set_reconnectAttempts 0) ;;
  modify (set_reconnectDelay INITIAL_RECONNECT_DELAY).

(** The ['message'] listener. *)
Definition onMessageFrame (msg : Incoming) : M Client unit :=
  match msg with
  | ConnectionAck => modify (set_connected true) ;; emit Resolve
  | Data (Some message) =>
      (if truthy (Some (id message))
       then modify (set_lastMessageId (Some (id message)))
       else mret tt) ;;
      c ← get;
      match messageHandler c with
      | Some h => emit (Call h message)
      | None => mret tt
      end
  | Data None => mret tt
  | ErrorFrame payload => emit (Reject (Err payload))
  | OtherFrame => mret tt
  end.

(** The ['error'] listener. *)
Definition onError (error : string) : M Client unit :=
  stopHeartbeat ;;
  c ← get;
  if negb (connected c) then emit (Reject (Err error)) else mret tt.

(** The connection timeout armed by [connect]. *)
Definition onTimeout : M Client unit :=
  c ← get;
  if negb (connected c) then emit (Reject (Err "Connection timeout"))
  else mret tt.

Definition clearSubscription : M Client unit :=
  modify (set_subscriptionId None).

(** [subscribe(onMessage, id = null)] *)
Definition subscribe (onMessage : option Handler) (cursor : option string)
  : M Client (option string) :=
  c ← get;
  if negb (connected c) then throw (Err "Not connected to server")
  else if truthy (subscriptionId c)
  then emit (Warn ("Client already subscribed, subscription id: "
                 ++ show (subscriptionId c))%string) ;; mret None
  else
    modify (set_messageHandler onMessage) ;;
    modify (set_subscriptionId
              (Some ("subscription:client-" ++ show (clientId c))%string)) ;;
    c ← get;
    let query := if truthy cursor then OnMessageWithId else OnMessage in
    let variables := if truthy cursor then cursor else None in
    ws_send (Start (show (subscriptionId c)) query variables) ;;
    mret (subscriptionId c).

(** [sendMessage(user, text)]; [response] is what the HTTP request comes
    back with. *)
Definition sendMessage (user text : string) (response : Response)
  : M Client Message :=
  c ← get;
  if negb (connected c) then throw (Err "Not connected to server")
  else
    emit (Fetch (httpUrl c) text user) ;;
    match response with
    | FetchFailed msg => throw (Err msg)
    | Errors first => throw (Err first)
    | Created m => mret m
    end.

(** [attemptReconnect()] up to [await sleep(delay)]; returns the delay. *)
Definition attemptReconnect : M Client Z :=
  modify (set_ws None) ;;
  clearSubscription ;;
  c ← get;
  modify (set_reconnectAttempts (reconnectAttempts c + 1)) ;;
  c ← get;
  let delay := Z.min (reconnectDelay c * 2 ^ (reconnectAttempts c - 1))
                     MAX_RECONNECT_DELAY in
  emit (Sleep delay) ;;
  mret delay.

(** [attemptReconnect()] after the sleep, up to [await this.connect()]. *)
Definition attemptReconnect_wake (s : Socket) : M Client unit :=
  c ← get;
  if negb (shouldReconnect c) then mret tt else connect s.

(** The [catch] block of [attemptReconnect]. *)
Definition attemptReconnect_catch : M Client (option Z) :=
  c ← get;
  if (reconnectAttempts c <? maxReconnectAttempts c)%Z
  then d ← attemptReconnect; mret (Some d)
  else mret None.

(** [attemptReconnect()] once [connect()] has resolved: re-subscribe,
    inside the [try]. *)
Definition attemptReconnect_connected : M Client (option Z) :=
  try_catch
    (c ← get;
     subscribe (messageHandler c) (lastMessageId c) ;;
     mret None)
    (fun _ => attemptReconnect_catch).

(** The ['close'] listener. *)
Definition onClose : M Client (option Z) :=
  modify (set_connected false) ;;
  stopHeartbeat ;;
  c ← get;
  if shouldReconnect c && (reconnectAttempts c <? maxReconnectAttempts c)%Z
  then d ← attemptReconnect; mret (Some d)
  else mret None.

(** [unsubscribe()] *)
Definition unsubscribe : M Client unit :=
  c ← get;
  match ws c with
  | Some s =>
      if truthy (subscriptionId c) then
        emit (WsSend s (Stop (show (subscriptionId c)))) ;;
        modify (set_subscriptionId None) ;;
        modify (set_messageHandler None)
      else mret tt
  | None => mret tt
  end.

(** [disconnect()] *)
Definition disconnect : M Client unit :=
  modify (set_shouldReconnect false) ;;
  stopHeartbeat ;;
  c ← get;
  match ws c with
  | Some s =>
      emit (WsClose s) ;;
      modify (set_connected false) ;;
      match subscriptions c with
      | Some _ => mret tt
      | None =>
          throw (TypeError "Cannot read properties of undefined (reading 'clear')")
      end ;;
      modify (set_messageHandler None) ;;
      modify (set_subscriptionId None) ;;
      modify (set_ws None)
  | None => mret tt
  end.

(** Everything that can happen to a client: what its socket and timers
    deliver, the stages of a reconnection, and the calls of its user. *)
Inductive Event :=
| EOpen (t : Timer)
| EMessage (msg : Incoming)
| EError (error : string)
| EClose
| ETimeout
| EHeartbeat (open : bool)
| EWake (s : Socket)
| EConnected
| ERejected
| UConnect (s : Socket)
| USubscribe (onMessage : option Handler) (cursor : option string)
| USendMessage (user text : string) (response : Response)
| UUnsubscribe
| UDisconnect.

Definition void {A} (m : M Client A) : M Client unit := m ;; mret tt.

Definition handle (e : Event) : M Client unit :=
  match e with
  | EOpen t => onOpen t
  | EMessage msg => onMessageFrame msg
  | EError error => onError error
  | EClose => void onClose
  | ETimeout => onTimeout
  | EHeartbeat open => heartbeatTick open
  | EWake s => attemptReconnect_wake s
  | EConnected => void attemptReconnect_connected
  | ERejected => void attemptReconnect_catch
  | UConnect s => connect s
  | USubscribe h cursor => void (subscribe h cursor)
  | USendMessage u t r => void (sendMessage u t r)
  | UUnsubscribe => unsubscribe
  | UDisconnect => disconnect
  end.

(** A run of events from a state: the final state and all effects. An
    event whose handler throws leaves the state it reached. *)
Fixpoint run (es : list Event) (c : Client) : Client * list Effect :=
  match es with
  | [] => (c, [])
  | e :: es' =>
      let r := handle e c in
      let '(c', effs) := run es' (state_of r) in
      (c', effects_of r ++ effs)
  end.

Definition is_user_subscribe (e : Event) : bool :=
  match e with USubscribe _ _ => true | _ => false end.

End Client.

(** ** The client with several handlers (src/src/server-simple.js, second
       file, lines 272-599) *)

Module ClientWithResume.

Import Js.

Definition CONNECTION_TIMEOUT : Z := 5000.
Definition HEARTBEAT_INTERVAL : Z := 30000.
Definition MAX_RECONNECT_ATTEMPTS : Z := 5.
Definition INITIAL_RECONNECT_DELAY : Z := 1000.
Definition MAX_RECONNECT_DELAY : Z := 30000.

(** The fields of this [GraphQLClient]: a [Map] from subscription id to
    handler, a counter for ids and the array of handlers. *)
Record Client := mkClient {
  url : string;
  clientId : option string;
  ws : option Socket;
  connected : bool;
  subscriptions : gmap string Handler;
  subscriptionId : Z;
  messageHandlers : list Handler;
  lastMessageId : option string;
  heartbeatInterval : option Timer;
  reconnectAttempts : Z;
  maxReconnectAttempts : Z;
  reconnectDelay : Z;
  shouldReconnect : bool
}.

Definition set_ws v c :=
  mkClient (url c) (clientId c) v (connected c) (subscriptions c)
    (subscriptionId c) (messageHandlers c) (lastMessageId c)
    (heartbeatInterval c) (reconnectAttempts c) (maxReconnectAttempts c)
    (reconnectDelay c) (shouldReconnect c).
Definition set_connected v c :=
  mkClient (url c) (clientId c) (ws c) v (subscriptions c)
    (subscriptionId c) (messageHandlers c) (lastMessageId c)
    (heartbeatInterval c) (reconnectAttempts c) (maxReconnectAttempts c)
    (reconnectDelay c) (shouldReconnect c).
Definition set_subscriptions v c :=
  mkClient (url c) (clientId c) (ws c) (connected c) v
    (subscriptionId c) (messageHandlers c) (lastMessageId c)
    (heartbeatInterval c) (reconnectAttempts c) (maxReconnectAttempts c)
    (reconnectDelay c) (shouldReconnect c).
Definition set_subscriptionId v c :=
  mkClient (url c) (clientId c) (ws c) (connected c) (subscriptions c)
    v (messageHandlers c) (lastMessageId c)
    (heartbeatInterval c) (reconnectAttempts c) (maxReconnectAttempts c)
    (reconnectDelay c) (shouldReconnect c).
Definition set_messageHandlers v c :=
  mkClient (url c) (clientId c) (ws c) (connected c) (subscriptions c)
    (subscriptionId c) v (lastMessageId c)
    (heartbeatInterval c) (reconnectAttempts c) (maxReconnectAttempts c)
    (reconnectDelay c) (shouldReconnect c).
Definition set_lastMessageId v c :=
  mkClient (url c) (clientId c) (ws c) (connected c) (subscriptions c)
    (subscriptionId c) (messageHandlers c) v
    (heartbeatInterval c) (reconnectAttempts c) (maxReconnectAttempts c)
    (reconnectDelay c) (shouldReconnect c).
Definition set_heartbeatInterval v c :=
  mkClient (url c) (clientId c) (ws c) (connected c) (subscriptions c)
    (subscriptionId c) (messageHandlers c) (lastMessageId c)
    v (reconnectAttempts c) (maxReconnectAttempts c)
    (reconnectDelay c) (shouldReconnect c).
Definition set_reconnectAttempts v c :=
  mkClient (url c) (clientId c) (ws c) (connected c) (subscriptions c)
    (subscriptionId c) (messageHandlers c) (lastMessageId c)
    (heartbeatInterval c) v (maxReconnectAttempts c)
    (reconnectDelay c) (shouldReconnect c).
Definition set_reconnectDelay v c :=
  mkClient (url c) (clientId c) (ws c) (connected c) (subscriptions c)
    (subscriptionId c) (messageHandlers c) (lastMessageId c)
    (heartbeatInterval c) (reconnectAttempts c) (maxReconnectAttempts c)
    v (shouldReconnect c).
Definition set_shouldReconnect v c :=
  mkClient (url c) (clientId c) (ws c) (connected c) (subscriptions c)
    (subscriptionId c) (messageHandlers c) (lastMessageId c)
    (heartbeatInterval c) (reconnectAttempts c) (maxReconnectAttempts c)
    (reconnectDelay c) v.

(** [constructor(url, clientId)] *)
Definition new (url : string) (clientId : option string) : Client :=
  {| url := url;
     clientId := clientId;
     ws := None;
     connected := false;
     subscriptions := ∅;
     subscriptionId := 0;
     messageHandlers := [];
     lastMessageId := None;
     heartbeatInterval := None;
     reconnectAttempts := 0;
     maxReconnectAttempts := MAX_RECONNECT_ATTEMPTS;
     reconnectDelay := INITIAL_RECONNECT_DELAY;
     shouldReconnect := true |}.

Definition ws_send (f : Frame) : M Client unit :=
  c ← get;
  match ws c with
  | Some s => emit (WsSend s f)
  | None => throw (TypeError "Cannot read properties of null (reading 'send')")
  end.

(** [array.forEach(f)]: the elements present when the call starts. *)
Fixpoint forEach {A} (l : list A) (f : A -> M Client unit) : M Client unit :=
  match l with
  | [] => mret tt
  | x :: l' => f x ;; forEach l' f
  end.

Definition stopHeartbeat : M Client unit :=
  c ← get;
  match heartbeatInterval c with
  | Some t => emit (ClearInterval t) ;; modify (set_heartbeatInterval None)
  | None => mret tt
  end.

Definition startHeartbeat (t : Timer) : M Client unit :=
  stopHeartbeat ;;
  emit (SetInterval t HEARTBEAT_INTERVAL) ;;
  modify (set_heartbeatInterval (Some t)).

Definition heartbeatTick (open : bool) : M Client unit :=
  c ← get;
  match ws c with
  | Some s => if open then emit (WsPing s) else mret tt
  | None => mret tt
  end.

Definition connect (s : Socket) : M Client unit :=
  c ← get;
  emit (NewWebSocket s (url c)) ;;
  modify (set_ws (Some s)) ;;
  emit (SetTimeout CONNECTION_TIMEOUT).

Definition onOpen (t : Timer) : M Client unit :=
  ws_send ConnectionInit ;;
  startHeartbeat t ;;
  modify (set_reconnectAttempts 0) ;;
  modify (set_reconnectDelay INITIAL_RECONNECT_DELAY).

(** The ['message'] listener: every registered handler is called. *)
Definition onMessageFrame (msg : Incoming) : M Client unit :=
  match msg with
  | ConnectionAck => modify (set_connected true) ;; emit Resolve
  | Data (Some message) =>
      (if truthy (Some (id message))
       then modify (set_lastMessageId (Some (id message)))
       else mret tt) ;;
      c ← get;
      forEach (messageHandlers c) (fun handler => emit (Call handler message))
  | Data None => mret tt
  | ErrorFrame payload => emit (Reject (Err payload))
  | OtherFrame => mret tt
  end.

Definition onError (error : string) : M Client unit :=
  stopHeartbeat ;;
  c ← get;
  if negb (connected c) then emit (Reject (Err error)) else mret tt.

Definition onTimeout : M Client unit :=
  c ← get;
  if negb (connected c) then emit (Reject (Err "Connection timeout"))
  else mret tt.

(** [subscribe(onMessage, id = null)] *)
Definition subscribe (onMessage : Handler) (cursor : option string)
  : M Client string :=
  c ← get;
  if negb (connected c) then throw (Err "Not connected to server")
  else
    modify (set_subscriptionId (subscriptionId c + 1)) ;;
    c ← get;
    let subscriptionId' :=
      ("subscription:" ++ show (clientId c) ++ "-"
         ++ pretty (subscriptionId c))%string in
    modify (set_messageHandlers (messageHandlers c ++ [onMessage])) ;;
    let query := if truthy cursor then OnMessageWithId else OnMessage in
    let variables := if truthy cursor then cursor else None in
    ws_send (Start subscriptionId' query variables) ;;
    c ← get;
    modify (set_subscriptions (<[subscriptionId' := onMessage]> (subscriptions c))) ;;
    mret subscriptionId'.

Definition sendMessage (user text : string) (response : Response)
  : M Client Message :=
  c ← get;
  if negb (connected c) then throw (Err "Not connected to server")
  else
    emit (Fetch (replace "wss://" "https://" (replace "ws://" "http://" (url c)))
                text user) ;;
    match response with
    | FetchFailed msg => throw (Err msg)
    | Errors first => throw (Err first)
    | Created m => mret m
    end.

(** [attemptReconnect()] up to [await sleep(delay)]; returns the delay. *)
Definition attemptReconnect : M Client Z :=
  c ← get;
  modify (set_reconnectAttempts (reconnectAttempts c + 1)) ;;
  c ← get;
  let delay := Z.min (reconnectDelay c * 2 ^ (reconnectAttempts c - 1))
                     MAX_RECONNECT_DELAY in
  emit (Sleep delay) ;;
  mret delay.

Definition attemptReconnect_wake (s : Socket) : M Client unit :=
  c ← get;
  if negb (shouldReconnect c) then mret tt else connect s.

Definition attemptReconnect_catch : M Client (option Z) :=
  c ← get;
  if (reconnectAttempts c <? maxReconnectAttempts c)%Z
  then d ← attemptReconnect; mret (Some d)
  else mret None.

(** [subscribeWithResume()] *)
Definition subscribeWithResume : M Client unit :=
  c ← get;
  if (0 <? length (messageHandlers c))%nat && connected c then
    modify (set_subscriptions ∅) ;;
    let resumeId := lastMessageId c in
    forEach (messageHandlers c)
            (fun handler => subscribe handler resumeId ;; mret tt)
  else mret tt.

Definition attemptReconnect_connected : M Client (option Z) :=
  try_catch
    (c ← get;
     (if (0 <? length (messageHandlers c))%nat
      then subscribeWithResume else mret tt) ;;
     mret None)
    (fun _ => attemptReconnect_catch).

Definition onClose : M Client (option Z) :=
  modify (set_connected false) ;;
  stopHeartbeat ;;
  c ← get;
  if shouldReconnect c && (reconnectAttempts c <? maxReconnectAttempts c)%Z
  then d ← attemptReconnect; mret (Some d)
  else mret None.

(** [unsubscribe(subscriptionId)] *)
Definition unsubscribe (i : string) : M Client unit :=
  c ← get;
  if bool_decide (is_Some (subscriptions c !! i)) then
    ws_send (Stop i) ;;
    c ← get;
    modify (set_subscriptions (delete i (subscriptions c)))
  else mret tt.

(** [disconnect()] *)
Definition disconnect : M Client unit :=
  modify (set_shouldReconnect false) ;;
  stopHeartbeat ;;
  c ← get;
  match ws c with
  | Some s =>
      emit (WsClose s) ;;
      modify (set_connected false) ;;
      modify (set_subscriptions ∅) ;;
      modify (set_messageHandlers []) ;;
      modify (set_ws None)
  | None => mret tt
  end.

(** Everything that can happen to this client. *)
Inductive Event :=
| EOpen (t : Timer)
| EMessage (msg : Incoming)
| EError (error : string)
| EClose
| ETimeout
| EHeartbeat (open : bool)
| EWake (s : Socket)
| EConnected
| ERejected
| UConnect (s : Socket)
| USubscribe (onMessage : Handler) (cursor : option string)
| USendMessage (user text : string) (response : Response)
| UUnsubscribe (i : string)
| UDisconnect.

Definition void {A} (m : M Client A) : M Client unit := m ;; mret tt.

Definition handle (e : Event) : M Client unit :=
  match e with
  | EOpen t => onOpen t
  | EMessage msg => onMessageFrame msg
  | EError error => onError error
  | EClose => void onClose
  | ETimeout => onTimeout
  | EHeartbeat open => heartbeatTick open
  | EWake s => attemptReconnect_wake s
  | EConnected => void attemptReconnect_connected
  | ERejected => void attemptReconnect_catch
  | UConnect s => connect s
  | USubscribe h cursor => void (subscribe h cursor)
  | USendMessage u t r => void (sendMessage u t r)
  | UUnsubscribe i => unsubscribe i
  | UDisconnect => disconnect
  end.

Fixpoint run (es : list Event) (c : Client) : Client * list Effect :=
  match es with
  | [] => (c, [])
  | e :: es' =>
      let r := handle e c in
      let '(c', effs) := run es' (state_of r) in
      (c', effects_of r ++ effs)
  end.

End ClientWithResume.

(** ** Vocabulary of the properties *)

(** The order on message ids: strings compared character by character. *)
Definition id_lt (a b : string) : Prop := String.ltb a b = true.

(** The ids of a log increase strictly from each entry to the next. *)
Fixpoint ids_strictly_increasing (log : list Message) : Prop :=
  match log with
  | [] => True
  | m :: rest =>
      match rest with
      | [] => True
      | m' :: _ => id_lt (id m) (id m')
      end /\ ids_strictly_increasing rest
  end.

(** The messages of a log strictly after the first one whose id is [c]. *)
Fixpoint strictly_after (c : string) (log : list Message) : list Message :=
  match log with
  | [] => []
  | m :: rest => if String.eqb (id m) c then rest else strictly_after c rest
  end.

(** The messages of a log from the first one whose id is [c], included. *)
Fixpoint from_cursor (c : string) (log : list Message) : list Message :=
  match log with
  | [] => []
  | m :: rest => if String.eqb (id m) c then m :: rest else from_cursor c rest
  end.

(** What follows, in a live feed, the first payload whose message has id
    [i]; nothing when no payload has it. *)
Fixpoint after_reappearance (i : string) (live : list Payload) : list Payload :=
  match live with
  | [] => []
  | p :: rest =>
      if String.eqb (id (onMessage p)) i then rest
      else after_reappearance i rest
  end.

(** The ids of a log. *)
Definition ids (log : list Message) : list string := map id log.

(** What the sleeping listeners will push on queue [q]. *)
Definition pendingFor (q : nat) (sl : list (nat * Payload)) : list Payload :=
  map snd (List.filter (fun x => (fst x =? q)%nat) sl).

(** How many registered listeners that have not gone silent feed queue [q]. *)
Definition listeners (q : nat) (cs : list ServerUnstable.Call) : nat :=
  length (List.filter
            (fun c => ServerUnstable.c_listening c
                      && negb (ServerUnstable.silenced c)
                      && (ServerUnstable.c_queue c =? q)%nat) cs).

(** A queue the framework has just created: nothing was pushed on it, no
    listener feeds it and no sleeping listener is about to. *)
Definition fresh (q : nat) (s : ServerUnstable.Server) : Prop :=
  ServerUnstable.queues s !! q = None
  /\ listeners q (ServerUnstable.calls s) = 0%nat
  /\ pendingFor q (ServerUnstable.sleeping s) = [].

(** Whether a scheduled problem is of the kind whose timer silences the
    listener. *)
Definition unresponsive_kind (p : option ServerUnstable.Problem) : bool :=
  match p with
  | Some p =>
      match ServerUnstable.p_kind p with
      | ServerUnstable.unresponsive => true
      | _ => false
      end
  | None => false
  end.

(** What every event of the single-subscription client preserves from the
    constructor on: the base delay, the attempt limit, the range of the
    attempt counter and the absence of a [subscriptions] property. *)
Definition configured (c : Client.Client) : Prop :=
  Client.reconnectDelay c = Client.INITIAL_RECONNECT_DELAY
  /\ Client.maxReconnectAttempts c = Client.MAX_RECONNECT_ATTEMPTS
  /\ (0 <= Client.reconnectAttempts c <= Client.MAX_RECONNECT_ATTEMPTS)%Z
  /\ Client.subscriptions c = None.











(** ** Sample data for the concrete runs *)

Definition msg1 : Message :=
  {| id := "3f2b8c1e-7a4d-4e59-9c0a-1b2d3e4f5a6b"; text := "hello";
     user := "ann"; at_ := "2025-01-01T10:00:00.000Z" |}.
Definition msg2 : Message :=
  {| id := "0a9d7e6c-2b1f-4c3a-8d5e-6f7a8b9c0d1e"; text := "world";
     user := "bob"; at_ := "2025-01-01T10:00:01.000Z" |}.
Definition req3 : ServerUnstable.Request :=
  {| ServerUnstable.r_uuid := "c4d5e6f7-0a1b-4c2d-9e3f-4a5b6c7d8e9f";
     ServerUnstable.r_now := "2025-01-01T10:00:02.000Z";
     ServerUnstable.r_text := "again"; ServerUnstable.r_user := "ann" |}.
Definition server12 : ServerUnstable.Server :=
  {| ServerUnstable.messages := [msg1; msg2]; ServerUnstable.problemIndex := 0;
     ServerUnstable.calls := []; ServerUnstable.queues := ∅;
     ServerUnstable.sleeping := [] |}.

Definition req4 : ServerUnstable.Request :=
  {| ServerUnstable.r_uuid := "f47ac10b-58cc-4372-a567-0e02b2c3d479";
     ServerUnstable.r_now := "2025-01-01T10:00:03.000Z";
     ServerUnstable.r_text := "first"; ServerUnstable.r_user := "ann" |}.
Definition req5 : ServerUnstable.Request :=
  {| ServerUnstable.r_uuid := "16fd2706-8baf-433b-82eb-8c7fada847da";
     ServerUnstable.r_now := "2025-01-01T10:00:04.000Z";
     ServerUnstable.r_text := "second"; ServerUnstable.r_user := "bob" |}.

(** A single-subscription client after [connect()], the acknowledgment and
    [subscribe(handler 10)]. *)
Definition client_subscribed : Client.Client :=
  fst (Client.run
         [Client.UConnect 1; Client.EOpen 1; Client.EMessage Js.ConnectionAck;
          Client.USubscribe (Some 10%nat) None]
         (Client.new "ws://localhost:4000/graphql" (Some "1"))).

(** The same client after its connection closed once. *)
Definition client_closed_once : list Client.Event :=
  [Client.UConnect 1; Client.EOpen 1; Client.EMessage Js.ConnectionAck;
   Client.USubscribe (Some 10%nat) None; Client.EClose; Client.EWake 2].

(** A client with several handlers after [connect()], the acknowledgment
    and [subscribe(handler 10)]. *)
Definition client2_subscribed : ClientWithResume.Client :=
  fst (ClientWithResume.run
         [ClientWithResume.UConnect 1; ClientWithResume.EOpen 1;
          ClientWithResume.EMessage Js.ConnectionAck;
          ClientWithResume.USubscribe 10%nat None]
         (ClientWithResume.new "ws://localhost:4000/graphql" (Some "1"))).

Definition client2_closed_once : list ClientWithResume.Event :=
  [ClientWithResume.UConnect 1; ClientWithResume.EOpen 1;
   ClientWithResume.EMessage Js.ConnectionAck;
   ClientWithResume.USubscribe 10%nat None; ClientWithResume.EClose;
   ClientWithResume.EWake 2].

(** ** The intermediary without a buffer (unnamed/part_002, second file) *)

Module ProxyResume.

Import ProxyBackup.

(** The per-connection [source] object: here the hooks use [source.id]. *)
Record Source := mkSource { s_id : option string }.

(** What a hook leaves behind: it returns, or it ends in a
    [ReferenceError]. *)
Inductive Result :=
| Done (src : Source) (effects : list Effect)
| ReferenceError (msg : string).

Definition onDisconnect (src : Source) : list Effect :=
  [RemoveAllSubscriptions (s_id src)].

(** [onReconnect]; [done] is the truthiness of [process.env.DONE]. *)
Definition onReconnect (done : bool) (src : Source) : list Effect :=
  if done then [] else [RestoreSubscriptions (s_id src)].

(** [onIncomingMessage]: [source.id] is set only while it is falsy, to
    [m.id || randomUUID()]; this file does not import [randomUUID], so
    evaluating the right operand ends in a [ReferenceError]. *)
Definition onIncomingMessage (m : Frame) (src : Source) : Result :=
  let assigned :=
    if negb (truthy (s_id src))
    then if truthy (f_id m) then Some {| s_id := f_id m |} else None
    else Some src in
  match assigned with
  | None => ReferenceError "randomUUID is not defined"
  | Some src' =>
      if negb (String.eqb (f_type m) "start") then Done src' []
      else Done src' [AddSubscription (s_id src') (f_query m) (f_variables m)]
  end.

Definition onOutgoingMessage (m : Frame) (src : Source) : list Effect :=
  if String.eqb (f_type m) "data"
  then [UpdateSubscriptionState (s_id src) (f_data m)]
  else if String.eqb (f_type m) "error" then []
  else if String.eqb (f_type m) "complete"
  then [RemoveSubscription (s_id src)]
  else [].

(** A connection's inbound frames, one hook call per frame; a call that
    throws leaves [source] as it was. *)
Fixpoint incoming (ms : list Frame) (src : Source) : Source * list Effect :=
  match ms with
  | [] => (src, [])
  | m :: rest =>
      match onIncomingMessage m src with
      | Done src' effs =>
          let '(src'', effs') := incoming rest src' in (src'', effs ++ effs')
      | ReferenceError _ => incoming rest src
      end
  end.

End ProxyResume.

(** ** Runs of the hooks of the buffering intermediaries *)

Module ProxyRun.

Import ProxyBackup.

(** A hook call, with the value [Date.now()] has when it runs. *)
Inductive Hook :=
| Pong (now : Z)
| Incoming (now : Z) (raw : string) (m : Frame)
| Outgoing (m : Frame)
| Disconnect
| Reconnect (now : Z).

(** One hook of the later proxy. *)
Definition step (h : Hook) (x : Source * Proxy) : Source * Proxy :=
  match h with
  | Pong now => (fst x, ProxyBackup.onPong now (snd x))
  | Incoming now raw m => fst (ProxyBackup.onIncomingMessage now raw m (fst x) (snd x))
  | Outgoing _ => x
  | Disconnect => (fst x, fst (ProxyBackup.onDisconnect (fst x) (snd x)))
  | Reconnect now => (fst x, fst (ProxyBackup.onReconnect now (fst x) (snd x)))
  end.

(** One hook of the earlier proxy. *)
Definition stepEarly (h : Hook) (x : Source * Proxy) : Source * Proxy :=
  match h with
  | Pong now => (fst x, ProxyBackupEarly.onPong now (snd x))
  | Incoming now raw m =>
      fst (ProxyBackupEarly.onIncomingMessage now raw m (fst x) (snd x))
  | Outgoing _ => x
  | Disconnect => (fst x, fst (ProxyBackupEarly.onDisconnect (fst x) (snd x)))
  | Reconnect now => (fst x, fst (ProxyBackupEarly.onReconnect now (fst x) (snd x)))
  end.

Definition run (hs : list Hook) (x : Source * Proxy) : Source * Proxy :=
  foldl (fun x h => step h x) x hs.

Definition runEarly (hs : list Hook) (x : Source * Proxy) : Source * Proxy :=
  foldl (fun x h => stepEarly h x) x hs.

(** The clock reading of a hook, if it reads the clock. *)
Definition reading (h : Hook) : option Z :=
  match h with
  | Pong now | Incoming now _ _ | Reconnect now => Some now
  | Outgoing _ | Disconnect => None
  end.

(** The clock never goes back: every reading is at least [t] and at least
    the reading before it. *)
Fixpoint monotone (t : Z) (hs : list Hook) : Prop :=
  match hs with
  | [] => True
  | h :: rest =>
      match reading h with
      | Some now => (t <= now)%Z /\ monotone now rest
      | None => monotone t rest
      end
  end.

(** The last reading of a run that started at [t]. *)
Fixpoint latest (t : Z) (hs : list Hook) : Z :=
  match hs with
  | [] => t
  | h :: rest => latest (default t (reading h)) rest
  end.

End ProxyRun.

(** ** The replay of the earlier intermediary, wait by wait
       (unnamed/part_003, first file) *)

Module ProxyReplay.

Import ProxyBackup.

(** A call of [resendMessages] that sits in [await wait(250)]: the [now]
    it read on entry, the index its array iterator reads next, and the
    array it iterates. [for (const m of backup)] takes the array [backup]
    refers to on entry. While [backup] still refers to that array the loop
    sees what [push] and [length = 0] do to it ([None]); [onPong] makes
    [backup] refer to a new array, and from then on the loop is alone with
    the old one ([Some]). *)
Record Replay := mkReplay {
  r_now : Z;
  r_index : nat;
  r_detached : option (list Entry)
}.

Definition array_of (st : Proxy) (r : Replay) : list Entry :=
  match r_detached r with
  | Some a => a
  | None => backup st
  end.

(** The loop from one [next()] of the iterator to the next [await], or to
    its end: [rest] is the array from [index] on, [lastPong] the value the
    variable has now. The result is the frame sent and the index after it. *)
Fixpoint turn (now lastPong : Z) (index : nat) (rest : list Entry)
  : option (string * nat) :=
  match rest with
  | [] => None
  | m :: rest' =>
      if (timestamp m <? lastPong)%Z || (now <? timestamp m)%Z
      then turn now lastPong (S index) rest'
      else Some (message m, S index)
  end.

(** The loop runs on until it waits again or ends. *)
Definition resume (st : Proxy) (r : Replay) : list Effect * option Replay :=
  match turn (r_now r) (lastPong st) (r_index r)
             (drop (r_index r) (array_of st r)) with
  | Some (raw, i) =>
      ([TargetSend raw; Wait 250],
       Some {| r_now := r_now r; r_index := i; r_detached := r_detached r |})
  | None => ([], None)
  end.

(** [backup = backup.filter(...)]: a loop on the array [backup] referred
    to keeps that array. *)
Definition detach (old : list Entry) (r : Replay) : Replay :=
  match r_detached r with
  | Some _ => r
  | None => {| r_now := r_now r; r_index := r_index r; r_detached := Some old |}
  end.

(** The module state together with the replays that are waiting. *)
Record World := mkWorld {
  w_source : Source;
  w_proxy : Proxy;
  w_replays : list Replay
}.

(** A hook is called, or the wait of the [k]-th waiting replay is over. *)
Inductive Event :=
| Hook (h : ProxyRun.Hook)
| Timer (k : nat).

Definition step (e : Event) (w : World) : World * list Effect :=
  match e with
  | Hook (ProxyRun.Pong now) =>
      ({| w_source := w_source w;
          w_proxy := ProxyBackupEarly.onPong now (w_proxy w);
          w_replays := map (detach (backup (w_proxy w))) (w_replays w) |},
       [])
  | Hook (ProxyRun.Incoming now raw m) =>
      let '(src, st, effs) :=
        ProxyBackupEarly.onIncomingMessage now raw m (w_source w) (w_proxy w) in
      ({| w_source := src; w_proxy := st; w_replays := w_replays w |}, effs)
  | Hook (ProxyRun.Outgoing m) =>
      (w, ProxyBackupEarly.onOutgoingMessage m (w_source w))
  | Hook ProxyRun.Disconnect =>
      let '(st, effs) := ProxyBackupEarly.onDisconnect (w_source w) (w_proxy w) in
      ({| w_source := w_source w; w_proxy := st; w_replays := w_replays w |}, effs)
  | Hook (ProxyRun.Reconnect now) =>
      let '(effs, r) :=
        resume (w_proxy w)
               {| r_now := now; r_index := 0; r_detached := None |} in
      ({| w_source := w_source w; w_proxy := w_proxy w;
          w_replays := w_replays w ++ match r with
                                      | Some r' => [r']
                                      | None => []
                                      end |},
       RestoreSubscriptions (clientId (w_source w)) :: effs)
  | Timer k =>
      match w_replays w !! k with
      | Some r =>
          let '(effs, r') := resume (w_proxy w) r in
          ({| w_source := w_source w; w_proxy := w_proxy w;
              w_replays := match r' with
                           | Some r'' => <[k := r'']> (w_replays w)
                           | None => delete k (w_replays w)
                           end |},
           effs)
      | None => (w, [])
      end
  end.

Fixpoint run (es : list Event) (w : World) : World * list Effect :=
  match es with
  | [] => (w, [])
  | e :: es' =>
      let '(w1, effs1) := step e w in
      let '(w2, effs2) := run es' w1 in
      (w2, effs1 ++ effs2)
  end.

(** A proxy with no replay under way. *)
Definition idle (src : Source) (st : Proxy) : World :=
  {| w_source := src; w_proxy := st; w_replays := [] |}.

End ProxyReplay.

(** ** The traffic demo and its statistics (unnamed/part_003, second file) *)

Module DemoStats.

(** The text of one interval: [start.toString()] or [`${start}-${end}`];
    [toString] writes an integer below [10^21] with all its digits. *)
Definition interval (start end_ : Z) : string :=
  if (start =? end_)%Z then pretty start
  else (pretty start ++ "-" ++ pretty end_)%string.

(** The numbers of this function are JavaScript numbers, that is IEEE 754
    doubles, here with integer values. An integer is a double when 53
    significant bits hold it; [double z] is the double nearest to the
    integer [z], a tie going to the even significand (for magnitudes below
    [2^1024], where the doubles end). An addition of two such numbers
    gives the [double] of the exact sum. *)
Definition double (z : Z) : Z :=
  let m := Z.abs z in
  if (m <? 2 ^ 53)%Z then z
  else
    let e := (Z.log2 m - 52)%Z in
    let q := Z.shiftr m e in
    let r := (m - Z.shiftl q e)%Z in
    let half := (2 ^ (e - 1))%Z in
    let q' := if (half <? r)%Z || ((r =? half)%Z && Z.odd q)
              then (q + 1)%Z else q in
    (Z.sgn z * Z.shiftl q' e)%Z.

(** The loop of [groupConsecutiveNumbers] over [sortedNumbers[1..]], with
    its variables [start] and [end], and the push after the loop. The test
    is [sortedNumbers[i] === end + 1], an addition of doubles. *)
Fixpoint groupLoop (start end_ : Z) (rest : list Z) : list string :=
  match rest with
  | [] => [interval start end_]
  | x :: rest' =>
      if (x =? double (end_ + 1))%Z then groupLoop start x rest'
      else interval start end_ :: groupLoop x x rest'
  end.

(** [groupConsecutiveNumbers(numbers)]; the copy is sorted with the
    comparator [(a, b) => a - b]. *)
Definition groupConsecutiveNumbers (numbers : list Z) : list string :=
  if (length numbers =? 0)%nat then []
  else
    match merge_sort Z.le numbers with
    | [] => []
    | first :: rest => groupLoop first first rest
    end.

(** The bookkeeping fields of a [ClientTracker]. *)
Record ClientTracker := mkTracker {
  clientId : Z;
  sentMessages : list string;
  receivedMessages : list string;
  lastReceivedMessageId : option string;
  isConnected : bool
}.

(** [constructor(clientId)] *)
Definition newTracker (clientId : Z) : ClientTracker :=
  {| clientId := clientId; sentMessages := []; receivedMessages := [];
     lastReceivedMessageId := None; isConnected := false |}.

(** The handler [connect] subscribes: a message whose id was seen before
    is recorded in [globalStats.duplicatedMessages] and dropped. *)
Definition onDelivery (message : Message) (x : ClientTracker * list (Z * string))
  : ClientTracker * list (Z * string) :=
  let '(t, duplicatedMessages) := x in
  if bool_decide (id message ∈ receivedMessages t)
  then (t, duplicatedMessages ++ [(clientId t, id message)])
  else ({| clientId := clientId t; sentMessages := sentMessages t;
           receivedMessages := receivedMessages t ++ [id message];
           lastReceivedMessageId := Some (id message);
           isConnected := isConnected t |},
        duplicatedMessages).

Definition deliveries (ms : list Message) (x : ClientTracker * list (Z * string))
  : ClientTracker * list (Z * string) :=
  foldl (fun x m => onDelivery m x) x ms.

(** [array.indexOf(x)] *)
Definition indexOf (l : list string) (x : string) : Z :=
  findIndex (fun y => String.eqb y x) l.

(** The [missingIndices] a client gets in [printDetailedStats]. *)
Definition missingIndices (sent received : list string) : list Z :=
  flat_map (fun sentMessage =>
              if negb (bool_decide (sentMessage ∈ received))
              then [indexOf sent sentMessage] else [])
           sent.

End DemoStats.

(** ** The tracker of the proxy traffic demo (src/src/run-final.js) *)

Module TrafficStats.

(** The bookkeeping fields of this [ClientTracker]; the two [Set]s hold
    message ids. *)
Record ClientTracker := mkTracker {
  messagesSent : Z;
  messagesReceived : Z;
  lastReceivedMessageId : option string;
  expectedMessages : gset string;
  receivedMessages : gset string;
  connectionLost : Z;
  reconnections : Z;
  isConnected : bool
}.

Definition newTracker : ClientTracker :=
  {| messagesSent := 0; messagesReceived := 0; lastReceivedMessageId := None;
     expectedMessages := ∅; receivedMessages := ∅; connectionLost := 0;
     reconnections := 0; isConnected := false |}.

(** The handler [connect] subscribes. *)
Definition onDelivery (message : Message) (t : ClientTracker) : ClientTracker :=
  {| messagesSent := messagesSent t;
     messagesReceived := messagesReceived t + 1;
     lastReceivedMessageId := Some (id message);
     expectedMessages := expectedMessages t;
     receivedMessages := {[id message]} ∪ receivedMessages t;
     connectionLost := connectionLost t;
     reconnections := reconnections t;
     isConnected := isConnected t |}.

(** [sendMessage] after the client returned [result]. *)
Definition onSent (result : Message) (t : ClientTracker) : ClientTracker :=
  {| messagesSent := messagesSent t + 1;
     messagesReceived := messagesReceived t;
     lastReceivedMessageId := lastReceivedMessageId t;
     expectedMessages := {[id result]} ∪ expectedMessages t;
     receivedMessages := receivedMessages t;
     connectionLost := connectionLost t;
     reconnections := reconnections t;
     isConnected := isConnected t |}.

(** The [lostMessages] of [getStats()]. *)
Definition lostMessages (t : ClientTracker) : Z :=
  Z.max 0 (Z.of_nat (size (expectedMessages t))
           - Z.of_nat (size (receivedMessages t))).

(** What happens to a tracker: a delivery or a completed send. *)
Inductive Step := Delivered (m : Message) | Sent (m : Message).

Definition step (t : ClientTracker) (e : Step) : ClientTracker :=
  match e with
  | Delivered m => onDelivery m t
  | Sent m => onSent m t
  end.

End TrafficStats.

(** ** More vocabulary *)

(** The integers of an interval, both ends included. *)
Definition expand (iv : Z * Z) : list Z := seqZ (fst iv) (snd iv - fst iv + 1).

(** The maximal runs of consecutive integers of a sorted list, as pairs
    of their first and last number. *)
Fixpoint intervalsFrom (start end_ : Z) (rest : list Z) : list (Z * Z) :=
  match rest with
  | [] => [(start, end_)]
  | x :: rest' =>
      if (x =? end_ + 1)%Z then intervalsFrom start x rest'
      else (start, end_) :: intervalsFrom x x rest'
  end.

Definition intervalsOf (numbers : list Z) : list (Z * Z) :=
  match merge_sort Z.le numbers with
  | [] => []
  | first :: rest => intervalsFrom first first rest
  end.

(** The pairs behind the texts of [groupConsecutiveNumbers], with the
    addition of the code. *)
Fixpoint pairsFrom (start end_ : Z) (rest : list Z) : list (Z * Z) :=
  match rest with
  | [] => [(start, end_)]
  | x :: rest' =>
      if (x =? DemoStats.double (end_ + 1))%Z then pairsFrom start x rest'
      else (start, end_) :: pairsFrom x x rest'
  end.

(** [Number.isSafeInteger(n)] *)
Definition safe (n : Z) : Prop := (- 2 ^ 53 < n < 2 ^ 53)%Z.

(** An integer that is a double. *)
Definition is_double (n : Z) : Prop := DemoStats.double n = n.

(** Between two neighbouring intervals at least one integer is missing. *)
Fixpoint separated (ivs : list (Z * Z)) : Prop :=
  match ivs with
  | [] => True
  | iv :: rest =>
      match rest with
      | [] => True
      | iv' :: _ => (snd iv + 1 < fst iv')%Z
      end /\ separated rest
  end.

(** The heartbeat timers a trace of effects leaves armed. *)
Definition armed_step (ts : list Js.Timer) (e : Js.Effect) : list Js.Timer :=
  match e with
  | Js.SetInterval t _ => ts ++ [t]
  | Js.ClearInterval t => List.filter (fun x => negb (x =? t)%nat) ts
  | _ => ts
  end.

Definition armed (ts : list Js.Timer) (effects : list Js.Effect) : list Js.Timer :=
  foldl armed_step ts effects.

Definition timer_list (t : option Js.Timer) : list Js.Timer :=
  match t with Some x => [x] | None => [] end.

Definition is_new_socket (e : Js.Effect) : bool :=
  match e with Js.NewWebSocket _ _ => true | _ => false end.

Definition is_user_connect (e : Client.Event) : bool :=
  match e with Client.UConnect _ => true | _ => false end.

(** The delay of a sleep lies between the base delay and the cap. *)
Definition sleep_in_range (base : Z) (e : Js.Effect) : Prop :=
  match e with
  | Js.Sleep d => (base <= d <= 30000)%Z
  | _ => True
  end.

(** A frame of the later sample runs. *)
Definition start_frame : ProxyBackup.Frame :=
  {| ProxyBackup.f_id := Some "subscription:client-1";
     ProxyBackup.f_type := "start";
     ProxyBackup.f_query := Some "subscription { onMessage { id } }";
     ProxyBackup.f_variables := None;
     ProxyBackup.f_data := None |}.

Definition init_frame : ProxyBackup.Frame :=
  {| ProxyBackup.f_id := None;
     ProxyBackup.f_type := "connection_init";
     ProxyBackup.f_query := None;
     ProxyBackup.f_variables := None;
     ProxyBackup.f_data := None |}.

(** What a clock that never goes back keeps of the backup buffer at time
    [t]: the checkpoint is not after [t], every entry is stamped between
    the checkpoint and [t], and the stamps do not decrease. *)
Definition buffer_ok (t : Z) (st : ProxyBackup.Proxy) : Prop :=
  (ProxyBackup.lastPong st <= t)%Z
  /\ Forall (fun e => (ProxyBackup.lastPong st <= ProxyBackup.timestamp e <= t)%Z)
            (ProxyBackup.backup st)
  /\ StronglySorted Z.le (map ProxyBackup.timestamp (ProxyBackup.backup st)).

(** Frames that arrive one after the other: the clock reading, the raw
    text and the parsed frame of each. *)
Definition arrivals (fs : list (Z * string * ProxyBackup.Frame))
  : list ProxyRun.Hook :=
  map (fun f => ProxyRun.Incoming (fst (fst f)) (snd (fst f)) (snd f)) fs.

Definition raw_of (f : Z * string * ProxyBackup.Frame) : string := snd (fst f).

(** The first frame of a list, if any. *)
Definition first_frame (l : list string) : list string := take 1 l.

(** The backup entry of a frame that arrived. *)
Definition entry_of (f : Z * string * ProxyBackup.Frame) : ProxyBackup.Entry :=
  {| ProxyBackup.message := snd (fst f); ProxyBackup.timestamp := fst (fst f) |}.

(** A waiting replay with nothing left to send: its next turn ends it. *)
Definition spent (st : ProxyBackup.Proxy) (r : ProxyReplay.Replay) : Prop :=
  ProxyReplay.resume st r = ([], None).

(** A run of hooks with a clock that never goes back. *)
Definition sample_hooks : list ProxyRun.Hook :=
  [ProxyRun.Incoming 10 "init" init_frame; ProxyRun.Pong 20;
   ProxyRun.Incoming 20 "start-frame" start_frame;
   ProxyRun.Incoming 25 "stop" init_frame].

(** Frames that arrive after a pong at 20, the first in its millisecond. *)
Definition sample_arrivals : list (Z * string * ProxyBackup.Frame) :=
  [(20%Z, "start-1", start_frame); (25%Z, "stop", init_frame);
   (30%Z, "start-2", start_frame)].

(** A buffer of two frames, stamped 5 and 6, after a pong at 0. *)
Definition sample_buffer : ProxyBackup.Proxy :=
  {| ProxyBackup.backup :=
       [{| ProxyBackup.message := "a"; ProxyBackup.timestamp := 5 |};
        {| ProxyBackup.message := "b"; ProxyBackup.timestamp := 6 |}];
     ProxyBackup.lastPong := 0 |}.

(** The id of the first frame that carries one. *)
Fixpoint firstId (ms : list ProxyBackup.Frame) : option string :=
  match ms with
  | [] => None
  | m :: rest => if truthy (ProxyBackup.f_id m) then ProxyBackup.f_id m else firstId rest
  end.

(** The frames from the first one that carries an id. *)
Fixpoint fromFirstId (ms : list ProxyBackup.Frame) : list ProxyBackup.Frame :=
  match ms with
  | [] => []
  | m :: rest => if truthy (ProxyBackup.f_id m) then m :: rest else fromFirstId rest
  end.

Definition is_start (m : ProxyBackup.Frame) : bool :=
  String.eqb (ProxyBackup.f_type m) "start".

(** An unstable server with one subscription, on queue 7 and socket 1,
    whose problem is of the first kind. *)
Definition server_one_call : ServerUnstable.Server :=
  fst (ServerUnstable.subscribe "sub-uuid" false 2500 7 1 None None server12).

(** The kinds of a list of scheduled problems. *)
Definition kinds (ps : list (option ServerUnstable.Problem))
  : list (option ServerUnstable.ProblemKind) :=
  map (fun p => ServerUnstable.p_kind <$> p) ps.

(** The positions of the sent messages a client did not receive. *)
Definition lostPositions (sent received : list string) : list nat :=
  List.filter (fun n => match sent !! n with
                        | Some x => negb (bool_decide (x ∈ received))
                        | None => false
                        end)
              (seq 0 (length sent)).

(** Whether [pattern] occurs somewhere in [s]. *)
Fixpoint occurs (pattern s : string) : bool :=
  if String.prefix pattern s then true
  else match s with
       | EmptyString => false
       | String _ s' => occurs pattern s'
       end.

(** * Properties *)

(** ** The backup buffer of the intermediary *)

Section BackupBuffer.

Import ProxyBackup.

Lemma filter_after_Forall (T : Z) (l : list Entry) :
  Forall (fun e => ~ (timestamp e <= T)%Z)
         (List.filter (fun m => (T <? timestamp m)%Z) l).
Proof.
  induction l as [|e l IH]; simpl; [constructor|].
  destruct (T <? timestamp e)%Z eqn:E; [|exact IH].
  constructor; [|exact IH]. apply Z.ltb_lt in E. lia.
Qed.

Lemma filter_after_keeps (T : Z) (l : list Entry) :
  Forall (fun e => (T < timestamp e)%Z -> In e (List.filter (fun m => (T <? timestamp m)%Z) l)) l.
Proof.
  apply List.Forall_forall. intros e Hin Hlt.
  apply List.filter_In. split; [exact Hin|]. now apply Z.ltb_lt.
Qed.

(** The frames [resendMessages] sends are the raw frames of the entries
    in the window, in buffer order. *)
Lemma resendMessages_sent (now : Z) (st : Proxy) :
  sent (resendMessages now st)
  = map message
      (List.filter
         (fun m => (lastPong st <? timestamp m)%Z && (timestamp m <=? now)%Z)
         (backup st)).
Proof.
  unfold resendMessages.
  set (l := List.filter _ (backup st)).
  destruct l as [|e l]; [reflexivity|].
  change (length (e :: l) =? 0)%nat with false. cbv iota.
  generalize (e :: l). clear. intros l.
  induction l as [|x l IH]; [reflexivity|].
  simpl. f_equal. exact IH.
Qed.

(** Every send is followed by the pacing delay of 250 ms. *)
Lemma resendMessages_paced (now : Z) (st : Proxy) :
  resendMessages now st
  = flat_map (fun r => [TargetSend r; Wait 250])
             (sent (resendMessages now st)).
Proof.
  rewrite resendMessages_sent. unfold resendMessages.
  set (l := List.filter _ (backup st)).
  destruct l as [|e l]; [reflexivity|].
  change (length (e :: l) =? 0)%nat with false. cbv iota.
  generalize (e :: l). clear. intros l.
  induction l as [|x l IH]; [reflexivity|].
  simpl. do 2 f_equal. exact IH.
Qed.

(** In the later proxy the replay window is open at the checkpoint: an
    entry is resent exactly when [lastPong < timestamp <= now]. *)
Lemma resendMessages_window (now : Z) (st : Proxy) (e : Entry) :
  In e (List.filter
          (fun m => (lastPong st <? timestamp m)%Z && (timestamp m <=? now)%Z)
          (backup st))
  <-> In e (backup st) /\ (lastPong st < timestamp e <= now)%Z.
Proof.
  rewrite List.filter_In, andb_true_iff, Z.ltb_lt, Z.leb_le. tauto.
Qed.

End BackupBuffer.

(** C6. Processing a pong at time [T] leaves the checkpoint [lastPong] equal
    to [T] and the backup buffer without any entry whose timestamp is at or
    before [T]; the entries enqueued after [T] all stay, in order. This
    holds for both proxies that keep a backup buffer. *)
Theorem pong_prunes_backup (T : Z) (st : ProxyBackup.Proxy) :
  (ProxyBackup.lastPong (ProxyBackup.onPong T st) = T
   /\ Forall (fun e => ~ (ProxyBackup.timestamp e <= T)%Z)
             (ProxyBackup.backup (ProxyBackup.onPong T st))
   /\ Forall (fun e => (T < ProxyBackup.timestamp e)%Z ->
                       In e (ProxyBackup.backup (ProxyBackup.onPong T st)))
             (ProxyBackup.backup st))
  /\ (ProxyBackup.lastPong (ProxyBackupEarly.onPong T st) = T
      /\ Forall (fun e => ~ (ProxyBackup.timestamp e <= T)%Z)
                (ProxyBackup.backup (ProxyBackupEarly.onPong T st))
      /\ Forall (fun e => (T < ProxyBackup.timestamp e)%Z ->
                          In e (ProxyBackup.backup (ProxyBackupEarly.onPong T st)))
                (ProxyBackup.backup st)).
Proof.
  split; (split; [reflexivity|]); split;
    first [apply filter_after_Forall | apply filter_after_keeps].
Qed.

(** C7. The earlier proxy resends a buffered frame whose timestamp equals
    the checkpoint: after a pong at 1000 and a start frame that arrives in
    the same millisecond, a reconnect at 2000 makes its [onReconnect] send
    the frame again, while the later proxy, after the same events, sends
    nothing. *)
Theorem early_proxy_resends_checkpoint_frame :
  let frame := {| ProxyBackup.f_id := Some "subscription:client-1";
                  ProxyBackup.f_type := "start";
                  ProxyBackup.f_query := Some "subscription { onMessage { id } }";
                  ProxyBackup.f_variables := None;
                  ProxyBackup.f_data := None |} in
  let src := {| ProxyBackup.clientId := None |} in
  let early :=
    ProxyBackupEarly.onIncomingMessage 1000 "start-frame" frame src
      (ProxyBackupEarly.onPong 1000 (ProxyBackup.init 0)) in
  let later :=
    ProxyBackup.onIncomingMessage 1000 "start-frame" frame src
      (ProxyBackup.onPong 1000 (ProxyBackup.init 0)) in
  snd (fst early)
  = {| ProxyBackup.backup := [{| ProxyBackup.message := "start-frame";
                                 ProxyBackup.timestamp := 1000 |}];
       ProxyBackup.lastPong := 1000 |}
  /\ ProxyBackup.sent
       (snd (ProxyBackupEarly.onReconnect 2000 (fst (fst early)) (snd (fst early))))
     = ["start-frame"]
  /\ ProxyBackup.sent
       (snd (ProxyBackup.onReconnect 2000 (fst (fst later)) (snd (fst later))))
     = [].
Proof. repeat split; reflexivity. Qed.

(** ** The message log and resumption *)

Section FindIndex.

Context {A : Type} (p : A -> bool).

Lemma findIndex_ge (l : list A) : (-1 <= findIndex p l)%Z.
Proof.
  induction l as [|x l IH]; simpl; [lia|].
  destruct (p x); [lia|]. destruct (findIndex p l); lia.
Qed.

(** [findIndex] answers [-1] exactly when no element satisfies [p]. *)
Lemma findIndex_none (l : list A) :
  findIndex p l = (-1)%Z <-> Forall (fun x => p x = false) l.
Proof.
  induction l as [|x l IH]; simpl.
  - split; [constructor|reflexivity].
  - destruct (p x) eqn:E.
    + split; [discriminate|]. intros H. inversion H; congruence.
    + pose proof (findIndex_ge l) as Hge.
      split.
      * intros H. constructor; [exact E|]. apply IH.
        destruct (findIndex p l); try lia.
      * intros H. inversion H as [|? ? _ Hl]; subst.
        apply IH in Hl. rewrite Hl. reflexivity.
Qed.

(** Otherwise it is the position of the first element that does. *)
Lemma findIndex_some (l : list A) :
  findIndex p l <> (-1)%Z ->
  exists pre x post,
    l = pre ++ x :: post /\ p x = true
    /\ Forall (fun y => p y = false) pre
    /\ findIndex p l = Z.of_nat (length pre).
Proof.
  induction l as [|x l IH]; simpl; [congruence|].
  destruct (p x) eqn:E.
  - intros _. exists [], x, l. repeat split; auto.
  - intros H. pose proof (findIndex_ge l) as Hge.
    destruct (Z.eq_dec (findIndex p l) (-1)%Z) as [Hm|Hm].
    { rewrite Hm in H. congruence. }
    destruct (IH Hm) as (pre & y & post & -> & Hy & Hpre & Hi).
    exists (x :: pre), y, post. repeat split; auto.
    rewrite Hi. change (length (x :: pre)) with (S (length pre)).
    rewrite Nat2Z.inj_succ.
    pose proof (Nat2Z.is_nonneg (length pre)) as Hnn.
    destruct (Z.of_nat (length pre)); lia.
Qed.

End FindIndex.

Lemma slice_at {A} (pre : list A) (x : A) (post : list A) :
  slice (Z.of_nat (length pre)) (pre ++ x :: post) = x :: post.
Proof.
  unfold slice. rewrite Nat2Z.id.
  induction pre; simpl; auto.
Qed.

Lemma slice_after {A} (pre : list A) (x : A) (post : list A) :
  slice (Z.of_nat (length pre) + 1) (pre ++ x :: post) = post.
Proof.
  unfold slice.
  replace (Z.to_nat (Z.of_nat (length pre) + 1)) with (S (length pre)) by lia.
  induction pre; simpl; auto.
Qed.

Lemma is_cursor_true (m : Message) (c : string) :
  bool_decide (Some (id m) = Some c) = true <-> String.eqb (id m) c = true.
Proof.
  rewrite bool_decide_eq_true, String.eqb_eq. split; congruence.
Qed.

Lemma is_cursor_false (m : Message) (c : string) :
  bool_decide (Some (id m) = Some c) = false <-> String.eqb (id m) c = false.
Proof.
  rewrite bool_decide_eq_false, String.eqb_neq. split; congruence.
Qed.

Lemma from_cursor_split (c : string) (pre : list Message) (m : Message)
    (post : list Message) :
  Forall (fun y => bool_decide (Some (id y) = Some c) = false) pre ->
  bool_decide (Some (id m) = Some c) = true ->
  from_cursor c (pre ++ m :: post) = m :: post
  /\ strictly_after c (pre ++ m :: post) = post.
Proof.
  intros Hpre Hm. induction Hpre as [|y pre Hy _ IH]; simpl.
  - apply is_cursor_true in Hm. rewrite Hm. auto.
  - apply is_cursor_false in Hy. rewrite Hy. exact IH.
Qed.

Lemma cursor_found (c : string) (log : list Message) :
  In c (ids log) ->
  findIndex (fun msg => bool_decide (Some (id msg) = Some c)) log <> (-1)%Z.
Proof.
  intros Hin Hnone. apply findIndex_none in Hnone.
  apply List.in_map_iff in Hin as (m & Hid & Hm).
  rewrite List.Forall_forall in Hnone. specialize (Hnone m Hm).
  apply bool_decide_eq_false in Hnone. congruence.
Qed.

Lemma cursor_not_found (c : string) (log : list Message) :
  ~ In c (ids log) ->
  findIndex (fun msg => bool_decide (Some (id msg) = Some c)) log = (-1)%Z.
Proof.
  intros Hnin. apply findIndex_none, List.Forall_forall. intros m Hm.
  apply bool_decide_eq_false. intros [= Heq]. apply Hnin.
  apply List.in_map_iff. eauto.
Qed.

Lemma truthy_nonempty (c : string) : c <> "" -> truthy (Some c) = true.
Proof.
  intros H. simpl. apply negb_true_iff, String.eqb_neq. exact H.
Qed.

Section ResumableServer.

Import ServerWithResume.

(** Once the stored messages are out, the loop yields what follows the
    first live payload carrying the id of the last stored message. *)
Lemma liveLoop_resumed (ms : list Message) (live : list Payload) :
  liveLoop ms true live = live.
Proof.
  induction live as [|p live IH]; simpl; [reflexivity|].
  rewrite orb_true_r. f_equal. exact IH.
Qed.

Lemma liveLoop_stitch (ms : list Message) (l : Message) (live : list Payload) :
  last ms = Some l ->
  liveLoop ms false live = after_reappearance (id l) live.
Proof.
  intros Hl.
  assert (Hlen : (length ms =? 0)%nat = false).
  { destruct ms; [discriminate|reflexivity]. }
  induction live as [|p live IH]; simpl; [reflexivity|].
  rewrite Hlen, Hl. simpl.
  destruct (String.eqb (id (onMessage p)) (id l)).
  - apply liveLoop_resumed.
  - exact IH.
Qed.

(** With a cursor found in the log, [subscribe] returns the generator
    closed over the log from the cursor message on, that message
    included. *)
Lemma subscribe_found (c : string) (log : list Message) :
  c <> "" -> In c (ids log) ->
  subscribe (Some c) log = Resuming (from_cursor c log)
  /\ exists m post, from_cursor c log = m :: post /\ id m = c
                    /\ strictly_after c log = post.
Proof.
  intros Hc Hin. unfold subscribe.
  rewrite (truthy_nonempty c Hc). simpl negb. cbv iota.
  pose proof (cursor_found c log Hin) as Hf.
  destruct (findIndex_some _ log Hf) as (pre & m & post & -> & Hm & Hpre & Hi).
  destruct (from_cursor_split c pre m post Hpre Hm) as [Hfrom Hafter].
  rewrite Hi.
  replace (Z.of_nat (length pre) =? -1)%Z with false
    by (symmetry; apply Z.eqb_neq; lia).
  simpl negb. cbv iota. rewrite slice_at, Hfrom. split; [reflexivity|].
  exists m, post. repeat split; auto.
  apply bool_decide_eq_true in Hm. congruence.
Qed.

(** X11. With a cursor that is in no message of the log, [subscribe] falls off
    its end. *)
Lemma subscribe_unknown (c : string) (log : list Message) :
  c <> "" -> ~ In c (ids log) -> subscribe (Some c) log = Undefined.
Proof.
  intros Hc Hnin. unfold subscribe.
  rewrite (truthy_nonempty c Hc), (cursor_not_found c log Hnin).
  reflexivity.
Qed.

End ResumableServer.

Section UnstableServer.

Import ServerUnstable.

Lemma push_same (q : nat) (p : Payload) (qs : gmap nat (list Payload)) :
  default [] (push q p qs !! q) = default [] (qs !! q) ++ [p].
Proof. unfold push. rewrite lookup_insert_eq. reflexivity. Qed.

Lemma push_other (q q' : nat) (p : Payload) (qs : gmap nat (list Payload)) :
  q <> q' -> push q p qs !! q' = qs !! q'.
Proof. intros H. unfold push. apply lookup_insert_ne. exact H. Qed.

Lemma backfill_pushed (q : nat) (ms : list Message) :
  forall qs : gmap nat (list Payload),
    default [] (foldl (fun qs m => push q {| onMessage := m |} qs) qs ms !! q)
    = default [] (qs !! q) ++ map mkPayload ms.
Proof.
  induction ms as [|m ms IH]; intros qs; simpl.
  - rewrite app_nil_r. reflexivity.
  - rewrite IH, push_same, <- app_assoc. reflexivity.
Qed.

Lemma wake_all (q : nat) (sl : list (nat * Payload)) :
  forall qs : gmap nat (list Payload),
    default [] (foldl (fun qs '(q', p) => push q' p qs) qs sl !! q)
    = default [] (qs !! q) ++ pendingFor q sl.
Proof.
  induction sl as [|[q' p] sl IH]; intros qs; simpl.
  - rewrite app_nil_r. reflexivity.
  - rewrite IH. unfold pendingFor. simpl.
    destruct (Nat.eqb_spec q' q) as [->|Hne].
    + rewrite push_same, <- app_assoc. reflexivity.
    + rewrite push_other by exact Hne. reflexivity.
Qed.

(** After all sleeping listeners woke up, a queue holds what it held
    plus what they were about to push on it, in order. *)
Lemma drain_queue (q : nat) (s : Server) :
  queue_of q (drain s) = queue_of q s ++ pendingFor q (sleeping s).
Proof. unfold queue_of, drain. simpl. apply wake_all. Qed.

Lemma pendingFor_app (q : nat) (a b : list (nat * Payload)) :
  pendingFor q (a ++ b) = pendingFor q a ++ pendingFor q b.
Proof. unfold pendingFor. rewrite List.filter_app, map_app. reflexivity. Qed.

Lemma pendingFor_emit (q : nat) (p : Payload) (cs : list Call) :
  pendingFor q (emit p cs) = repeat p (listeners q cs).
Proof.
  unfold pendingFor, emit, listeners.
  induction cs as [|c cs IH]; simpl; [reflexivity|].
  destruct (c_listening c && negb (silenced c)); simpl.
  - destruct (c_queue c =? q)%nat; simpl; [f_equal|]; exact IH.
  - exact IH.
Qed.

Lemma listeners_app (q : nat) (a b : list Call) :
  listeners q (a ++ b) = (listeners q a + listeners q b)%nat.
Proof. unfold listeners. rewrite List.filter_app, length_app. reflexivity. Qed.

(** Publishing appends to the log, wakes nobody, registers nobody. *)
Lemma publishAll_spec (rs : list Request) :
  forall s,
    messages (publishAll rs s) = messages s ++ map created rs
    /\ calls (publishAll rs s) = calls s
    /\ queues (publishAll rs s) = queues s
    /\ sleeping (publishAll rs s)
       = sleeping s
         ++ flat_map (fun r => emit {| onMessage := created r |} (calls s)) rs.
Proof.
  unfold publishAll.
  induction rs as [|r rs IH]; intros s.
  - simpl. rewrite !app_nil_r. auto.
  - cbn [foldl].
    destruct (IH (snd (sendMessage (r_uuid r) (r_now r) (r_text r) (r_user r) s)))
      as (Hm & Hc & Hq & Hs).
    rewrite Hm, Hc, Hq, Hs. simpl. rewrite <- !app_assoc. auto.
Qed.

Lemma pending_one_listener (q : nat) (cs : list Call) (rs : list Request) :
  listeners q cs = 1%nat ->
  pendingFor q (flat_map (fun r => emit {| onMessage := created r |} cs) rs)
  = map (fun r => {| onMessage := created r |}) rs.
Proof.
  intros H1. induction rs as [|r rs IH]; simpl; [reflexivity|].
  rewrite pendingFor_app, pendingFor_emit, H1, IH. reflexivity.
Qed.

Lemma schedule_not_running (roll : bool) (timeout : Z) (i i' : nat)
    (p : Problem) :
  scheduleSubscriptionProblem roll timeout i = (Some p, i') -> p_run p = false.
Proof.
  unfold scheduleSubscriptionProblem.
  destruct roll; [discriminate|].
  destruct (problems !! i); [|discriminate].
  intros [= <- _]. reflexivity.
Qed.

Lemma strictly_after_none (c : string) (log : list Message) :
  Forall (fun y => bool_decide (Some (id y) = Some c) = false) log ->
  strictly_after c log = [].
Proof.
  induction 1 as [|y log Hy _ IH]; simpl; [reflexivity|].
  apply is_cursor_false in Hy. rewrite Hy. exact IH.
Qed.

(** The backfill [Pubsub.subscribe] computes. *)
Lemma backfill_slice (c : string) (log : list Message) :
  let startIndex :=
    findIndex (fun msg => bool_decide (Some (id msg) = Some c)) log in
  (if negb (startIndex =? -1)%Z then slice (startIndex + 1) log else [])
  = strictly_after c log.
Proof.
  cbv zeta.
  destruct (Z.eq_dec (findIndex (fun msg => bool_decide (Some (id msg) = Some c)) log) (-1)%Z)
    as [Hn|Hf].
  - rewrite Hn. simpl. symmetry. apply strictly_after_none.
    apply findIndex_none. exact Hn.
  - destruct (findIndex_some _ log Hf) as (pre & m & post & -> & Hm & Hpre & Hi).
    rewrite Hi.
    replace (Z.of_nat (length pre) =? -1)%Z with false
      by (symmetry; apply Z.eqb_neq; lia).
    simpl negb. cbv iota. rewrite slice_after.
    symmetry. apply (from_cursor_split c pre m post Hpre Hm).
Qed.

(** What one [Pubsub.subscribe] does to the server: the log and the
    sleeping listeners are untouched, one listener that is registered and
    not silent is added for the queue, and the queue receives the
    messages logged strictly after the cursor, if the cursor is truthy. *)
Lemma subscribe_spec (uuid : string) (roll : bool) (timeout : Z) (q ws : nat)
    (context_id cursor : option string) (s : Server) :
  let s1 := fst (subscribe uuid roll timeout q ws context_id cursor s) in
  messages s1 = messages s
  /\ sleeping s1 = sleeping s
  /\ listeners q (calls s1) = S (listeners q (calls s))
  /\ queue_of q s1
     = queue_of q s
       ++ match cursor with
          | Some c => if truthy cursor
                      then map mkPayload (strictly_after c (messages s))
                      else []
          | None => []
          end.
Proof.
  cbv zeta. unfold subscribe.
  destruct (scheduleSubscriptionProblem roll timeout (problemIndex s))
    as [problem index'] eqn:Hsched.
  assert (Hsil : forall sid,
             silenced {| c_subscriptionId := sid; c_ws := ws; c_queue := q;
                         c_cursor := cursor; c_problem := problem;
                         c_listening := true |} = false).
  { intros sid. unfold silenced. simpl. destruct problem as [p|]; [|reflexivity].
    rewrite (schedule_not_running _ _ _ _ _ Hsched). destruct (p_kind p); reflexivity. }
  assert (Hl : forall sid,
             listeners q (calls s ++
               [{| c_subscriptionId := sid; c_ws := ws; c_queue := q;
                   c_cursor := cursor; c_problem := problem;
                   c_listening := true |}]) = S (listeners q (calls s))).
  { intros sid. rewrite listeners_app. unfold listeners at 2. simpl.
    rewrite Hsil, Nat.eqb_refl. simpl. lia. }
  destruct cursor as [c|]; simpl truthy.
  - destruct (negb (String.eqb c "")) eqn:Htr; simpl negb; cbv iota.
    + pose proof (backfill_slice c (messages s)) as Hb. cbv zeta in Hb.
      destruct (negb (findIndex _ (messages s) =? -1)%Z); simpl;
        repeat split; auto; unfold queue_of; simpl.
      * rewrite backfill_pushed, Hb. reflexivity.
      * rewrite <- Hb, app_nil_r. reflexivity.
    + simpl. repeat split; auto. unfold queue_of. simpl.
      rewrite app_nil_r. reflexivity.
  - simpl. repeat split; auto. unfold queue_of. simpl.
    rewrite app_nil_r. reflexivity.
Qed.

(** A subscription on a fresh queue: after any publishes, once the
    listeners woke up, the queue holds the backfill followed by one
    payload per published message, in publish order. *)
Lemma subscribe_then_live (uuid : string) (roll : bool) (timeout : Z)
    (q ws : nat) (context_id cursor : option string) (s : Server)
    (rs : list Request) :
  fresh q s ->
  let s1 := fst (subscribe uuid roll timeout q ws context_id cursor s) in
  queue_of q (drain (publishAll rs s1))
  = queue_of q s1 ++ map (fun r => {| onMessage := created r |}) rs.
Proof.
  intros (Hq & Hl & Hp). cbv zeta.
  destruct (subscribe_spec uuid roll timeout q ws context_id cursor s)
    as (_ & Hs1 & Hl1 & _).
  set (s1 := fst (subscribe uuid roll timeout q ws context_id cursor s)) in *.
  destruct (publishAll_spec rs s1) as (_ & Hc2 & Hq2 & Hs2).
  rewrite drain_queue. unfold queue_of at 1. rewrite Hq2, Hs2.
  rewrite pendingFor_app, Hs1, Hp. simpl.
  rewrite pending_one_listener by (rewrite Hl1, Hl; reflexivity).
  reflexivity.
Qed.

Lemma pending_no_listener (q : nat) (cs : list Call) (rs : list Request) :
  listeners q cs = 0%nat ->
  pendingFor q (flat_map (fun r => emit {| onMessage := created r |} cs) rs) = [].
Proof.
  intros H0. induction rs as [|r rs IH]; simpl; [reflexivity|].
  rewrite pendingFor_app, pendingFor_emit, H0, IH. reflexivity.
Qed.

(** The call [Pubsub.subscribe] registers: on the queue and the socket
    given, listening, with the problem scheduled for it. *)
Lemma subscribe_call (uuid : string) (roll : bool) (timeout : Z) (q ws : nat)
    (context_id cursor : option string) (s : Server) :
  exists sid,
    calls (fst (subscribe uuid roll timeout q ws context_id cursor s))
    = calls s
      ++ [{| c_subscriptionId := sid; c_ws := ws; c_queue := q;
             c_cursor := cursor;
             c_problem :=
               fst (scheduleSubscriptionProblem roll timeout (problemIndex s));
             c_listening := true |}].
Proof.
  unfold subscribe.
  destruct (scheduleSubscriptionProblem roll timeout (problemIndex s))
    as [problem index'].
  destruct (negb (truthy cursor)); [|destruct (negb (_ =? -1)%Z)];
    eexists; reflexivity.
Qed.

(** A subscription on a fresh queue, over a run in which its timer fires:
    the queue holds the backfill, then one payload per message published
    before the timer fired, and of the messages published after it one
    payload each unless the problem was [unresponsive], then none. *)
Lemma subscribe_until_unresponsive (uuid : string) (roll : bool) (timeout : Z)
    (q ws : nat) (context_id cursor : option string) (s : Server)
    (rs1 rs2 : list Request) :
  fresh q s ->
  let s1 := fst (subscribe uuid roll timeout q ws context_id cursor s) in
  queue_of q
    (drain (publishAll rs2
              (fst (problemFires (length (calls s)) (publishAll rs1 s1)))))
  = queue_of q s1
    ++ map (fun r => {| onMessage := created r |}) rs1
    ++ (if unresponsive_kind
             (fst (scheduleSubscriptionProblem roll timeout (problemIndex s)))
        then []
        else map (fun r => {| onMessage := created r |}) rs2).
Proof.
  intros (Hq & Hl & Hp). cbv zeta.
  destruct (subscribe_spec uuid roll timeout q ws context_id cursor s)
    as (_ & Hs1 & Hl1 & _).
  destruct (subscribe_call uuid roll timeout q ws context_id cursor s)
    as (sid & Hcalls).
  set (s1 := fst (subscribe uuid roll timeout q ws context_id cursor s)) in *.
  set (problem := fst (scheduleSubscriptionProblem roll timeout (problemIndex s))) in *.
  destruct (publishAll_spec rs1 s1) as (_ & Hc2 & Hq2 & Hs2).
  set (s2 := publishAll rs1 s1) in *.
  assert (Hone : listeners q (calls s1) = 1%nat) by (rewrite Hl1, Hl; reflexivity).
  assert (Hpend : pendingFor q (sleeping s2)
                  = map (fun r => {| onMessage := created r |}) rs1).
  { rewrite Hs2, pendingFor_app, Hs1, Hp. simpl.
    apply pending_one_listener. exact Hone. }
  assert (Hi : calls s2 !! length (calls s)
               = Some {| c_subscriptionId := sid; c_ws := ws; c_queue := q;
                         c_cursor := cursor; c_problem := problem;
                         c_listening := true |}).
  { rewrite Hc2, Hcalls. apply list_lookup_middle. reflexivity. }
  assert (Hfire : queues (fst (problemFires (length (calls s)) s2)) = queues s2
                  /\ sleeping (fst (problemFires (length (calls s)) s2)) = sleeping s2
                  /\ listeners q (calls (fst (problemFires (length (calls s)) s2)))
                     = if unresponsive_kind problem then 0%nat else 1%nat).
  { unfold problemFires. rewrite Hi. cbn [c_problem].
    unfold unresponsive_kind.
    destruct problem as [p|]; [destruct (p_kind p) eqn:Hk|];
      cbn [fst queues sleeping calls]; repeat split;
      try (rewrite Hc2; exact Hone).
    rewrite Hc2, Hcalls.
    rewrite insert_app_r_alt by lia. rewrite Nat.sub_diag. cbn [insert list_insert].
    rewrite listeners_app, Hl. unfold listeners, silenced. simpl.
    reflexivity. }
  destruct Hfire as (Hq3 & Hs3 & Hl3).
  set (s3 := fst (problemFires (length (calls s)) s2)) in *.
  destruct (publishAll_spec rs2 s3) as (_ & Hc4 & Hq4 & Hs4).
  rewrite drain_queue. unfold queue_of at 1.
  rewrite Hq4, Hs4, pendingFor_app, Hq3, Hs3, Hq2, Hpend.
  fold (queue_of q s1). do 2 f_equal.
  destruct (unresponsive_kind problem).
  - apply pending_no_listener. exact Hl3.
  - apply pending_one_listener. exact Hl3.
Qed.

End UnstableServer.

Lemma strictly_after_unknown (c : string) (log : list Message) :
  ~ In c (ids log) -> strictly_after c log = [].
Proof.
  intros Hnin. apply strictly_after_none, List.Forall_forall. intros m Hm.
  apply bool_decide_eq_false. intros [= Heq]. apply Hnin.
  apply List.in_map_iff. eauto.
Qed.

(** X9. In the unstable publisher a cursor that is in no logged message gives
    what no cursor gives: nothing is pushed on the queue at subscribe time,
    and the messages published afterwards reach the queue, in publish
    order, until the subscription goes unresponsive: of the messages
    published after the timer of its problem fired, none arrives if the
    problem was [unresponsive], all otherwise (the queue staying open). *)
Lemma unstable_unknown_cursor_live_only (uuid : string) (roll : bool)
    (timeout : Z) (q ws : nat) (context_id : option string) (c : string)
    (s : ServerUnstable.Server) (rs1 rs2 : list ServerUnstable.Request) :
  ~ In c (ids (ServerUnstable.messages s)) -> fresh q s ->
  let s1 := fst (ServerUnstable.subscribe uuid roll timeout q ws context_id (Some c) s) in
  let s0 := fst (ServerUnstable.subscribe uuid roll timeout q ws context_id None s) in
  ServerUnstable.queue_of q s1 = []
  /\ ServerUnstable.queue_of q s1 = ServerUnstable.queue_of q s0
  /\ ServerUnstable.queue_of q
       (ServerUnstable.drain
          (ServerUnstable.publishAll rs2
             (fst (ServerUnstable.problemFires (length (ServerUnstable.calls s))
                     (ServerUnstable.publishAll rs1 s1)))))
     = map (fun r => {| onMessage := ServerUnstable.created r |}) rs1
       ++ (if unresponsive_kind
                (fst (ServerUnstable.scheduleSubscriptionProblem roll timeout
                        (ServerUnstable.problemIndex s)))
           then []
           else map (fun r => {| onMessage := ServerUnstable.created r |}) rs2).
Proof.
  intros Hnin Hfresh. cbv zeta.
  pose proof (subscribe_until_unresponsive uuid roll timeout q ws context_id
                (Some c) s rs1 rs2 Hfresh) as Hlive.
  cbv zeta in Hlive.
  destruct (subscribe_spec uuid roll timeout q ws context_id (Some c) s) as (_ & _ & _ & Hq1).
  destruct (subscribe_spec uuid roll timeout q ws context_id None s) as (_ & _ & _ & Hq0).
  rewrite (strictly_after_unknown c _ Hnin) in Hq1.
  assert (Hempty : ServerUnstable.queue_of q s = []).
  { unfold ServerUnstable.queue_of. destruct Hfresh as (-> & _). reflexivity. }
  rewrite Hempty in Hq1, Hq0.
  assert (H1 : ServerUnstable.queue_of q
                 (fst (ServerUnstable.subscribe uuid roll timeout q ws context_id (Some c) s)) = []).
  { rewrite Hq1. destruct (truthy (Some c)); reflexivity. }
  rewrite Hlive, H1, Hq0. auto.
Qed.

(** C1. For a cursor [c] that is the id of a logged message:
    the resumable server yields the log from the cursor message on, that
    message included, in log order, and then a live payload only once a
    live payload carrying the id of the last of them has been seen (that
    one is skipped); the unstable server pushes on the queue exactly the
    messages logged strictly after [c], in log order, followed by one
    payload per message published later, with no stitch on ids, until the
    subscription goes unresponsive: of the messages published after the
    timer of the problem scheduled for it fired, none reaches the queue if
    the problem was [unresponsive], all of them otherwise (the queue
    staying open). *)
Theorem resume_streams (c : string) (log : list Message) (live : list Payload)
    (uuid : string) (roll : bool) (timeout : Z) (q ws : nat)
    (context_id : option string) (s : ServerUnstable.Server)
    (rs1 rs2 : list ServerUnstable.Request) :
  c <> "" -> In c (ids log) -> ServerUnstable.messages s = log -> fresh q s ->
  (exists m l,
      from_cursor c log = m :: strictly_after c log
      /\ id m = c
      /\ last (from_cursor c log) = Some l
      /\ ServerWithResume.yields (ServerWithResume.subscribe (Some c) log) live
         = Some (map mkPayload (m :: strictly_after c log)
                 ++ after_reappearance (id l) live))
  /\ (let s1 := fst (ServerUnstable.subscribe uuid roll timeout q ws context_id (Some c) s) in
      ServerUnstable.queue_of q s1 = map mkPayload (strictly_after c log)
      /\ ServerUnstable.queue_of q (ServerUnstable.drain (ServerUnstable.publishAll rs1 s1))
         = map mkPayload (strictly_after c log)
           ++ map (fun r => {| onMessage := ServerUnstable.created r |}) rs1
      /\ ServerUnstable.queue_of q
           (ServerUnstable.drain
              (ServerUnstable.publishAll rs2
                 (fst (ServerUnstable.problemFires (length (ServerUnstable.calls s))
                         (ServerUnstable.publishAll rs1 s1)))))
         = map mkPayload (strictly_after c log)
           ++ map (fun r => {| onMessage := ServerUnstable.created r |}) rs1
           ++ (if unresponsive_kind
                    (fst (ServerUnstable.scheduleSubscriptionProblem roll timeout
                            (ServerUnstable.problemIndex s)))
               then []
               else map (fun r => {| onMessage := ServerUnstable.created r |}) rs2)).
Proof.
  intros Hc Hin Hlog Hfresh. split.
  - destruct (subscribe_found c log Hc Hin) as (Hsub & m & post & Hfrom & Hid & Hafter).
    assert (Hlast : exists l, last (from_cursor c log) = Some l).
    { rewrite Hfrom. destruct (last (m :: post)) eqn:E; [eauto|].
      apply last_None in E. discriminate. }
    destruct Hlast as [l Hl].
    exists m, l. rewrite Hafter. repeat split; auto.
    rewrite Hsub. simpl. unfold ServerWithResume.generator.
    rewrite (liveLoop_stitch _ l live Hl), Hfrom. reflexivity.
  - cbv zeta.
    pose proof (subscribe_then_live uuid roll timeout q ws context_id (Some c) s rs1 Hfresh) as Hlive.
    pose proof (subscribe_until_unresponsive uuid roll timeout q ws context_id
                  (Some c) s rs1 rs2 Hfresh) as Hfire.
    cbv zeta in Hlive, Hfire.
    destruct (subscribe_spec uuid roll timeout q ws context_id (Some c) s) as (_ & _ & _ & Hq1).
    rewrite (truthy_nonempty c Hc), Hlog in Hq1.
    assert (Hempty : ServerUnstable.queue_of q s = []).
    { unfold ServerUnstable.queue_of. destruct Hfresh as (-> & _). reflexivity. }
    rewrite Hempty in Hq1. simpl in Hq1.
    rewrite Hlive, Hfire, Hq1. auto.
Qed.

Lemma resume_streams_witness :
  (exists m l,
      from_cursor (id msg1) [msg1; msg2] = m :: strictly_after (id msg1) [msg1; msg2]
      /\ id m = id msg1
      /\ last (from_cursor (id msg1) [msg1; msg2]) = Some l
      /\ ServerWithResume.yields
           (ServerWithResume.subscribe (Some (id msg1)) [msg1; msg2])
           [{| onMessage := msg2 |}; {| onMessage := ServerUnstable.created req3 |}]
         = Some (map mkPayload (m :: strictly_after (id msg1) [msg1; msg2])
                 ++ after_reappearance (id l)
                      [{| onMessage := msg2 |};
                       {| onMessage := ServerUnstable.created req3 |}]))
  /\ (let s1 := fst (ServerUnstable.subscribe "sub-uuid" false 2500 7 1 None
                       (Some (id msg1)) server12) in
      ServerUnstable.queue_of 7 s1
      = map mkPayload (strictly_after (id msg1) [msg1; msg2])
      /\ ServerUnstable.queue_of 7
           (ServerUnstable.drain (ServerUnstable.publishAll [req3] s1))
         = map mkPayload (strictly_after (id msg1) [msg1; msg2])
           ++ map (fun r => {| onMessage := ServerUnstable.created r |}) [req3]
      /\ ServerUnstable.queue_of 7
           (ServerUnstable.drain
              (ServerUnstable.publishAll [req4]
                 (fst (ServerUnstable.problemFires (length (ServerUnstable.calls server12))
                         (ServerUnstable.publishAll [req3] s1)))))
         = map mkPayload (strictly_after (id msg1) [msg1; msg2])
           ++ map (fun r => {| onMessage := ServerUnstable.created r |}) [req3]
           ++ (if unresponsive_kind
                    (fst (ServerUnstable.scheduleSubscriptionProblem false 2500
                            (ServerUnstable.problemIndex server12)))
               then []
               else map (fun r => {| onMessage := ServerUnstable.created r |}) [req4])).
Proof.
  apply (resume_streams (id msg1) [msg1; msg2]
           [{| onMessage := msg2 |}; {| onMessage := ServerUnstable.created req3 |}]
           "sub-uuid" false 2500 7%nat 1%nat None server12 [req3] [req4]).
  - discriminate.
  - simpl. auto.
  - reflexivity.
  - repeat split; reflexivity.
Defined.

(** C1, as stated, fails on both servers. On the resumable server,
    resuming from the id of the first of two logged messages yields both
    messages, not only the one strictly after the cursor. On the unstable
    server, a message published after the subscription reaches the queue
    although the id of the last backfilled message never came back live. *)
Lemma resume_backfill_includes_cursor :
  (ServerWithResume.yields
     (ServerWithResume.subscribe (Some (id msg1)) [msg1; msg2]) []
   = Some [{| onMessage := msg1 |}; {| onMessage := msg2 |}]
   /\ ServerWithResume.yields
        (ServerWithResume.subscribe (Some (id msg1)) [msg1; msg2]) []
      <> Some (map mkPayload (strictly_after (id msg1) [msg1; msg2])))
  /\ (ServerUnstable.queue_of 7
        (ServerUnstable.drain
           (ServerUnstable.publishAll [req3]
              (fst (ServerUnstable.subscribe "sub-uuid" true 2500 7 1 None
                      (Some (id msg1)) server12))))
      = [{| onMessage := msg2 |}; {| onMessage := ServerUnstable.created req3 |}]
      /\ after_reappearance (id msg2) [{| onMessage := ServerUnstable.created req3 |}]
         = []).
Proof.
  split; [split; [reflexivity|discriminate]|].
  split; vm_compute; reflexivity.
Qed.

(** C2. The message log is append-only: a publish, in either server, adds
    exactly one message at the end of the log, with the id [randomUUID()]
    returned, and leaves the earlier entries as they were; no other
    operation of the unstable server touches the log. The ids themselves
    carry no order: the position in the log is the order. *)
Theorem log_append_only (uuid now text user : string) (log : list Message)
    (s : ServerUnstable.Server) (rs : list ServerUnstable.Request)
    (roll : bool) (timeout : Z) (q ws i : nat)
    (context_id cursor : option string) :
  (snd (fst (ServerWithResume.sendMessage uuid now text user log))
   = log ++ [fst (fst (ServerWithResume.sendMessage uuid now text user log))]
   /\ id (fst (fst (ServerWithResume.sendMessage uuid now text user log))) = uuid)
  /\ (ServerUnstable.messages (snd (ServerUnstable.sendMessage uuid now text user s))
      = ServerUnstable.messages s
        ++ [fst (ServerUnstable.sendMessage uuid now text user s)]
      /\ id (fst (ServerUnstable.sendMessage uuid now text user s)) = uuid)
  /\ (ServerUnstable.messages (ServerUnstable.publishAll rs s)
      = ServerUnstable.messages s ++ map ServerUnstable.created rs
      /\ ids (ServerUnstable.messages (ServerUnstable.publishAll rs s))
         = ids (ServerUnstable.messages s) ++ map ServerUnstable.r_uuid rs)
  /\ (ServerUnstable.messages
        (fst (ServerUnstable.subscribe uuid roll timeout q ws context_id cursor s))
      = ServerUnstable.messages s
      /\ ServerUnstable.messages (fst (ServerUnstable.problemFires i s))
         = ServerUnstable.messages s
      /\ ServerUnstable.messages (ServerUnstable.closeQueue q s)
         = ServerUnstable.messages s
      /\ ServerUnstable.messages (ServerUnstable.wake s) = ServerUnstable.messages s
      /\ ServerUnstable.messages (ServerUnstable.drain s) = ServerUnstable.messages s).
Proof.
  split; [split; reflexivity|].
  split; [split; reflexivity|].
  split.
  - destruct (publishAll_spec rs s) as (Hm & _). rewrite Hm. split; [reflexivity|].
    unfold ids. rewrite map_app, map_map. reflexivity.
  - split; [apply subscribe_spec|].
    split.
    { unfold ServerUnstable.problemFires.
      destruct (ServerUnstable.calls s !! i) as [c|]; [|reflexivity].
      destruct (ServerUnstable.c_problem c) as [p|]; [|reflexivity].
      destruct (ServerUnstable.p_kind p); reflexivity. }
    split; [reflexivity|].
    split; [|reflexivity].
    unfold ServerUnstable.wake.
    destruct (ServerUnstable.sleeping s) as [|[q' p] rest]; reflexivity.
Qed.

(** C2, as stated, fails: two publishes whose [randomUUID()] values are
    f47ac10b-... and then 16fd2706-... leave a log whose ids are not
    increasing. *)
Lemma log_ids_not_increasing :
  ids (ServerUnstable.messages (ServerUnstable.publishAll [req4; req5] ServerUnstable.init))
  = ["f47ac10b-58cc-4372-a567-0e02b2c3d479"; "16fd2706-8baf-433b-82eb-8c7fada847da"]
  /\ ~ ids_strictly_increasing
        (ServerUnstable.messages
           (ServerUnstable.publishAll [req4; req5] ServerUnstable.init))
  /\ ~ ids_strictly_increasing
        (snd (fst (ServerWithResume.sendMessage
                     (ServerUnstable.r_uuid req5) (ServerUnstable.r_now req5)
                     (ServerUnstable.r_text req5) (ServerUnstable.r_user req5)
                     (snd (fst (ServerWithResume.sendMessage
                                  (ServerUnstable.r_uuid req4) (ServerUnstable.r_now req4)
                                  (ServerUnstable.r_text req4) (ServerUnstable.r_user req4)
                                  [])))))).
Proof.
  split; [reflexivity|].
  split; intros [H _]; vm_compute in H; discriminate.
Qed.

(** C3. The resumable server gives no stream at all for a cursor that is
    in no logged message: its [subscribe] returns [undefined], where a
    request without cursor gets the live stream. *)
Theorem resumable_server_unknown_cursor_no_stream :
  ServerWithResume.subscribe (Some "7d9f0c2a-1111-4222-8333-444455556666") [msg1; msg2]
  = ServerWithResume.Undefined
  /\ ServerWithResume.yields
       (ServerWithResume.subscribe (Some "7d9f0c2a-1111-4222-8333-444455556666")
                                   [msg1; msg2])
       [{| onMessage := ServerUnstable.created req3 |}]
     = None
  /\ ServerWithResume.yields
       (ServerWithResume.subscribe None [msg1; msg2])
       [{| onMessage := ServerUnstable.created req3 |}]
     = Some [{| onMessage := ServerUnstable.created req3 |}].
Proof. repeat split; reflexivity. Qed.

(** ** The subscribers *)

(** Unfolding of the monadic method bodies. *)
Ltac unfold_js :=
  cbv [mbind M_bind mret M_ret Js.bind Js.ret Js.get Js.modify Js.emit
       Js.throw Js.try_catch Js.state_of Js.outcome_of Js.effects_of] in *.

Ltac unfold_client :=
  cbv [Client.handle Client.void Client.onOpen Client.onMessageFrame
       Client.onError Client.onClose Client.onTimeout Client.heartbeatTick
       Client.attemptReconnect_wake Client.attemptReconnect_connected
       Client.attemptReconnect_catch Client.attemptReconnect Client.connect
       Client.subscribe Client.sendMessage Client.unsubscribe
       Client.disconnect Client.clearSubscription Client.startHeartbeat
       Client.stopHeartbeat Client.ws_send Client.set_ws Client.set_connected
       Client.set_subscriptionId Client.set_messageHandler
       Client.set_lastMessageId Client.set_heartbeatInterval
       Client.set_reconnectAttempts Client.set_reconnectDelay
       Client.set_shouldReconnect] in *;
  unfold_js.

Ltac unfold_client2 :=
  cbv [ClientWithResume.handle ClientWithResume.void ClientWithResume.onOpen
       ClientWithResume.onMessageFrame ClientWithResume.onError
       ClientWithResume.onClose ClientWithResume.onTimeout
       ClientWithResume.heartbeatTick ClientWithResume.attemptReconnect_wake
       ClientWithResume.attemptReconnect_connected
       ClientWithResume.attemptReconnect_catch ClientWithResume.attemptReconnect
       ClientWithResume.connect ClientWithResume.subscribe
       ClientWithResume.sendMessage ClientWithResume.unsubscribe
       ClientWithResume.disconnect ClientWithResume.subscribeWithResume
       ClientWithResume.startHeartbeat ClientWithResume.stopHeartbeat
       ClientWithResume.ws_send ClientWithResume.set_ws
       ClientWithResume.set_connected ClientWithResume.set_subscriptions
       ClientWithResume.set_subscriptionId ClientWithResume.set_messageHandlers
       ClientWithResume.set_lastMessageId ClientWithResume.set_heartbeatInterval
       ClientWithResume.set_reconnectAttempts ClientWithResume.set_reconnectDelay
       ClientWithResume.set_shouldReconnect] in *;
  unfold_js.

(** C10. A client that is not connected refuses [subscribe] and
    [sendMessage] with [Error('Not connected to server')]: no field of the
    client changes and nothing is sent. This holds for both clients. *)
Theorem not_connected_guard (c : Client.Client) (c2 : ClientWithResume.Client)
    (h : option Js.Handler) (h2 : Js.Handler) (cursor : option string)
    (user text : string) (response : Js.Response) :
  Client.connected c = false ->
  ClientWithResume.connected c2 = false ->
  (Client.subscribe h cursor c
   = (Js.Threw (Js.Err "Not connected to server"), c, [])
   /\ Client.sendMessage user text response c
      = (Js.Threw (Js.Err "Not connected to server"), c, []))
  /\ (ClientWithResume.subscribe h2 cursor c2
      = (Js.Threw (Js.Err "Not connected to server"), c2, [])
      /\ ClientWithResume.sendMessage user text response c2
         = (Js.Threw (Js.Err "Not connected to server"), c2, [])).
Proof.
  intros H1 H2. unfold_client. unfold_client2.
  rewrite H1, H2. simpl. auto.
Qed.

Lemma not_connected_guard_witness :
  (Client.subscribe (Some 10%nat) None (Client.new "ws://localhost:4000/graphql" (Some "1"))
   = (Js.Threw (Js.Err "Not connected to server"),
      Client.new "ws://localhost:4000/graphql" (Some "1"), [])
   /\ Client.sendMessage "ann" "hello" (Js.Created msg1)
        (Client.new "ws://localhost:4000/graphql" (Some "1"))
      = (Js.Threw (Js.Err "Not connected to server"),
         Client.new "ws://localhost:4000/graphql" (Some "1"), []))
  /\ (ClientWithResume.subscribe 10%nat None
        (ClientWithResume.new "ws://localhost:4000/graphql" (Some "1"))
      = (Js.Threw (Js.Err "Not connected to server"),
         ClientWithResume.new "ws://localhost:4000/graphql" (Some "1"), [])
      /\ ClientWithResume.sendMessage "ann" "hello" (Js.Created msg1)
           (ClientWithResume.new "ws://localhost:4000/graphql" (Some "1"))
         = (Js.Threw (Js.Err "Not connected to server"),
            ClientWithResume.new "ws://localhost:4000/graphql" (Some "1"), [])).
Proof.
  apply (not_connected_guard
           (Client.new "ws://localhost:4000/graphql" (Some "1"))
           (ClientWithResume.new "ws://localhost:4000/graphql" (Some "1")));
    reflexivity.
Defined.

Ltac bool_facts :=
  repeat match goal with
         | H : (_ <? _)%Z = true |- _ => apply Z.ltb_lt in H
         | H : (_ <? _)%Z = false |- _ => apply Z.ltb_ge in H
         | H : (_ && _) = true |- _ => apply andb_true_iff in H; destruct H
         | H : negb _ = true |- _ => apply negb_true_iff in H
         | H : negb _ = false |- _ => apply negb_false_iff in H
         end.

Ltac by_cases :=
  simpl in *; repeat (case_match; simpl in *; simplify_eq); bool_facts;
  simpl in *; repeat split; simpl; auto; try lia.

Section SingleSubscriptionClient.

Import Js Client.

Lemma new_configured (u : string) (cid : option string) : configured (new u cid).
Proof. repeat split; reflexivity || (cbv; congruence). Qed.

Lemma handle_configured (e : Event) (c : Client) :
  configured c -> configured (state_of (handle e c)).
Proof.
  unfold configured, MAX_RECONNECT_ATTEMPTS, INITIAL_RECONNECT_DELAY.
  intros (Hd & Hm & Ha & Hs).
  destruct c; simpl in *; subst.
  destruct e; unfold_client; by_cases.
Qed.

Lemma run_step (e : Event) (es : list Event) (c : Client) :
  run (e :: es) c
  = (fst (run es (state_of (handle e c))),
     effects_of (handle e c) ++ snd (run es (state_of (handle e c)))).
Proof. simpl. destruct (run es (state_of (handle e c))). reflexivity. Qed.

Lemma run_configured (es : list Event) :
  forall c, configured c -> configured (fst (run es c)).
Proof.
  induction es as [|e es IH]; intros c Hc; [exact Hc|].
  rewrite run_step. simpl. apply IH, handle_configured, Hc.
Qed.

(** [attemptReconnect]: the counter goes up by one and the delay slept is
    the base delay doubled once per earlier attempt, capped. *)
Lemma attemptReconnect_delay (c : Client) :
  let d := Z.min (reconnectDelay c * 2 ^ (reconnectAttempts c + 1 - 1))
                 MAX_RECONNECT_DELAY in
  outcome_of (attemptReconnect c) = Returned d
  /\ effects_of (attemptReconnect c) = [Sleep d]
  /\ reconnectAttempts (state_of (attemptReconnect c)) = (reconnectAttempts c + 1)%Z.
Proof. destruct c. unfold_client. simpl. auto. Qed.


(** With no handler registered, no event other than a [subscribe] by the
    user registers one, and no event calls one. *)
Lemma handle_without_handler (e : Event) (c : Client) :
  is_user_subscribe e = false -> messageHandler c = None ->
  messageHandler (state_of (handle e c)) = None
  /\ List.filter is_call (effects_of (handle e c)) = [].
Proof.
  intros He Hh. destruct c; simpl in Hh; subst.
  destruct e; try discriminate; unfold_client; by_cases.
Qed.

Lemma run_without_handler (es : list Event) :
  forall c,
    forallb (fun e => negb (is_user_subscribe e)) es = true ->
    messageHandler c = None ->
    List.filter is_call (snd (run es c)) = [].
Proof.
  induction es as [|e es IH]; intros c Hes Hh; [reflexivity|].
  simpl in Hes. apply andb_true_iff in Hes as [He Hes].
  apply negb_true_iff in He.
  destruct (handle_without_handler e c He Hh) as [Hh' Hc'].
  rewrite run_step. simpl. rewrite List.filter_app, Hc'. simpl.
  apply IH; assumption.
Qed.

(** X12. [unsubscribe] on an active subscription sends the stop frame and
    forgets the handler; from then on, whatever the socket, the timers
    and the reconnection do, no handler is called until the user
    subscribes again. *)
Lemma unsubscribe_stops_delivery (c : Client) (s : Socket) (es : list Event) :
  truthy (subscriptionId c) = true -> ws c = Some s ->
  forallb (fun e => negb (is_user_subscribe e)) es = true ->
  effects_of (unsubscribe c) = [WsSend s (Stop (show (subscriptionId c)))]
  /\ messageHandler (state_of (unsubscribe c)) = None
  /\ subscriptionId (state_of (unsubscribe c)) = None
  /\ List.filter is_call (snd (run es (state_of (unsubscribe c)))) = [].
Proof.
  intros Hsub Hws Hes.
  assert (Hstate : messageHandler (state_of (unsubscribe c)) = None
                   /\ subscriptionId (state_of (unsubscribe c)) = None
                   /\ effects_of (unsubscribe c)
                      = [WsSend s (Stop (show (subscriptionId c)))]).
  { destruct c; simpl in *; subst. unfold_client. simpl. rewrite Hsub. simpl. auto. }
  destruct Hstate as (Hh & Hi & He).
  repeat split; auto. apply run_without_handler; assumption.
Qed.

(** [disconnect] on a client that holds a socket: the call ends in a
    [TypeError] right after closing the socket, and the handler, the
    subscription id and the socket field stay as they were. *)
Lemma disconnect_throws (c : Client) (s : Socket) :
  subscriptions c = None -> ws c = Some s ->
  outcome_of (disconnect c)
  = Threw (TypeError "Cannot read properties of undefined (reading 'clear')")
  /\ messageHandler (state_of (disconnect c)) = messageHandler c
  /\ subscriptionId (state_of (disconnect c)) = subscriptionId c
  /\ ws (state_of (disconnect c)) = Some s
  /\ connected (state_of (disconnect c)) = false
  /\ shouldReconnect (state_of (disconnect c)) = false
  /\ heartbeatInterval (state_of (disconnect c)) = None.
Proof.
  intros Hs Hws. destruct c; simpl in *; subst.
  unfold_client. by_cases.
Qed.

End SingleSubscriptionClient.

Section MultiHandlerClient.

Import Js ClientWithResume.













Lemma attemptReconnect_delay2 (c : Client) :
  let d := Z.min (reconnectDelay c * 2 ^ (reconnectAttempts c + 1 - 1))
                 MAX_RECONNECT_DELAY in
  outcome_of (attemptReconnect c) = Returned d
  /\ effects_of (attemptReconnect c) = [Sleep d]
  /\ reconnectAttempts (state_of (attemptReconnect c)) = (reconnectAttempts c + 1)%Z.
Proof. destruct c. unfold_client2. simpl. auto. Qed.

(** X18. In this client [disconnect] runs to its end: no handler, no
    subscription and no socket are left. *)
Lemma disconnect_clears (c : Client) (s : Socket) :
  ws c = Some s ->
  outcome_of (disconnect c) = Returned tt
  /\ In (WsClose s) (effects_of (disconnect c))
  /\ messageHandlers (state_of (disconnect c)) = []
  /\ subscriptions (state_of (disconnect c)) = ∅
  /\ ws (state_of (disconnect c)) = None
  /\ connected (state_of (disconnect c)) = false
  /\ shouldReconnect (state_of (disconnect c)) = false
  /\ heartbeatInterval (state_of (disconnect c)) = None.
Proof.
  intros Hws. destruct c; simpl in *; subst.
  unfold_client2. by_cases; simplify_eq; auto.
Qed.

End MultiHandlerClient.














(** C5. In the single-subscription client, a [subscribe] while a
    subscription id is stored changes no field of the client and sends no
    frame; on a connected client it returns [undefined] after a warning;
    whatever happens next happens as if the call had not been made. The
    client with several handlers has no such guard. *)
Theorem second_subscribe_is_noop (c : Client.Client) (h : option Js.Handler)
    (cursor : option string) (es : list Client.Event) :
  truthy (Client.subscriptionId c) = true ->
  Js.state_of (Client.subscribe h cursor c) = c
  /\ List.filter Js.is_send (Js.effects_of (Client.subscribe h cursor c)) = []
  /\ (Client.connected c = true ->
      Client.subscribe h cursor c
      = (Js.Returned None, c,
         [Js.Warn ("Client already subscribed, subscription id: "
                   ++ Js.show (Client.subscriptionId c))%string]))
  /\ Client.run es (Js.state_of (Client.subscribe h cursor c)) = Client.run es c.
Proof.
  intros Hsub.
  assert (H : Js.state_of (Client.subscribe h cursor c) = c
              /\ List.filter Js.is_send (Js.effects_of (Client.subscribe h cursor c)) = []
              /\ (Client.connected c = true ->
                  Client.subscribe h cursor c
                  = (Js.Returned None, c,
                     [Js.Warn ("Client already subscribed, subscription id: "
                               ++ Js.show (Client.subscriptionId c))%string]))).
  { destruct c; simpl in *. unfold_client. simpl. rewrite Hsub.
    destruct connected; simpl; repeat split; auto; discriminate. }
  destruct H as (Hs & He & Hr). rewrite Hs. auto.
Qed.

Lemma second_subscribe_is_noop_witness :
  Js.state_of (Client.subscribe (Some 11%nat) None client_subscribed) = client_subscribed
  /\ List.filter Js.is_send
       (Js.effects_of (Client.subscribe (Some 11%nat) None client_subscribed)) = []
  /\ (Client.connected client_subscribed = true ->
      Client.subscribe (Some 11%nat) None client_subscribed
      = (Js.Returned None, client_subscribed,
         [Js.Warn ("Client already subscribed, subscription id: "
                   ++ Js.show (Client.subscriptionId client_subscribed))%string]))
  /\ Client.run [Client.EMessage (Js.Data (Some msg1))]
       (Js.state_of (Client.subscribe (Some 11%nat) None client_subscribed))
     = Client.run [Client.EMessage (Js.Data (Some msg1))] client_subscribed.
Proof.
  apply (second_subscribe_is_noop client_subscribed (Some 11%nat) None
           [Client.EMessage (Js.Data (Some msg1))]).
  reflexivity.
Defined.

(** C5, as stated for every client, fails on the client with several
    handlers: a second [subscribe] sends another start frame and adds a
    second handler. *)
Lemma second_subscribe_adds_handler :
  ClientWithResume.messageHandlers client2_subscribed = [10%nat]
  /\ Js.effects_of (ClientWithResume.subscribe 11%nat None client2_subscribed)
     = [Js.WsSend 1 (Js.Start "subscription:1-2" Js.OnMessage None)]
  /\ ClientWithResume.messageHandlers
       (Js.state_of (ClientWithResume.subscribe 11%nat None client2_subscribed))
     = [10%nat; 11%nat]
  /\ Js.state_of (ClientWithResume.subscribe 11%nat None client2_subscribed)
     <> client2_subscribed.
Proof.
  repeat split; try (vm_compute; reflexivity).
  intros H. apply (f_equal ClientWithResume.messageHandlers) in H.
  vm_compute in H. discriminate.
Qed.

(** C8. In the client with several handlers the handler survives
    [unsubscribe]: a data frame that arrives afterwards calls it, and after
    the next reconnection the client subscribes it again by itself, so that
    a message published later reaches it. *)
Theorem unsubscribed_handler_still_called :
  ClientWithResume.subscriptions client2_subscribed !! "subscription:1-1" = Some 10%nat
  /\ List.filter Js.is_call
       (snd (ClientWithResume.run
               [ClientWithResume.UUnsubscribe "subscription:1-1";
                ClientWithResume.EMessage (Js.Data (Some msg1))]
               client2_subscribed))
     = [Js.Call 10 msg1]
  /\ List.filter (fun e => Js.is_call e || Js.is_send e)
       (snd (ClientWithResume.run
               [ClientWithResume.UUnsubscribe "subscription:1-1";
                ClientWithResume.EClose; ClientWithResume.EWake 2;
                ClientWithResume.EOpen 2;
                ClientWithResume.EMessage Js.ConnectionAck;
                ClientWithResume.EConnected;
                ClientWithResume.EMessage (Js.Data (Some msg2))]
               client2_subscribed))
     = [Js.WsSend 1 (Js.Stop "subscription:1-1");
        Js.WsSend 2 Js.ConnectionInit;
        Js.WsSend 2 (Js.Start "subscription:1-2" Js.OnMessage None);
        Js.Call 10 msg2; Js.Call 10 msg2].
Proof. repeat split; vm_compute; reflexivity. Qed.

(** C9. [disconnect()] of the single-subscription client does not return
    on a client that holds a socket: after closing the socket it reads
    [this.subscriptions], which this class never defines, and ends in a
    [TypeError]; the handler, the subscription id and the socket field are
    left in place, and a data frame that still arrives calls the handler. *)
Theorem disconnect_ends_in_type_error :
  Js.outcome_of (Client.disconnect client_subscribed)
  = Js.Threw (Js.TypeError "Cannot read properties of undefined (reading 'clear')")
  /\ Js.effects_of (Client.disconnect client_subscribed)
     = [Js.ClearInterval 1; Js.WsClose 1]
  /\ Client.messageHandler (Js.state_of (Client.disconnect client_subscribed))
     = Some 10%nat
  /\ Client.subscriptionId (Js.state_of (Client.disconnect client_subscribed))
     = Some "subscription:client-1"
  /\ Client.ws (Js.state_of (Client.disconnect client_subscribed)) = Some 1%nat
  /\ Js.effects_of
       (Client.onMessageFrame (Js.Data (Some msg1))
          (Js.state_of (Client.disconnect client_subscribed)))
     = [Js.Call 10 msg1].
Proof. repeat split; vm_compute; reflexivity. Qed.

(** * Further properties of the code *)

(** ** The intermediaries *)

Section ReplayWindow.

Import ProxyBackup.

Lemma early_loop_sent (now T : Z) (l : list Entry) :
  sent (ProxyBackupEarly.resendLoop now T l)
  = map message
      (List.filter (fun m => (T <=? timestamp m)%Z && (timestamp m <=? now)%Z) l).
Proof.
  induction l as [|e l IH]; simpl; [reflexivity|].
  rewrite Z.ltb_antisym, (Z.ltb_antisym (timestamp e) now).
  destruct (T <=? timestamp e)%Z, (timestamp e <=? now)%Z; simpl; rewrite IH; reflexivity.
Qed.

End ReplayWindow.

(** X1. On a reconnect the later proxy first restores the subscriptions
    and then sends exactly the buffered frames with
    [lastPong < timestamp <= now], in buffer order, each followed by a wait
    of 250 ms; the buffer and the checkpoint are left as they were. *)
Theorem later_proxy_replay_window (now : Z) (src : ProxyBackup.Source)
    (st : ProxyBackup.Proxy) :
  fst (ProxyBackup.onReconnect now src st) = st
  /\ snd (ProxyBackup.onReconnect now src st)
     = ProxyBackup.RestoreSubscriptions (ProxyBackup.clientId src)
       :: flat_map (fun e => [ProxyBackup.TargetSend (ProxyBackup.message e);
                              ProxyBackup.Wait 250])
            (List.filter
               (fun e => bool_decide (ProxyBackup.lastPong st < ProxyBackup.timestamp e
                                      <= now)%Z)
               (ProxyBackup.backup st)).
Proof.
  split; [reflexivity|]. unfold ProxyBackup.onReconnect. simpl. f_equal.
  rewrite resendMessages_paced, resendMessages_sent.
  assert (Hf : List.filter
                 (fun m => (ProxyBackup.lastPong st <? ProxyBackup.timestamp m)%Z
                           && (ProxyBackup.timestamp m <=? now)%Z)
                 (ProxyBackup.backup st)
               = List.filter
                   (fun e => bool_decide (ProxyBackup.lastPong st
                                          < ProxyBackup.timestamp e <= now)%Z)
                   (ProxyBackup.backup st)).
  { apply List.filter_ext. intros e.
    destruct (bool_decide_reflect (ProxyBackup.lastPong st
                                   < ProxyBackup.timestamp e <= now)%Z) as [H|H].
    - apply andb_true_iff. rewrite Z.ltb_lt, Z.leb_le. exact H.
    - apply andb_false_iff. rewrite Z.ltb_ge, Z.leb_gt. lia. }
  rewrite Hf. generalize (List.filter
                            (fun e => bool_decide (ProxyBackup.lastPong st
                                                   < ProxyBackup.timestamp e <= now)%Z)
                            (ProxyBackup.backup st)).
  intros l. induction l as [|e l IH]; simpl; [reflexivity|].
  do 2 f_equal. exact IH.
Qed.

(** A downstream disconnect empties the backup buffer and keeps the
    checkpoint, in both buffering proxies: a reconnect that follows it, at
    any time, restores the subscriptions and sends no frame. *)
Theorem disconnect_empties_replay (now : Z) (src : ProxyBackup.Source)
    (st : ProxyBackup.Proxy) :
  (ProxyBackup.backup (fst (ProxyBackup.onDisconnect src st)) = []
   /\ ProxyBackup.lastPong (fst (ProxyBackup.onDisconnect src st))
      = ProxyBackup.lastPong st
   /\ snd (ProxyBackup.onReconnect now src (fst (ProxyBackup.onDisconnect src st)))
      = [ProxyBackup.RestoreSubscriptions (ProxyBackup.clientId src)])
  /\ (ProxyBackup.backup (fst (ProxyBackupEarly.onDisconnect src st)) = []
      /\ ProxyBackup.lastPong (fst (ProxyBackupEarly.onDisconnect src st))
         = ProxyBackup.lastPong st
      /\ snd (ProxyBackupEarly.onReconnect now src
                (fst (ProxyBackupEarly.onDisconnect src st)))
         = [ProxyBackup.RestoreSubscriptions (ProxyBackup.clientId src)]).
Proof. repeat split; reflexivity. Qed.

Section MonotoneClock.

Import ProxyBackup ProxyRun.

Lemma filter_after_all_old (now : Z) (l : list Entry) :
  Forall (fun e => (timestamp e <= now)%Z) l ->
  List.filter (fun m => (now <? timestamp m)%Z) l = [].
Proof.
  induction 1 as [|e l He _ IH]; simpl; [reflexivity|].
  replace (now <? timestamp e)%Z with false by (symmetry; apply Z.ltb_ge; exact He).
  exact IH.
Qed.

Lemma buffer_ok_push (t now : Z) (raw : string) (st : Proxy) :
  buffer_ok t st -> (t <= now)%Z ->
  buffer_ok now {| backup := backup st ++ [{| message := raw; timestamp := now |}];
                   lastPong := lastPong st |}.
Proof.
  intros (Hl & Hf & Hs) Hle. unfold buffer_ok. simpl. split; [lia|]. split.
  - apply Forall_app. split.
    + eapply Forall_impl; [exact Hf|]. simpl. intros e He. lia.
    + constructor; [simpl; lia|constructor].
  - rewrite map_app. apply StronglySorted_app_2; [|exact Hs|repeat constructor].
    intros x1 x2 H1 H2. apply list_elem_of_singleton in H2. subst x2.
    apply list_elem_of_fmap in H1 as (e & -> & He).
    rewrite Forall_forall in Hf. specialize (Hf e He). simpl in *. lia.
Qed.

Lemma buffer_ok_later (t now : Z) (st : Proxy) :
  buffer_ok t st -> (t <= now)%Z -> buffer_ok now st.
Proof.
  intros (Hl & Hf & Hs) Hle. split; [lia|]. split; [|exact Hs].
  eapply Forall_impl; [exact Hf|]. simpl. intros e He. lia.
Qed.

Lemma buffer_ok_pong (t now : Z) (st : Proxy) :
  buffer_ok t st -> (t <= now)%Z ->
  onPong now st = {| backup := []; lastPong := now |}.
Proof.
  intros (Hl & Hf & Hs) Hle. unfold onPong. f_equal.
  apply filter_after_all_old. eapply Forall_impl; [exact Hf|].
  simpl. intros e He. lia.
Qed.

Lemma buffer_ok_empty (now : Z) : buffer_ok now {| backup := []; lastPong := now |}.
Proof. split; [simpl; lia|]. split; simpl; constructor. Qed.

Lemma step_buffer_ok (h : Hook) (t : Z) (x : Source * Proxy) :
  buffer_ok t (snd x) ->
  match reading h with Some now => (t <= now)%Z | None => True end ->
  buffer_ok (default t (reading h)) (snd (step h x))
  /\ buffer_ok (default t (reading h)) (snd (stepEarly h x)).
Proof.
  intros Hok Hr. destruct x as [src st]. simpl in Hok.
  destruct h as [now|now raw m|m| |now]; simpl in *.
  - change (ProxyBackupEarly.onPong now st) with (onPong now st).
    rewrite (buffer_ok_pong t now st Hok Hr). split; apply buffer_ok_empty.
  - unfold onIncomingMessage, ProxyBackupEarly.onIncomingMessage.
    destruct (negb (String.eqb (f_type m) "start")); simpl; split;
      first [apply (buffer_ok_push t); assumption
            | apply (buffer_ok_later t); assumption].
  - auto.
  - destruct Hok as (Hl & _). split; (split; [exact Hl|split; simpl; constructor]).
  - split; apply (buffer_ok_later t); assumption.
Qed.

Lemma run_buffer_ok (hs : list Hook) :
  forall (t : Z) (x y : Source * Proxy),
    buffer_ok t (snd x) -> buffer_ok t (snd y) -> monotone t hs ->
    buffer_ok (latest t hs) (snd (run hs x))
    /\ buffer_ok (latest t hs) (snd (runEarly hs y)).
Proof.
  induction hs as [|h hs IH]; intros t x y Hx Hy Hm; [simpl; auto|].
  simpl in Hm. unfold run, runEarly. cbn [foldl latest].
  assert (Hr : match reading h with Some now => (t <= now)%Z | None => True end).
  { destruct (reading h); [apply Hm|exact I]. }
  assert (Hm' : monotone (default t (reading h)) hs).
  { destruct (reading h); [apply Hm|exact Hm]. }
  apply IH; [apply step_buffer_ok|apply step_buffer_ok|]; assumption.
Qed.

Lemma early_replays_everything (t now : Z) (st : Proxy) :
  buffer_ok t st -> (t <= now)%Z ->
  sent (ProxyBackupEarly.resendMessages now st) = map message (backup st).
Proof.
  intros (Hl & Hf & _) Hle. unfold ProxyBackupEarly.resendMessages.
  rewrite early_loop_sent. f_equal.
  induction Hf as [|e l He _ IH]; simpl; [reflexivity|].
  replace (lastPong st <=? timestamp e)%Z with true by (symmetry; apply Z.leb_le; lia).
  replace (timestamp e <=? now)%Z with true by (symmetry; apply Z.leb_le; lia).
  simpl. f_equal. exact IH.
Qed.

End MonotoneClock.

Section ReplayWaits.

Import ProxyBackup ProxyRun ProxyReplay.

(** One turn of the loop is the head of the uninterrupted replay. *)
Lemma turn_spec (now lp : Z) (rest : list Entry) :
  forall i,
    match turn now lp i rest with
    | None => ProxyBackupEarly.resendLoop now lp rest = []
    | Some (raw, j) =>
        exists k, j = (i + S k)%nat /\ (k < length rest)%nat
                  /\ ProxyBackupEarly.resendLoop now lp rest
                     = TargetSend raw :: Wait 250
                       :: ProxyBackupEarly.resendLoop now lp (drop (S k) rest)
    end.
Proof.
  induction rest as [|m rest IH]; intros i; simpl; [reflexivity|].
  destruct ((timestamp m <? lp)%Z || (now <? timestamp m)%Z).
  - specialize (IH (S i)). destruct (turn now lp (S i) rest) as [[raw j]|].
    + destruct IH as (k & -> & Hk & Hl). exists (S k).
      split; [lia|]. split; [lia|]. exact Hl.
    + exact IH.
  - exists 0%nat. split; [lia|]. split; [lia|]. rewrite drop_0. reflexivity.
Qed.

Lemma timers_idle (ks : list nat) (src : Source) (st : Proxy) :
  run (map Timer ks) (idle src st) = (idle src st, []).
Proof.
  induction ks as [|k ks IH]; [reflexivity|].
  cbn [map run step idle w_replays]. rewrite lookup_nil.
  fold (idle src st). rewrite IH. reflexivity.
Qed.

Lemma repeat_timers (n : nat) : repeat (Timer 0) n = map Timer (repeat 0%nat n).
Proof. induction n as [|n IH]; simpl; [|rewrite IH]; reflexivity. Qed.

(** A replay that nothing interrupts sends what [resendLoop] lists. *)
Lemma timers_replay (n : nat) :
  forall (src : Source) (st : Proxy) (r : Replay),
    r_detached r = None ->
    (length (drop (r_index r) (backup st)) <= n)%nat ->
    snd (run (repeat (Timer 0) n)
             {| w_source := src; w_proxy := st; w_replays := [r] |})
    = ProxyBackupEarly.resendLoop (r_now r) (lastPong st)
        (drop (r_index r) (backup st)).
Proof.
  induction n as [|n IH]; intros src st r Hd Hlen.
  - apply Nat.le_0_r, length_zero_iff_nil in Hlen. rewrite Hlen. reflexivity.
  - cbn [repeat run step w_replays lookup list_lookup w_proxy w_source].
    unfold resume, array_of. rewrite Hd.
    pose proof (turn_spec (r_now r) (lastPong st)
                  (drop (r_index r) (backup st)) (r_index r)) as Ht.
    destruct (turn (r_now r) (lastPong st) (r_index r)
                (drop (r_index r) (backup st))) as [[raw j]|].
    + destruct Ht as (k & Hj & Hk & Hl).
      cbn [insert list_insert].
      specialize (IH src st {| r_now := r_now r; r_index := j; r_detached := None |}
                    eq_refl).
      cbn [r_index r_now] in IH.
      assert (Hdrop : drop j (backup st)
                      = drop (S k) (drop (r_index r) (backup st))).
      { rewrite drop_drop. f_equal. lia. }
      rewrite Hdrop in IH.
      destruct (run (repeat (Timer 0) n)
                  {| w_source := src; w_proxy := st;
                     w_replays := [{| r_now := r_now r; r_index := j;
                                      r_detached := None |}] |}) as [w2 e2].
      cbn [snd] in *. rewrite Hl, IH; [reflexivity|].
      rewrite length_drop. lia.
    + cbn [delete list_delete]. fold (idle src st).
      rewrite repeat_timers, timers_idle. cbn [snd app]. symmetry. exact Ht.
Qed.

(** [ProxyBackupEarly.onReconnect] lists the effects of a reconnect whose
    replay no other hook interrupts. *)
Lemma replay_uninterrupted (now : Z) (src : Source) (st : Proxy) (n : nat) :
  (length (backup st) <= n)%nat ->
  snd (run (Hook (Reconnect now) :: repeat (Timer 0) n) (idle src st))
  = snd (ProxyBackupEarly.onReconnect now src st).
Proof.
  intros Hlen.
  cbn [run step idle w_replays w_proxy w_source].
  unfold resume, array_of. cbn [r_detached r_index r_now]. rewrite drop_0.
  pose proof (turn_spec now (lastPong st) (backup st) 0) as Ht.
  unfold ProxyBackupEarly.onReconnect, ProxyBackupEarly.resendMessages. cbn [snd].
  destruct (turn now (lastPong st) 0 (backup st)) as [[raw j]|].
  - destruct Ht as (k & Hj & Hk & Hl). cbn [app].
    pose proof (timers_replay n src st
                  {| r_now := now; r_index := j; r_detached := None |} eq_refl) as Hr.
    cbn [r_index r_now] in Hr.
    destruct (run (repeat (Timer 0) n)
                {| w_source := src; w_proxy := st;
                   w_replays := [{| r_now := now; r_index := j;
                                    r_detached := None |}] |}) as [w2 e2].
    cbn [snd] in *. rewrite Hl, Hr; [|rewrite length_drop; lia].
    simpl in Hj. subst j. reflexivity.
  - cbn [app]. fold (idle src st). rewrite repeat_timers, timers_idle.
    cbn [snd app]. rewrite Ht. reflexivity.
Qed.


Lemma timers_spent (ks : list nat) :
  forall (src : Source) (st : Proxy) (rs : list Replay),
    Forall (spent st) rs ->
    snd (run (map Timer ks)
             {| w_source := src; w_proxy := st; w_replays := rs |}) = [].
Proof.
  induction ks as [|k ks IH]; intros src st rs Hs; [reflexivity|].
  cbn [map run step w_replays w_proxy w_source].
  destruct (rs !! k) as [r|] eqn:Hk.
  - assert (Hr : spent st r).
    { rewrite Forall_forall in Hs. apply Hs. eapply list_elem_of_lookup_2. exact Hk. }
    unfold spent in Hr. rewrite Hr.
    assert (Hs' : Forall (spent st) (delete k rs)).
    { clear -Hs. revert k. induction Hs as [|x l Hx Hl IH]; intros [|k];
        cbn [delete list_delete]; try constructor; auto. }
    specialize (IH src st _ Hs').
    destruct (run (map Timer ks) _) as [w2 e2]. cbn [snd] in *. rewrite IH. reflexivity.
  - specialize (IH src st rs Hs).
    destruct (run (map Timer ks) _) as [w2 e2]. cbn [snd] in *. rewrite IH. reflexivity.
Qed.

Lemma turn_all_old (now T : Z) (rest : list Entry) :
  Forall (fun e => (timestamp e < T)%Z) rest ->
  forall i, turn now T i rest = None.
Proof.
  induction 1 as [|m rest Hm _ IH]; intros i; simpl; [reflexivity|].
  replace (timestamp m <? T)%Z with true by (symmetry; apply Z.ltb_lt; exact Hm).
  simpl. apply IH.
Qed.

(** The frames the first turn of a replay sends are the first of the
    uninterrupted replay. *)
Lemma first_turn_sent (now : Z) (src : Source) (st : Proxy) :
  sent (fst (resume st {| r_now := now; r_index := 0; r_detached := None |}))
  = first_frame (sent (snd (ProxyBackupEarly.onReconnect now src st))).
Proof.
  unfold resume, array_of, first_frame. cbn [r_detached r_index r_now].
  rewrite drop_0.
  unfold ProxyBackupEarly.onReconnect, ProxyBackupEarly.resendMessages. cbn [snd].
  pose proof (turn_spec now (lastPong st) (backup st) 0) as Ht.
  destruct (turn now (lastPong st) 0 (backup st)) as [[raw j]|].
  - destruct Ht as (k & _ & _ & Hl). rewrite Hl. reflexivity.
  - rewrite Ht. reflexivity.
Qed.

End ReplayWaits.

Section AfterPong.

Import ProxyBackup ProxyRun.

Lemma run_arrivals (fs : list (Z * string * Frame)) :
  forall src st,
    backup (snd (run (arrivals fs) (src, st)))
    = backup st ++ map entry_of (List.filter (fun f => is_start (snd f)) fs)
    /\ lastPong (snd (run (arrivals fs) (src, st))) = lastPong st.
Proof.
  unfold run, arrivals.
  induction fs as [|[[t raw] m] fs IH]; intros src st.
  - simpl. rewrite app_nil_r. auto.
  - cbn [map foldl step fst snd List.filter]. unfold onIncomingMessage.
    destruct (is_start m) eqn:E; unfold is_start in E; rewrite E; cbn [negb fst].
    + destruct (IH {| clientId := f_id m |}
                   {| backup := backup st ++ [{| message := raw; timestamp := t |}];
                      lastPong := lastPong st |}) as [Hb Hl].
      rewrite Hb, Hl. cbn [backup lastPong map]. rewrite <- app_assoc.
      split; reflexivity.
    + destruct (IH {| clientId := f_id m |} st) as [Hb Hl].
      rewrite Hb, Hl. auto.
Qed.

Lemma runEarly_arrivals (fs : list (Z * string * Frame)) :
  forall src st,
    backup (snd (runEarly (arrivals fs) (src, st)))
    = backup st ++ map entry_of fs
    /\ lastPong (snd (runEarly (arrivals fs) (src, st))) = lastPong st.
Proof.
  unfold runEarly, arrivals.
  induction fs as [|[[t raw] m] fs IH]; intros src st.
  - simpl. rewrite app_nil_r. auto.
  - cbn [map foldl stepEarly fst snd]. unfold ProxyBackupEarly.onIncomingMessage.
    destruct (negb (String.eqb (f_type m) "start")); cbn [fst];
      destruct (IH {| clientId := f_id m |}
                   {| backup := backup st ++ [{| message := raw; timestamp := t |}];
                      lastPong := lastPong st |}) as [Hb Hl];
      rewrite Hb, Hl; cbn [backup lastPong map]; rewrite <- app_assoc;
      split; reflexivity.
Qed.

Lemma arrivals_bounds (fs : list (Z * string * Frame)) :
  forall T,
    monotone T (arrivals fs) ->
    (T <= latest T (arrivals fs))%Z
    /\ Forall (fun f => (T <= fst (fst f) <= latest T (arrivals fs))%Z) fs.
Proof.
  induction fs as [|[[t raw] m] fs IH]; intros T Hm.
  - simpl. split; [lia|constructor].
  - change (arrivals ((t, raw, m) :: fs)) with (Incoming t raw m :: arrivals fs) in *.
    cbn [monotone reading latest default from_option] in *.
    unfold Datatypes.id in *.
    destruct Hm as [HT Hm]. destruct (IH t Hm) as [Hle Hf].
    split; [lia|]. constructor; [simpl; lia|].
    eapply Forall_impl; [exact Hf|]. simpl. intros f Hb. lia.
Qed.

End AfterPong.

Section WorldRuns.

Import ProxyBackup ProxyRun ProxyReplay.

Lemma world_run_app (es1 es2 : list Event) :
  forall w,
    run (es1 ++ es2) w
    = (fst (run es2 (fst (run es1 w))),
       snd (run es1 w) ++ snd (run es2 (fst (run es1 w)))).
Proof.
  induction es1 as [|e es1 IH]; intros w.
  - simpl. destruct (run es2 w). reflexivity.
  - cbn [app run]. destruct (step e w) as [w1 e1]. rewrite IH.
    destruct (run es1 w1) as [w2 e2]. cbn [fst snd].
    destruct (run es2 w2) as [w3 e3]. cbn [fst snd]. rewrite app_assoc. reflexivity.
Qed.

(** While no replay is under way the world follows the hooks. *)
Lemma world_arrivals (fs : list (Z * string * Frame)) :
  forall src st,
    fst (run (map Hook (arrivals fs)) (idle src st))
    = idle (fst (runEarly (arrivals fs) (src, st)))
           (snd (runEarly (arrivals fs) (src, st)))
    /\ sent (snd (run (map Hook (arrivals fs)) (idle src st))) = [].
Proof.
  unfold runEarly, arrivals.
  induction fs as [|[[t raw] m] fs IH]; intros src st; [split; reflexivity|].
  cbn [map run step foldl stepEarly idle w_source w_proxy w_replays fst snd].
  destruct (ProxyBackupEarly.onIncomingMessage t raw m src st) as [[src1 st1] e1] eqn:E.
  cbn [fst]. fold (idle src1 st1).
  destruct (IH src1 st1) as [Hw Hs].
  destruct (run _ (idle src1 st1)) as [w2 e2]. cbn [fst snd] in *.
  split; [exact Hw|].
  unfold sent. rewrite flat_map_app. fold (sent e1) (sent e2). rewrite Hs, app_nil_r.
  unfold ProxyBackupEarly.onIncomingMessage in E.
  destruct (negb (String.eqb (f_type m) "start")); injection E as _ _ <-; reflexivity.
Qed.

End WorldRuns.

Section AfterPongReplay.

Import ProxyBackup ProxyRun.

Lemma later_window (T now : Z) (fs : list (Z * string * Frame)) :
  Forall (fun f => (fst (fst f) <= now)%Z) fs ->
  map message
    (List.filter (fun e => (T <? timestamp e)%Z && (timestamp e <=? now)%Z)
       (map entry_of (List.filter (fun f => is_start (snd f)) fs)))
  = map raw_of (List.filter (fun f => is_start (snd f) && (T <? fst (fst f))%Z) fs).
Proof.
  induction 1 as [|[[t raw] m] fs Hle _ IH]; [reflexivity|].
  cbn [List.filter fst snd] in *.
  destruct (is_start m); cbn [andb map List.filter entry_of timestamp fst snd]; [|exact IH].
  replace (t <=? now)%Z with true by (symmetry; apply Z.leb_le; exact Hle).
  rewrite andb_true_r. destruct (T <? t)%Z; cbn [map]; rewrite IH; reflexivity.
Qed.

Lemma early_window (T now : Z) (fs : list (Z * string * Frame)) :
  Forall (fun f => (T <= fst (fst f) <= now)%Z) fs ->
  map message
    (List.filter (fun e => (T <=? timestamp e)%Z && (timestamp e <=? now)%Z)
       (map entry_of fs))
  = map raw_of fs.
Proof.
  induction 1 as [|[[t raw] m] fs Hb _ IH]; [reflexivity|].
  cbn [map List.filter entry_of timestamp fst snd] in *.
  replace (T <=? t)%Z with true by (symmetry; apply Z.leb_le; lia).
  replace (t <=? now)%Z with true by (symmetry; apply Z.leb_le; lia).
  cbn [andb map]. rewrite IH. reflexivity.
Qed.

End AfterPongReplay.

(** X2. What a reconnect replays of the frames that arrived since the last
    pong, with a clock that never goes back: the later proxy sends the
    start frames stamped strictly after the pong, in order of arrival; the
    earlier proxy, when no replay is under way and no hook runs during the
    waits of this one, sends every frame that arrived since the pong, those
    stamped in the millisecond of the pong included. *)
Theorem pong_then_reconnect (t T now : Z) (src : ProxyBackup.Source)
    (st : ProxyBackup.Proxy) (fs : list (Z * string * ProxyBackup.Frame)) :
  buffer_ok t st -> (t <= T)%Z ->
  ProxyRun.monotone T (arrivals fs) ->
  (ProxyRun.latest T (arrivals fs) <= now)%Z ->
  let later := ProxyRun.run (ProxyRun.Pong T :: arrivals fs) (src, st) in
  ProxyBackup.sent (snd (ProxyBackup.onReconnect now (fst later) (snd later)))
  = map raw_of
      (List.filter (fun f => is_start (snd f) && (T <? fst (fst f))%Z) fs)
  /\ ProxyBackup.sent
       (snd (ProxyReplay.run
               (map ProxyReplay.Hook (ProxyRun.Pong T :: arrivals fs)
                ++ ProxyReplay.Hook (ProxyRun.Reconnect now)
                   :: repeat (ProxyReplay.Timer 0) (length fs))
               (ProxyReplay.idle src st)))
     = map raw_of fs.
Proof.
  intros Hok HtT Hm Hnow later.
  destruct (arrivals_bounds fs T Hm) as [_ Hb].
  pose proof (buffer_ok_pong t T st Hok HtT) as Hpong.
  split.
  - subst later. unfold ProxyRun.run. cbn [foldl ProxyRun.step fst snd].
    rewrite Hpong.
    destruct (run_arrivals fs src {| ProxyBackup.backup := [];
                                     ProxyBackup.lastPong := T |}) as [Hbk Hlp].
    unfold ProxyRun.run in Hbk, Hlp.
    unfold ProxyBackup.onReconnect. cbn [snd].
    change (ProxyBackup.sent (ProxyBackup.RestoreSubscriptions ?c :: ?l))
      with (ProxyBackup.sent l).
    rewrite resendMessages_sent, Hbk, Hlp. cbn [ProxyBackup.backup app].
    apply later_window. eapply Forall_impl; [exact Hb|]. simpl. intros f Hf. lia.
  - set (tail := ProxyReplay.Hook (ProxyRun.Reconnect now) :: _).
    rewrite world_run_app.
    cbn [map ProxyReplay.run ProxyReplay.step ProxyReplay.idle ProxyReplay.w_source
         ProxyReplay.w_proxy ProxyReplay.w_replays].
    change (ProxyBackupEarly.onPong T st) with (ProxyBackup.onPong T st).
    rewrite Hpong.
    fold (ProxyReplay.idle src {| ProxyBackup.backup := []; ProxyBackup.lastPong := T |}).
    destruct (world_arrivals fs src {| ProxyBackup.backup := [];
                                       ProxyBackup.lastPong := T |}) as [Hw Hs].
    destruct (runEarly_arrivals fs src {| ProxyBackup.backup := [];
                                          ProxyBackup.lastPong := T |}) as [Hbk Hlp].
    destruct (ProxyReplay.run (map ProxyReplay.Hook (arrivals fs)) _) as [w1 e1].
    cbn [fst snd app] in *. subst w1 tail.
    unfold ProxyBackup.sent. rewrite flat_map_app.
    fold (ProxyBackup.sent e1). rewrite Hs. cbn [app].
    match goal with
    | |- flat_map _ ?l = _ => change (ProxyBackup.sent l = map raw_of fs)
    end.
    rewrite replay_uninterrupted
      by (rewrite Hbk; cbn [ProxyBackup.backup app]; rewrite length_map; lia).
    unfold ProxyBackupEarly.onReconnect, ProxyBackupEarly.resendMessages. cbn [snd].
    change (ProxyBackup.sent (ProxyBackup.RestoreSubscriptions ?c :: ?l))
      with (ProxyBackup.sent l).
    rewrite early_loop_sent, Hbk, Hlp. cbn [ProxyBackup.backup app].
    apply early_window. eapply Forall_impl; [exact Hb|]. simpl. intros f Hf. lia.
Qed.

Lemma pong_then_reconnect_witness :
  ProxyBackup.sent
    (snd (ProxyBackup.onReconnect 40
            (fst (ProxyRun.run (ProxyRun.Pong 20 :: arrivals sample_arrivals)
                    ({| ProxyBackup.clientId := None |}, ProxyBackup.init 0)))
            (snd (ProxyRun.run (ProxyRun.Pong 20 :: arrivals sample_arrivals)
                    ({| ProxyBackup.clientId := None |}, ProxyBackup.init 0)))))
  = ["start-2"]
  /\ ProxyBackup.sent
       (snd (ProxyReplay.run
               (map ProxyReplay.Hook (ProxyRun.Pong 20 :: arrivals sample_arrivals)
                ++ ProxyReplay.Hook (ProxyRun.Reconnect 40)
                   :: repeat (ProxyReplay.Timer 0) (length sample_arrivals))
               (ProxyReplay.idle {| ProxyBackup.clientId := None |}
                                 (ProxyBackup.init 0))))
     = ["start-1"; "stop"; "start-2"].
Proof.
  assert (Hok : buffer_ok 0 (ProxyBackup.init 0)).
  { split; [simpl; lia|]. split; simpl; constructor. }
  assert (Hm : ProxyRun.monotone 20 (arrivals sample_arrivals)) by (simpl; lia).
  assert (Hl : (ProxyRun.latest 20 (arrivals sample_arrivals) <= 40)%Z)
    by (simpl; lia).
  exact (pong_then_reconnect 0 20 40 {| ProxyBackup.clientId := None |}
           (ProxyBackup.init 0) sample_arrivals Hok ltac:(lia) Hm Hl).
Defined.

(** X3. With a clock that never goes back, after any run of hooks from the
    start of the proxy every buffered frame is stamped between the
    checkpoint and the latest clock reading, in non-decreasing order.
    Therefore a pong that comes next empties the buffer altogether, and a
    reconnect of the earlier proxy, when no replay is under way and no
    other hook runs during its waits, replays the whole buffer. *)
Theorem monotone_clock_buffer (t0 : Z) (hs : list ProxyRun.Hook)
    (src : ProxyBackup.Source) (now : Z) :
  ProxyRun.monotone t0 hs -> (ProxyRun.latest t0 hs <= now)%Z ->
  let st := snd (ProxyRun.run hs (src, ProxyBackup.init t0)) in
  let src' := fst (ProxyRun.runEarly hs (src, ProxyBackup.init t0)) in
  let st' := snd (ProxyRun.runEarly hs (src, ProxyBackup.init t0)) in
  (buffer_ok (ProxyRun.latest t0 hs) st /\ buffer_ok (ProxyRun.latest t0 hs) st')
  /\ (ProxyBackup.backup (ProxyBackup.onPong now st) = []
      /\ ProxyBackup.backup (ProxyBackupEarly.onPong now st') = [])
  /\ ProxyBackup.sent
       (snd (ProxyReplay.run
               (ProxyReplay.Hook (ProxyRun.Reconnect now)
                :: repeat (ProxyReplay.Timer 0) (length (ProxyBackup.backup st')))
               (ProxyReplay.idle src' st')))
     = map ProxyBackup.message (ProxyBackup.backup st').
Proof.
  intros Hm Hnow st src' st'.
  destruct (run_buffer_ok hs t0 (src, ProxyBackup.init t0) (src, ProxyBackup.init t0))
    as [H1 H2]; try assumption; try apply buffer_ok_empty.
  fold st in H1. fold st' in H2.
  split; [split; assumption|]. split.
  - split.
    + rewrite (buffer_ok_pong _ now st H1 Hnow). reflexivity.
    + change (ProxyBackupEarly.onPong now st') with (ProxyBackup.onPong now st').
      rewrite (buffer_ok_pong _ now st' H2 Hnow). reflexivity.
  - rewrite replay_uninterrupted by lia.
    unfold ProxyBackupEarly.onReconnect. cbn [snd].
    change (ProxyBackup.sent (ProxyBackup.RestoreSubscriptions ?c :: ?l))
      with (ProxyBackup.sent l).
    apply (early_replays_everything _ now st' H2 Hnow).
Qed.

Lemma monotone_clock_buffer_witness :
  ProxyBackup.backup
    (ProxyBackupEarly.onPong 30
       (snd (ProxyRun.runEarly sample_hooks
               ({| ProxyBackup.clientId := None |}, ProxyBackup.init 0)))) = []
  /\ ProxyBackup.sent
       (snd (ProxyReplay.run
               (ProxyReplay.Hook (ProxyRun.Reconnect 30)
                :: repeat (ProxyReplay.Timer 0)
                     (length (ProxyBackup.backup
                                (snd (ProxyRun.runEarly sample_hooks
                                        ({| ProxyBackup.clientId := None |},
                                         ProxyBackup.init 0))))))
               (ProxyReplay.idle
                  (fst (ProxyRun.runEarly sample_hooks
                          ({| ProxyBackup.clientId := None |}, ProxyBackup.init 0)))
                  (snd (ProxyRun.runEarly sample_hooks
                          ({| ProxyBackup.clientId := None |}, ProxyBackup.init 0))))))
     = map ProxyBackup.message
         (ProxyBackup.backup
            (snd (ProxyRun.runEarly sample_hooks
                    ({| ProxyBackup.clientId := None |}, ProxyBackup.init 0)))).
Proof.
  pose proof (monotone_clock_buffer 0 sample_hooks
                {| ProxyBackup.clientId := None |} 30) as H.
  assert (Hm : ProxyRun.monotone 0 sample_hooks) by (simpl; lia).
  assert (Hl : (ProxyRun.latest 0 sample_hooks <= 30)%Z) by (simpl; lia).
  destruct (H Hm Hl) as (_ & (_ & Hp) & Hs).
  exact (conj Hp Hs).
Defined.

(** X28. A replay of the earlier proxy that is interrupted stops short.
    The first frame goes out with the reconnect itself; when, during the
    wait that follows, a pong arrives at a time later than every buffered
    stamp, or the client disconnects, no further frame is sent, whenever
    the waits end. Left alone, the replay sends what
    [ProxyBackupEarly.onReconnect] lists. *)
Theorem replay_cut_short (now T : Z) (src : ProxyBackup.Source)
    (st : ProxyBackup.Proxy) (ks : list nat) :
  Forall (fun e => (ProxyBackup.timestamp e < T)%Z) (ProxyBackup.backup st) ->
  ProxyBackup.sent
    (snd (ProxyReplay.run
            (ProxyReplay.Hook (ProxyRun.Reconnect now)
             :: ProxyReplay.Hook (ProxyRun.Pong T) :: map ProxyReplay.Timer ks)
            (ProxyReplay.idle src st)))
  = first_frame (ProxyBackup.sent (snd (ProxyBackupEarly.onReconnect now src st)))
  /\ ProxyBackup.sent
       (snd (ProxyReplay.run
               (ProxyReplay.Hook (ProxyRun.Reconnect now)
                :: ProxyReplay.Hook ProxyRun.Disconnect :: map ProxyReplay.Timer ks)
               (ProxyReplay.idle src st)))
     = first_frame (ProxyBackup.sent (snd (ProxyBackupEarly.onReconnect now src st)))
  /\ snd (ProxyReplay.run
            (ProxyReplay.Hook (ProxyRun.Reconnect now)
             :: repeat (ProxyReplay.Timer 0) (length (ProxyBackup.backup st)))
            (ProxyReplay.idle src st))
     = snd (ProxyBackupEarly.onReconnect now src st).
Proof.
  intros Hold.
  pose proof (first_turn_sent now src st) as Hfirst.
  assert (Hsent : forall a b, ProxyBackup.sent (a ++ b)
                              = ProxyBackup.sent a ++ ProxyBackup.sent b).
  { intros a b. unfold ProxyBackup.sent. apply flat_map_app. }
  split; [|split; [|apply replay_uninterrupted; lia]].
  - cbn [ProxyReplay.run ProxyReplay.step ProxyReplay.idle ProxyReplay.w_replays
         ProxyReplay.w_proxy ProxyReplay.w_source].
    destruct (ProxyReplay.resume st
                {| ProxyReplay.r_now := now; ProxyReplay.r_index := 0;
                   ProxyReplay.r_detached := None |}) as [effs r] eqn:Hres.
    cbn [fst] in Hfirst. cbn [app].
    assert (Hspent : Forall (spent (ProxyBackupEarly.onPong T st))
                       (map (ProxyReplay.detach (ProxyBackup.backup st))
                            match r with Some r' => [r'] | None => [] end)).
    { destruct r as [r'|]; [|constructor]. constructor; [|constructor].
      unfold ProxyReplay.resume in Hres.
      destruct (ProxyReplay.turn _ _ _ _) as [[raw j]|]; [|discriminate].
      injection Hres as _ <-.
      unfold spent, ProxyReplay.resume, ProxyReplay.detach,
        ProxyReplay.array_of.
      cbn [ProxyReplay.r_detached ProxyReplay.r_index ProxyReplay.r_now
           ProxyBackup.lastPong ProxyBackupEarly.onPong].
      rewrite turn_all_old; [reflexivity|]. apply Forall_drop. exact Hold. }
    pose proof (timers_spent ks src (ProxyBackupEarly.onPong T st) _ Hspent) as Ht.
    destruct (ProxyReplay.run (map ProxyReplay.Timer ks) _) as [w2 e2].
    cbn [snd] in *. subst e2. cbn [app]. rewrite app_nil_r.
    change (ProxyBackup.sent (ProxyBackup.RestoreSubscriptions (ProxyBackup.clientId src) :: effs))
      with (ProxyBackup.sent effs).
    exact Hfirst.
  - cbn [ProxyReplay.run ProxyReplay.step ProxyReplay.idle ProxyReplay.w_replays
         ProxyReplay.w_proxy ProxyReplay.w_source].
    destruct (ProxyReplay.resume st
                {| ProxyReplay.r_now := now; ProxyReplay.r_index := 0;
                   ProxyReplay.r_detached := None |}) as [effs r] eqn:Hres.
    cbn [fst] in Hfirst. cbn [app ProxyBackupEarly.onDisconnect].
    assert (Hspent : Forall (spent
                               {| ProxyBackup.backup := [];
                                  ProxyBackup.lastPong := ProxyBackup.lastPong st |})
                       match r with Some r' => [r'] | None => [] end).
    { destruct r as [r'|]; [|constructor]. constructor; [|constructor].
      unfold ProxyReplay.resume in Hres.
      destruct (ProxyReplay.turn _ _ _ _) as [[raw j]|]; [|discriminate].
      injection Hres as _ <-.
      unfold spent, ProxyReplay.resume, ProxyReplay.array_of.
      cbn [ProxyReplay.r_detached ProxyReplay.r_index ProxyReplay.r_now
           ProxyBackup.backup].
      rewrite drop_nil. reflexivity. }
    pose proof (timers_spent ks src _ _ Hspent) as Ht.
    destruct (ProxyReplay.run (map ProxyReplay.Timer ks) _) as [w2 e2].
    cbn [snd] in *. subst e2. cbn [app].
    match goal with
    | |- ProxyBackup.sent (?e :: ?l) = _ =>
        change (ProxyBackup.sent (e :: l)) with (ProxyBackup.sent l)
    end.
    rewrite Hsent, Hfirst. cbn. rewrite app_nil_r. reflexivity.
Qed.

Lemma replay_cut_short_witness :
  ProxyBackup.sent
    (snd (ProxyReplay.run
            [ProxyReplay.Hook (ProxyRun.Reconnect 10);
             ProxyReplay.Hook (ProxyRun.Pong 12);
             ProxyReplay.Timer 0; ProxyReplay.Timer 0]
            (ProxyReplay.idle {| ProxyBackup.clientId := None |} sample_buffer)))
  = ["a"]
  /\ ProxyBackup.sent
       (snd (ProxyReplay.run
               [ProxyReplay.Hook (ProxyRun.Reconnect 10);
                ProxyReplay.Timer 0; ProxyReplay.Timer 0]
               (ProxyReplay.idle {| ProxyBackup.clientId := None |} sample_buffer)))
     = ["a"; "b"].
Proof.
  assert (Hold : Forall (fun e => (ProxyBackup.timestamp e < 12)%Z)
                        (ProxyBackup.backup sample_buffer)).
  { repeat constructor; simpl; lia. }
  destruct (replay_cut_short 10 12 {| ProxyBackup.clientId := None |}
              sample_buffer [0%nat; 0%nat] Hold) as (H1 & _ & H3).
  split; [exact H1|].
  change (ProxyBackup.sent
            (snd (ProxyReplay.run
                    (ProxyReplay.Hook (ProxyRun.Reconnect 10)
                     :: repeat (ProxyReplay.Timer 0)
                          (length (ProxyBackup.backup sample_buffer)))
                    (ProxyReplay.idle {| ProxyBackup.clientId := None |}
                                      sample_buffer)))
          = ["a"; "b"]).
  rewrite H3. reflexivity.
Defined.

Section UnbufferedProxy.

Import ProxyBackup ProxyResume.

Lemma incoming_identified (ms : list Frame) (src : Source) :
  truthy (s_id src) = true ->
  incoming ms src
  = (src, map (fun m => AddSubscription (s_id src) (f_query m) (f_variables m))
              (List.filter is_start ms)).
Proof.
  intros Hid. induction ms as [|m ms IH]; [reflexivity|].
  simpl. unfold onIncomingMessage. rewrite Hid. simpl.
  unfold is_start. destruct (String.eqb (f_type m) "start"); simpl; rewrite IH; reflexivity.
Qed.

Lemma incoming_first (m : Frame) :
  truthy (f_id m) = true ->
  onIncomingMessage m {| s_id := None |}
  = Done {| s_id := f_id m |}
         (if is_start m
          then [AddSubscription (f_id m) (f_query m) (f_variables m)] else []).
Proof.
  intros Hid. unfold onIncomingMessage, is_start. simpl. rewrite Hid.
  destruct (String.eqb (f_type m) "start"); reflexivity.
Qed.

Lemma incoming_anonymous (m : Frame) :
  truthy (f_id m) = false ->
  onIncomingMessage m {| s_id := None |} = ReferenceError "randomUUID is not defined".
Proof. intros Hid. unfold onIncomingMessage. simpl. rewrite Hid. reflexivity. Qed.

Lemma fromFirstId_length (ms : list Frame) :
  (length (fromFirstId ms) <= length ms)%nat.
Proof.
  induction ms as [|x ms IH]; simpl; [lia|].
  destruct (truthy (f_id x)); simpl; lia.
Qed.

End UnbufferedProxy.

(** X4. In the proxy without a buffer a connection is named by the first
    inbound frame that carries an id: the hook ends in a [ReferenceError]
    for every frame before it, and from that frame on every start frame is
    recorded under that one id, whatever ids later frames carry. *)
Theorem unbuffered_proxy_connection_id (ms : list ProxyBackup.Frame) :
  ProxyResume.incoming ms {| ProxyResume.s_id := None |}
  = ({| ProxyResume.s_id := firstId ms |},
     map (fun m => ProxyBackup.AddSubscription (firstId ms)
                     (ProxyBackup.f_query m) (ProxyBackup.f_variables m))
         (List.filter is_start (fromFirstId ms)))
  /\ Forall (fun m => ProxyResume.onIncomingMessage m {| ProxyResume.s_id := None |}
                      = ProxyResume.ReferenceError "randomUUID is not defined")
            (take (length ms - length (fromFirstId ms)) ms).
Proof.
  induction ms as [|m ms [IH1 IH2]]; [split; [reflexivity|constructor]|].
  cbn [ProxyResume.incoming firstId fromFirstId].
  destruct (truthy (ProxyBackup.f_id m)) eqn:Hid.
  - rewrite (incoming_first m Hid).
    rewrite (incoming_identified ms {| ProxyResume.s_id := ProxyBackup.f_id m |} Hid).
    split.
    + cbn [List.filter ProxyResume.s_id]. destruct (is_start m); reflexivity.
    + replace (length (m :: ms) - length (m :: ms))%nat with 0%nat by lia.
      constructor.
  - rewrite (incoming_anonymous m Hid). split; [exact IH1|].
    pose proof (fromFirstId_length ms) as Hlen.
    replace (length (m :: ms) - length (fromFirstId ms))%nat
      with (S (length ms - length (fromFirstId ms))) by (simpl; lia).
    cbn [take]. constructor; [apply incoming_anonymous, Hid|exact IH2].
Qed.

(** ** The unstable publisher *)

Section FanOut.

Import ServerUnstable.

Lemma pending_repeat (q : nat) (cs : list Call) (rs : list Request) :
  pendingFor q (flat_map (fun r => emit {| onMessage := created r |} cs) rs)
  = flat_map (fun r => repeat {| onMessage := created r |} (listeners q cs)) rs.
Proof.
  induction rs as [|r rs IH]; simpl; [reflexivity|].
  rewrite pendingFor_app, pendingFor_emit, IH. reflexivity.
Qed.

Lemma fan_out (q : nat) (rs : list Request) (s : Server) :
  queue_of q (drain (publishAll rs s))
  = queue_of q s ++ pendingFor q (sleeping s)
    ++ flat_map (fun r => repeat {| onMessage := created r |} (listeners q (calls s))) rs.
Proof.
  destruct (publishAll_spec rs s) as (_ & Hc & Hq & Hs).
  rewrite drain_queue. unfold queue_of. rewrite Hq, Hs, pendingFor_app, pending_repeat.
  reflexivity.
Qed.

Lemma no_listener_no_delivery (q : nat) (rs : list Request) (s : Server) :
  listeners q (calls s) = 0%nat ->
  queue_of q (drain (publishAll rs s)) = queue_of q s ++ pendingFor q (sleeping s).
Proof.
  intros H0. rewrite fan_out, H0.
  assert (Hnil : flat_map (fun r => repeat {| onMessage := created r |} 0) rs = []).
  { induction rs; simpl; auto. }
  rewrite Hnil, app_nil_r. reflexivity.
Qed.

Lemma listeners_none (q : nat) (cs : list Call) :
  Forall (fun c => c_listening c && negb (silenced c) && (c_queue c =? q)%nat = false) cs ->
  listeners q cs = 0%nat.
Proof.
  unfold listeners. induction 1 as [|c cs Hc _ IH]; simpl; [reflexivity|].
  rewrite Hc. exact IH.
Qed.

Lemma listeners_closed (q q' : nat) (s : Server) :
  listeners q (calls (closeQueue q s)) = 0%nat
  /\ (q' <> q -> listeners q' (calls (closeQueue q s)) = listeners q' (calls s)).
Proof.
  unfold closeQueue, listeners. simpl. split.
  - induction (calls s) as [|c cs IH]; simpl; [reflexivity|].
    destruct (Nat.eqb_spec (c_queue c) q) as [E|E]; simpl.
    + exact IH.
    + replace (c_queue c =? q)%nat with false by (symmetry; apply Nat.eqb_neq; exact E).
      rewrite andb_false_r. exact IH.
  - intros Hne. induction (calls s) as [|c cs IH]; simpl; [reflexivity|].
    destruct (Nat.eqb_spec (c_queue c) q) as [E|E]; simpl.
    + replace (c_queue c =? q')%nat with false
        by (symmetry; apply Nat.eqb_neq; congruence).
      rewrite !andb_false_r. exact IH.
    + destruct (c_listening c && negb (silenced c) && (c_queue c =? q')%nat);
        simpl; rewrite IH; reflexivity.
Qed.

End FanOut.

(** X5. Fan-out of the unstable publisher: once the sleeping listeners have
    woken up, a queue holds what it held, then what was already in flight
    for it, then each published message once per listener that is still
    registered on the emitter for this queue and has not gone silent, in
    publish order. *)
Theorem publish_fan_out (q : nat) (rs : list ServerUnstable.Request)
    (s : ServerUnstable.Server) :
  ServerUnstable.queue_of q (ServerUnstable.drain (ServerUnstable.publishAll rs s))
  = ServerUnstable.queue_of q s
    ++ pendingFor q (ServerUnstable.sleeping s)
    ++ flat_map (fun r => repeat {| onMessage := ServerUnstable.created r |}
                            (listeners q (ServerUnstable.calls s)))
         rs.
Proof. apply fan_out. Qed.

(** X6. Once a queue is closed, no message published later reaches it: it only
    receives what was already asleep for it; every other queue gets what it
    would have got. *)
Theorem closed_queue_gets_nothing_new (q q' : nat)
    (rs : list ServerUnstable.Request) (s : ServerUnstable.Server) :
  q' <> q ->
  ServerUnstable.queue_of q
    (ServerUnstable.drain (ServerUnstable.publishAll rs (ServerUnstable.closeQueue q s)))
  = ServerUnstable.queue_of q s ++ pendingFor q (ServerUnstable.sleeping s)
  /\ ServerUnstable.queue_of q'
       (ServerUnstable.drain
          (ServerUnstable.publishAll rs (ServerUnstable.closeQueue q s)))
     = ServerUnstable.queue_of q'
         (ServerUnstable.drain (ServerUnstable.publishAll rs s)).
Proof.
  intros Hne. destruct (listeners_closed q q' s) as [H0 Hq']. split.
  - rewrite no_listener_no_delivery by exact H0. reflexivity.
  - rewrite !fan_out, (Hq' Hne). reflexivity.
Qed.

Lemma closed_queue_gets_nothing_new_witness :
  ServerUnstable.queue_of 7
    (ServerUnstable.drain
       (ServerUnstable.publishAll [req3] (ServerUnstable.closeQueue 7 server_one_call)))
  = ServerUnstable.queue_of 7 server_one_call
    ++ pendingFor 7 (ServerUnstable.sleeping server_one_call)
  /\ ServerUnstable.queue_of 8
       (ServerUnstable.drain
          (ServerUnstable.publishAll [req3] (ServerUnstable.closeQueue 7 server_one_call)))
     = ServerUnstable.queue_of 8
         (ServerUnstable.drain (ServerUnstable.publishAll [req3] server_one_call)).
Proof.
  apply (closed_queue_gets_nothing_new 7%nat 8%nat [req3] server_one_call). lia.
Defined.

(** X7. An unresponsive subscription goes silent when its timer fires: if it
    is the only subscription on its queue and on its socket, then from the
    firing on pings on the socket get no pong and no message published
    later reaches the queue. *)
Theorem unresponsive_goes_silent (i : nat) (c : ServerUnstable.Call)
    (p : ServerUnstable.Problem) (rs : list ServerUnstable.Request)
    (s : ServerUnstable.Server) :
  ServerUnstable.calls s !! i = Some c ->
  ServerUnstable.c_problem c = Some p ->
  ServerUnstable.p_kind p = ServerUnstable.unresponsive ->
  (forall j c', ServerUnstable.calls s !! j = Some c' ->
                ServerUnstable.c_queue c' = ServerUnstable.c_queue c
                \/ ServerUnstable.c_ws c' = ServerUnstable.c_ws c ->
                j = i) ->
  let s' := fst (ServerUnstable.problemFires i s) in
  snd (ServerUnstable.problemFires i s) = []
  /\ ServerUnstable.onPing (ServerUnstable.c_ws c) s' = []
  /\ ServerUnstable.queue_of (ServerUnstable.c_queue c)
       (ServerUnstable.drain (ServerUnstable.publishAll rs s'))
     = ServerUnstable.queue_of (ServerUnstable.c_queue c) s
       ++ pendingFor (ServerUnstable.c_queue c) (ServerUnstable.sleeping s).
Proof.
  intros Hi Hp Hk Honly s'.
  assert (Hs' : ServerUnstable.problemFires i s
                = ({| ServerUnstable.messages := ServerUnstable.messages s;
                      ServerUnstable.problemIndex := ServerUnstable.problemIndex s;
                      ServerUnstable.calls :=
                        <[i := {| ServerUnstable.c_subscriptionId := ServerUnstable.c_subscriptionId c;
                                  ServerUnstable.c_ws := ServerUnstable.c_ws c;
                                  ServerUnstable.c_queue := ServerUnstable.c_queue c;
                                  ServerUnstable.c_cursor := ServerUnstable.c_cursor c;
                                  ServerUnstable.c_problem :=
                                    Some {| ServerUnstable.p_kind := ServerUnstable.p_kind p;
                                            ServerUnstable.p_timeout := ServerUnstable.p_timeout p;
                                            ServerUnstable.p_run := true |};
                                  ServerUnstable.c_listening := ServerUnstable.c_listening c |}]>
                          (ServerUnstable.calls s);
                      ServerUnstable.queues := ServerUnstable.queues s;
                      ServerUnstable.sleeping := ServerUnstable.sleeping s |}, [])).
  { unfold ServerUnstable.problemFires. rewrite Hi, Hp, Hk. reflexivity. }
  subst s'. rewrite Hs'. cbn [fst snd].
  set (c' := {| ServerUnstable.c_subscriptionId := ServerUnstable.c_subscriptionId c;
                ServerUnstable.c_ws := _ |}).
  assert (Hsil : ServerUnstable.silenced c' = true).
  { unfold ServerUnstable.silenced, c'. simpl. rewrite Hk. reflexivity. }
  assert (Hel : forall x, x ∈ <[i := c']> (ServerUnstable.calls s) ->
                  x = c' \/ (ServerUnstable.c_queue x <> ServerUnstable.c_queue c
                             /\ ServerUnstable.c_ws x <> ServerUnstable.c_ws c)).
  { intros x Hx. apply list_elem_of_lookup in Hx as [j Hj].
    destruct (decide (j = i)) as [->|Hne].
    - left. rewrite list_lookup_insert_eq in Hj by (eapply lookup_lt_Some; exact Hi).
      congruence.
    - right. rewrite list_lookup_insert_ne in Hj by congruence.
      split; intros E; apply Hne; eapply Honly; eauto. }
  split; [reflexivity|]. split.
  - unfold ServerUnstable.onPing. simpl.
    induction (<[i := c']> (ServerUnstable.calls s)) as [|x l IH]; [reflexivity|].
    simpl. rewrite IH by (intros y Hy; apply Hel; right; exact Hy).
    destruct (Hel x ltac:(left)) as [->|[_ Hws]].
    + rewrite Hsil, andb_false_r. reflexivity.
    + replace (ServerUnstable.c_ws x =? ServerUnstable.c_ws c)%nat with false
        by (symmetry; apply Nat.eqb_neq; exact Hws).
      reflexivity.
  - rewrite no_listener_no_delivery; [reflexivity|]. simpl.
    apply listeners_none, Forall_forall. intros x Hx.
    destruct (Hel x Hx) as [->|[Hq _]].
    + rewrite Hsil. simpl. rewrite andb_false_r. reflexivity.
    + replace (ServerUnstable.c_queue x =? ServerUnstable.c_queue c)%nat with false
        by (symmetry; apply Nat.eqb_neq; exact Hq).
      apply andb_false_r.
Qed.

Lemma unresponsive_goes_silent_witness :
  ServerUnstable.onPing 1 (fst (ServerUnstable.problemFires 0 server_one_call)) = []
  /\ ServerUnstable.queue_of 7
       (ServerUnstable.drain
          (ServerUnstable.publishAll [req3]
             (fst (ServerUnstable.problemFires 0 server_one_call))))
     = ServerUnstable.queue_of 7 server_one_call
       ++ pendingFor 7 (ServerUnstable.sleeping server_one_call).
Proof.
  pose proof (unresponsive_goes_silent 0
                {| ServerUnstable.c_subscriptionId := "sub-uuid";
                   ServerUnstable.c_ws := 1; ServerUnstable.c_queue := 7;
                   ServerUnstable.c_cursor := None;
                   ServerUnstable.c_problem :=
                     Some {| ServerUnstable.p_kind := ServerUnstable.unresponsive;
                             ServerUnstable.p_timeout := 2500;
                             ServerUnstable.p_run := false |};
                   ServerUnstable.c_listening := true |}
                {| ServerUnstable.p_kind := ServerUnstable.unresponsive;
                   ServerUnstable.p_timeout := 2500;
                   ServerUnstable.p_run := false |}
                [req3] server_one_call eq_refl eq_refl eq_refl) as H.
  assert (Honly : forall j c',
             ServerUnstable.calls server_one_call !! j = Some c' ->
             ServerUnstable.c_queue c' = 7%nat \/ ServerUnstable.c_ws c' = 1%nat ->
             j = 0%nat).
  { intros j c' Hj _. destruct j as [|j]; [reflexivity|]. simpl in Hj. discriminate. }
  destruct (H Honly) as (_ & Hping & Hq).
  exact (conj Hping Hq).
Defined.

(** X8. Problems are handed out round robin: with [Math.random()] not above
    the chance, a subscription gets the problem [problems[problemIndex]]
    with the timeout drawn, not yet run, and one timer armed for it, and
    the index becomes [(problemIndex + 1) % 3]; otherwise it gets no
    problem, no timer, and the index stays. Three problems scheduled in a
    row are those at [i], [i + 1] and [i + 2] modulo 3, and the index is
    back at [i]. *)
Theorem problems_round_robin (uuid : string) (roll : bool) (timeout t2 t3 : Z)
    (q ws : nat) (context_id cursor : option string) (s : ServerUnstable.Server) :
  (ServerUnstable.problemIndex s < 3)%nat ->
  let i := ServerUnstable.problemIndex s in
  let r := ServerUnstable.subscribe uuid roll timeout q ws context_id cursor s in
  (if roll
   then ServerUnstable.problemIndex (fst r) = i
        /\ (ServerUnstable.c_problem <$> last (ServerUnstable.calls (fst r)))
           = Some None
        /\ snd r = []
   else ServerUnstable.problemIndex (fst r) = ((i + 1) mod 3)%nat
        /\ (exists kind,
               ServerUnstable.problems !! i = Some kind
               /\ (ServerUnstable.c_problem <$> last (ServerUnstable.calls (fst r)))
                  = Some (Some {| ServerUnstable.p_kind := kind;
                                  ServerUnstable.p_timeout := timeout;
                                  ServerUnstable.p_run := false |}))
        /\ snd r = [ServerUnstable.SetTimeout timeout
                      (length (ServerUnstable.calls s))])
  /\ (let r1 := ServerUnstable.scheduleSubscriptionProblem false timeout i in
      let r2 := ServerUnstable.scheduleSubscriptionProblem false t2 (snd r1) in
      let r3 := ServerUnstable.scheduleSubscriptionProblem false t3 (snd r2) in
      kinds [fst r1; fst r2; fst r3]
      = [ServerUnstable.problems !! i;
         ServerUnstable.problems !! ((i + 1) mod 3)%nat;
         ServerUnstable.problems !! ((i + 2) mod 3)%nat]
      /\ snd r3 = i).
Proof.
  intros Hi i r. subst r i.
  remember (ServerUnstable.problemIndex s) as i eqn:Ei. split.
  - unfold ServerUnstable.subscribe, ServerUnstable.scheduleSubscriptionProblem.
    rewrite <- Ei. destruct roll.
    + destruct (negb (truthy cursor)); [|destruct (negb (_ =? -1)%Z)];
        cbn [fst snd ServerUnstable.problemIndex ServerUnstable.calls];
        rewrite last_snoc; repeat split; reflexivity.
    + destruct i as [|[|[|i]]]; try lia;
        (destruct (negb (truthy cursor)); [|destruct (negb (_ =? -1)%Z)]);
        cbn [fst snd ServerUnstable.problemIndex ServerUnstable.calls
             ServerUnstable.problems lookup list_lookup ServerUnstable.p_timeout];
        rewrite last_snoc; (split; [reflexivity|]);
        (split; [eexists; split; reflexivity|reflexivity]).
  - destruct i as [|[|[|i]]]; try lia; cbv zeta; split; reflexivity.
Qed.

Lemma problems_round_robin_witness :
  ServerUnstable.problemIndex
    (fst (ServerUnstable.subscribe "sub-uuid" false 2500 7 1 None None server12))
  = 1%nat
  /\ snd (ServerUnstable.subscribe "sub-uuid" false 2500 7 1 None None server12)
     = [ServerUnstable.SetTimeout 2500 0]
  /\ kinds [fst (ServerUnstable.scheduleSubscriptionProblem false 2500 0);
            fst (ServerUnstable.scheduleSubscriptionProblem false 3000 1);
            fst (ServerUnstable.scheduleSubscriptionProblem false 3500 2)]
     = [Some ServerUnstable.unresponsive; Some ServerUnstable.close_connection;
        Some ServerUnstable.break_connection].
Proof.
  pose proof (problems_round_robin "sub-uuid" false 2500 3000 3500 7 1 None None
                server12 ltac:(simpl; lia)) as H.
  cbv zeta in H. destruct H as ((H1 & _ & H3) & (H4 & _)).
  exact (conj H1 (conj H3 H4)).
Defined.

Lemma unstable_unknown_cursor_live_only_witness :
  ServerUnstable.queue_of 7
    (fst (ServerUnstable.subscribe "sub-uuid" false 2500 7 1 None
            (Some "7d9f0c2a-1111-4222-8333-444455556666") server12)) = []
  /\ ServerUnstable.queue_of 7
       (ServerUnstable.drain
          (ServerUnstable.publishAll [req4]
             (fst (ServerUnstable.problemFires
                     (length (ServerUnstable.calls server12))
                     (ServerUnstable.publishAll [req3]
                        (fst (ServerUnstable.subscribe "sub-uuid" false 2500 7 1 None
                                (Some "7d9f0c2a-1111-4222-8333-444455556666")
                                server12)))))))
     = [{| onMessage := ServerUnstable.created req3 |}].
Proof.
  pose proof (unstable_unknown_cursor_live_only "sub-uuid" false 2500 7 1 None
                "7d9f0c2a-1111-4222-8333-444455556666" server12 [req3] [req4]) as H.
  assert (Hnin : ~ In "7d9f0c2a-1111-4222-8333-444455556666"
                      (ids (ServerUnstable.messages server12))).
  { simpl. intros [H1|[H1|[]]]; discriminate. }
  assert (Hfresh : fresh 7 server12) by (repeat split; reflexivity).
  destruct (H Hnin Hfresh) as (H1 & _ & H3).
  exact (conj H1 H3).
Defined.

(** ** The resumable publisher *)

Lemma after_reappearance_absent (i : string) (live : list Payload) :
  Forall (fun p => id (onMessage p) <> i) live -> after_reappearance i live = [].
Proof.
  induction 1 as [|p live Hp _ IH]; simpl; [reflexivity|].
  apply String.eqb_neq in Hp. rewrite Hp. exact IH.
Qed.

Lemma from_cursor_incl (c : string) (log : list Message) (m : Message) :
  In m (from_cursor c log) -> In m log.
Proof.
  induction log as [|x log IH]; simpl; [auto|].
  destruct (String.eqb (id x) c); simpl; tauto.
Qed.

(** X10. The stitch of the resumable server never fires on new messages: when
    the cursor is found and no live payload carries the id of a logged
    message, the subscriber gets the stored messages from the cursor on and
    no live message at all, however many are published. *)
Theorem resumable_server_starves (c : string) (log : list Message)
    (live : list Payload) :
  c <> "" -> In c (ids log) ->
  Forall (fun p => ~ In (id (onMessage p)) (ids log)) live ->
  ServerWithResume.yields (ServerWithResume.subscribe (Some c) log) live
  = Some (map mkPayload (from_cursor c log)).
Proof.
  intros Hc Hin Hnew.
  destruct (subscribe_found c log Hc Hin) as (Hsub & m & post & Hfrom & _).
  rewrite Hsub. simpl. unfold ServerWithResume.generator. f_equal.
  destruct (last (from_cursor c log)) as [l|] eqn:Hl.
  - rewrite (liveLoop_stitch _ l live Hl), after_reappearance_absent.
    + apply app_nil_r.
    + eapply Forall_impl; [exact Hnew|]. simpl. intros p Hp Heq. apply Hp.
      rewrite Heq. apply List.in_map. apply (from_cursor_incl c).
      apply list_elem_of_In. apply last_Some_elem_of. exact Hl.
  - rewrite Hfrom in Hl. apply last_None in Hl. discriminate.
Qed.

Lemma resumable_server_starves_witness :
  ServerWithResume.yields
    (ServerWithResume.subscribe (Some (id msg1)) [msg1; msg2])
    [{| onMessage := ServerUnstable.created req3 |};
     {| onMessage := ServerUnstable.created req4 |}]
  = Some (map mkPayload (from_cursor (id msg1) [msg1; msg2])).
Proof.
  apply (resumable_server_starves (id msg1) [msg1; msg2]).
  - discriminate.
  - simpl. auto.
  - repeat constructor; simpl; intros [H|[H|[]]]; discriminate.
Defined.

Lemma subscribe_unknown_witness :
  ServerWithResume.subscribe (Some "7d9f0c2a-1111-4222-8333-444455556666") [msg1; msg2]
  = ServerWithResume.Undefined.
Proof.
  apply subscribe_unknown.
  - discriminate.
  - simpl. intros [H|[H|[]]]; discriminate.
Defined.

(** ** The single-subscription client, continued *)

Lemma unsubscribe_stops_delivery_witness :
  Js.effects_of (Client.unsubscribe client_subscribed)
  = [Js.WsSend 1 (Js.Stop "subscription:client-1")]
  /\ List.filter Js.is_call
       (snd (Client.run
               [Client.EMessage (Js.Data (Some msg1)); Client.EClose; Client.EWake 2;
                Client.EOpen 2; Client.EMessage Js.ConnectionAck; Client.EConnected;
                Client.EMessage (Js.Data (Some msg2))]
               (Js.state_of (Client.unsubscribe client_subscribed)))) = [].
Proof.
  pose proof (unsubscribe_stops_delivery client_subscribed 1%nat
                [Client.EMessage (Js.Data (Some msg1)); Client.EClose; Client.EWake 2;
                 Client.EOpen 2; Client.EMessage Js.ConnectionAck; Client.EConnected;
                 Client.EMessage (Js.Data (Some msg2))]
                eq_refl eq_refl eq_refl) as (H1 & _ & _ & H4).
  exact (conj H1 H4).
Defined.

Section SingleSubscriptionClientMore.

Import Js Client.

Lemma disconnect_without_socket (c : Client) :
  ws c = None ->
  outcome_of (disconnect c) = Returned tt
  /\ messageHandler (state_of (disconnect c)) = messageHandler c
  /\ subscriptionId (state_of (disconnect c)) = subscriptionId c
  /\ ws (state_of (disconnect c)) = None
  /\ shouldReconnect (state_of (disconnect c)) = false
  /\ heartbeatInterval (state_of (disconnect c)) = None.
Proof.
  intros Hws. destruct c; simpl in *; subst. unfold_client. by_cases.
Qed.

Lemma handle_keeps_disabled (e : Event) (c : Client) :
  is_user_connect e = false -> shouldReconnect c = false ->
  shouldReconnect (state_of (handle e c)) = false
  /\ List.filter is_new_socket (effects_of (handle e c)) = [].
Proof.
  intros He Hs. destruct c; simpl in Hs; subst.
  destruct e; try discriminate; unfold_client; by_cases.
Qed.

Lemma run_keeps_disabled (es : list Event) :
  forall c,
    forallb (fun e => negb (is_user_connect e)) es = true ->
    shouldReconnect c = false ->
    List.filter is_new_socket (snd (run es c)) = [].
Proof.
  induction es as [|e es IH]; intros c Hes Hs; [reflexivity|].
  simpl in Hes. apply andb_true_iff in Hes as [He Hes].
  apply negb_true_iff in He.
  destruct (handle_keeps_disabled e c He Hs) as [Hs' Hn].
  rewrite run_step. simpl. rewrite List.filter_app, Hn. simpl.
  apply IH; assumption.
Qed.

Lemma disconnect_disables (c : Client) :
  shouldReconnect (state_of (disconnect c)) = false.
Proof. destruct c. unfold_client. by_cases. Qed.

Lemma delay_in_range (base a : Z) :
  (0 <= a)%Z -> (0 < base <= 30000)%Z ->
  (base <= Z.min (base * 2 ^ (a + 1 - 1)) 30000 <= 30000)%Z.
Proof.
  intros Ha Hb. split; [|apply Z.le_min_r].
  apply Z.min_glb; [|lia].
  assert (H : (1 <= 2 ^ (a + 1 - 1))%Z).
  { replace 1%Z with (2 ^ 0)%Z by reflexivity. apply Z.pow_le_mono_r; lia. }
  nia.
Qed.

Lemma handle_sleeps (e : Event) (c : Client) :
  configured c ->
  Forall (sleep_in_range INITIAL_RECONNECT_DELAY) (effects_of (handle e c)).
Proof.
  unfold configured, MAX_RECONNECT_ATTEMPTS, INITIAL_RECONNECT_DELAY.
  intros (Hd & Hm & Ha & Hs).
  destruct c; simpl in *; subst.
  destruct e; unfold_client; by_cases;
    repeat (constructor; simpl; auto);
    unfold MAX_RECONNECT_DELAY; apply delay_in_range; lia.
Qed.

Lemma run_sleeps (es : list Event) :
  forall c, configured c ->
    Forall (sleep_in_range INITIAL_RECONNECT_DELAY) (snd (run es c)).
Proof.
  induction es as [|e es IH]; intros c Hc; [constructor|].
  rewrite run_step. simpl. apply Forall_app. split.
  - apply handle_sleeps, Hc.
  - apply IH, handle_configured, Hc.
Qed.

Lemma armed_app (ts : list Timer) (a b : list Effect) :
  armed ts (a ++ b) = armed (armed ts a) b.
Proof. unfold armed. apply foldl_app. Qed.

Lemma handle_armed (e : Event) (c : Client) :
  armed (timer_list (heartbeatInterval c)) (effects_of (handle e c))
  = timer_list (heartbeatInterval (state_of (handle e c))).
Proof.
  destruct c. destruct e; unfold_client; by_cases;
    try match goal with
        | H : (?t =? ?t)%nat = false |- _ => rewrite Nat.eqb_refl in H; discriminate
        end;
    unfold armed; simpl; rewrite ?Nat.eqb_refl; reflexivity.
Qed.

Lemma run_armed (es : list Event) :
  forall c,
    armed (timer_list (heartbeatInterval c)) (snd (run es c))
    = timer_list (heartbeatInterval (fst (run es c))).
Proof.
  induction es as [|e es IH]; intros c; [reflexivity|].
  rewrite run_step. simpl. rewrite armed_app, handle_armed. apply IH.
Qed.

End SingleSubscriptionClientMore.

(** X13. In no state the single-subscription client reaches from its
    constructor does [disconnect()] clear the handler, the subscription id
    or the socket field: without a socket there is nothing it touches
    besides the reconnection flag and the heartbeat, and with a socket it
    ends in the [TypeError] before it gets there. *)
Theorem disconnect_never_clears (u : string) (cid : option string)
    (es : list Client.Event) :
  let c := fst (Client.run es (Client.new u cid)) in
  Js.outcome_of (Client.disconnect c)
  = match Client.ws c with
    | Some _ =>
        Js.Threw (Js.TypeError "Cannot read properties of undefined (reading 'clear')")
    | None => Js.Returned tt
    end
  /\ Client.messageHandler (Js.state_of (Client.disconnect c)) = Client.messageHandler c
  /\ Client.subscriptionId (Js.state_of (Client.disconnect c)) = Client.subscriptionId c
  /\ Client.ws (Js.state_of (Client.disconnect c)) = Client.ws c
  /\ Client.shouldReconnect (Js.state_of (Client.disconnect c)) = false
  /\ Client.heartbeatInterval (Js.state_of (Client.disconnect c)) = None.
Proof.
  intros c.
  assert (Hc : configured c) by apply run_configured, new_configured.
  destruct Hc as (_ & _ & _ & Hsubs).
  destruct (Client.ws c) as [s|] eqn:Hws.
  - destruct (disconnect_throws c s Hsubs Hws) as (H1 & H2 & H3 & H4 & _ & H6 & H7).
    repeat split; assumption.
  - destruct (disconnect_without_socket c Hws) as (H1 & H2 & H3 & H4 & H5 & H6).
    repeat split; assumption.
Qed.

(** X14. After [disconnect()] the client opens no socket on its own: whatever
    the old socket, the timers and a pending reconnection deliver, a new
    WebSocket is only created by a [connect()] of the user. *)
Theorem no_reconnect_after_disconnect (c : Client.Client) (es : list Client.Event) :
  forallb (fun e => negb (is_user_connect e)) es = true ->
  List.filter is_new_socket
    (snd (Client.run es (Js.state_of (Client.disconnect c)))) = [].
Proof.
  intros Hes. apply run_keeps_disabled; [exact Hes|apply disconnect_disables].
Qed.

Lemma no_reconnect_after_disconnect_witness :
  List.filter is_new_socket
    (snd (Client.run [Client.EClose; Client.EWake 2; Client.ERejected; Client.EWake 3]
            (Js.state_of (Client.disconnect client_subscribed)))) = [].
Proof.
  apply (no_reconnect_after_disconnect client_subscribed
           [Client.EClose; Client.EWake 2; Client.ERejected; Client.EWake 3]).
  reflexivity.
Defined.

(** X15. Along every run from the constructor, each time the client sleeps
    before a reconnection attempt it sleeps at least the base delay of
    2000 ms and at most 30000 ms, and the attempt counter never leaves the
    range from 0 to 5. *)
Theorem reconnect_sleeps_bounded (u : string) (cid : option string)
    (es : list Client.Event) :
  Forall (sleep_in_range 2000) (snd (Client.run es (Client.new u cid)))
  /\ (0 <= Client.reconnectAttempts (fst (Client.run es (Client.new u cid))) <= 5)%Z.
Proof.
  split.
  - apply run_sleeps, new_configured.
  - apply (run_configured es (Client.new u cid) (new_configured u cid)).
Qed.

(** X16. The heartbeat never leaks a timer: along every run from the
    constructor, the intervals armed and not yet cleared are exactly the
    one stored in [heartbeatInterval], or none when the field is [null]. *)
Theorem heartbeat_single_timer (u : string) (cid : option string)
    (es : list Client.Event) :
  armed [] (snd (Client.run es (Client.new u cid)))
  = timer_list (Client.heartbeatInterval (fst (Client.run es (Client.new u cid)))).
Proof. apply (run_armed es (Client.new u cid)). Qed.

(** One event handled, then the rest of the run. *)
Lemma run_cons (e : Client.Event) (es : list Client.Event) (c c' cf : Client.Client)
    (o : Js.Outcome unit) (effs effs' : list Js.Effect) :
  Client.handle e c = (o, c', effs) ->
  Client.run es c' = (cf, effs') ->
  Client.run (e :: es) c = (cf, effs ++ effs').
Proof.
  intros H H'. rewrite run_step. unfold Js.state_of, Js.effects_of.
  rewrite H. cbn [fst snd]. rewrite H'. reflexivity.
Qed.

(** Stepping through a run of the client one event at a time. *)
Ltac client_simpl :=
  cbn [Client.url Client.httpUrl Client.clientId Client.ws Client.connected
       Client.subscriptionId Client.messageHandler Client.lastMessageId
       Client.heartbeatInterval Client.reconnectAttempts
       Client.maxReconnectAttempts Client.reconnectDelay Client.shouldReconnect
       Client.subscriptions andb negb truthy fst snd app].

Ltac client_step tac :=
  eapply run_cons;
  [ unfold_client; client_simpl; tac; client_simpl; reflexivity | ].

(** X17. Resumption by the client: when a data frame with a non-empty id has
    been handled and the socket then closes while reconnection is enabled
    and attempts are left, the client sleeps, opens a new socket, and once
    acknowledged subscribes again by itself with the same handler, asking
    for the messages after the id it saw last; the attempt counter is back
    at 0. *)
Theorem reconnect_resumes_from_last_id (c : Client.Client) (m : Message)
    (s2 : Js.Socket) (t : Js.Timer) :
  id m <> "" ->
  Client.shouldReconnect c = true ->
  (Client.reconnectAttempts c < Client.maxReconnectAttempts c)%Z ->
  let r := Client.run
             [Client.EMessage (Js.Data (Some m)); Client.EClose; Client.EWake s2;
              Client.EOpen t; Client.EMessage Js.ConnectionAck; Client.EConnected]
             c in
  List.filter Js.is_send (snd r)
  = [Js.WsSend s2 Js.ConnectionInit;
     Js.WsSend s2 (Js.Start ("subscription:client-" ++ Js.show (Client.clientId c))%string
                            Js.OnMessageWithId (Some (id m)))]
  /\ Client.messageHandler (fst r) = Client.messageHandler c
  /\ Client.lastMessageId (fst r) = Some (id m)
  /\ Client.subscriptionId (fst r)
     = Some ("subscription:client-" ++ Js.show (Client.clientId c))%string
  /\ Client.connected (fst r) = true
  /\ Client.reconnectAttempts (fst r) = 0%Z.
Proof.
  intros Hid Hs Ha.
  pose proof (truthy_nonempty _ Hid) as Ht. simpl in Ht.
  apply Z.ltb_lt in Ha.
  destruct c; simpl in Hs, Ha; subst.
  cbv zeta.
  destruct messageHandler, heartbeatInterval.
  all: match goal with
       | |- context [Client.run ?es ?c] =>
           eassert (Hr : Client.run es c = _);
           [ client_step ltac:(rewrite Ht); client_step ltac:(rewrite Ha);
             do 3 client_step idtac; client_step ltac:(rewrite Ht); reflexivity
           | rewrite Hr; clear Hr ]
       end.
  all: cbn [fst snd app List.filter Js.is_send Js.show
            Client.messageHandler Client.lastMessageId Client.subscriptionId
            Client.connected Client.reconnectAttempts Client.clientId].
  all: repeat split.
Qed.

Lemma reconnect_resumes_from_last_id_witness :
  List.filter Js.is_send
    (snd (Client.run
            [Client.EMessage (Js.Data (Some msg1)); Client.EClose; Client.EWake 2;
             Client.EOpen 2; Client.EMessage Js.ConnectionAck; Client.EConnected]
            client_subscribed))
  = [Js.WsSend 2 Js.ConnectionInit;
     Js.WsSend 2 (Js.Start "subscription:client-1" Js.OnMessageWithId (Some (id msg1)))].
Proof.
  pose proof (reconnect_resumes_from_last_id client_subscribed msg1 2%nat 2%nat
                ltac:(discriminate) eq_refl ltac:(reflexivity)) as (H & _).
  exact H.
Defined.

(** ** The client with several handlers, continued *)

Lemma disconnect_clears_witness :
  Js.outcome_of (ClientWithResume.disconnect client2_subscribed) = Js.Returned tt
  /\ ClientWithResume.messageHandlers
       (Js.state_of (ClientWithResume.disconnect client2_subscribed)) = []
  /\ ClientWithResume.ws (Js.state_of (ClientWithResume.disconnect client2_subscribed))
     = None.
Proof.
  pose proof (disconnect_clears client2_subscribed 1%nat eq_refl)
    as (H1 & _ & H3 & _ & H5 & _).
  exact (conj H1 (conj H3 H5)).
Defined.

Section MultiHandlerClientMore.

Import Js ClientWithResume.

(** The id the next [subscribe] of a client returns. *)
Lemma subscribe_connected (h : Handler) (cursor : option string) (c : Client)
    (s : Socket) :
  connected c = true -> ws c = Some s ->
  let i := ("subscription:" ++ show (clientId c) ++ "-"
              ++ pretty (subscriptionId c + 1)%Z)%string in
  subscribe h cursor c
  = (Returned i,
     set_subscriptions (<[i := h]> (subscriptions c))
       (set_messageHandlers (messageHandlers c ++ [h])
          (set_subscriptionId (subscriptionId c + 1) c)),
     [WsSend s (Start i (if truthy cursor then OnMessageWithId else OnMessage)
                        (if truthy cursor then cursor else None))]).
Proof.
  intros Hc Hws. destruct c; simpl in *; subst. unfold_client2. reflexivity.
Qed.

(** A bind whose first part returns. *)
Lemma bind_returned {S A B} (m : M S A) (k : A -> M S B) (s s1 : S) (a : A)
    (e1 : list Effect) :
  m s = (Returned a, s1, e1) ->
  bind m k s = (let '(r, s2, e2) := k a s1 in (r, s2, e1 ++ e2)).
Proof. intros H. unfold bind. rewrite H. reflexivity. Qed.

Lemma forEach_subscribe (resume : option string) (s : Socket) (l : list Handler) :
  forall c,
    connected c = true -> ws c = Some s ->
    let r := forEach l (fun handler => subscribe handler resume ≫= (fun _ => mret tt)) c in
    outcome_of r = Returned tt
    /\ messageHandlers (state_of r) = messageHandlers c ++ l
    /\ subscriptionId (state_of r) = (subscriptionId c + Z.of_nat (length l))%Z
    /\ connected (state_of r) = true
    /\ ws (state_of r) = Some s
    /\ lastMessageId (state_of r) = lastMessageId c
    /\ length (effects_of r) = length l
    /\ Forall (fun e => exists i, e = WsSend s (Start i (if truthy resume then OnMessageWithId else OnMessage)
                                                        (if truthy resume then resume else None)))
              (effects_of r).
Proof.
  induction l as [|h l IH]; intros c Hc Hws.
  - simpl. rewrite app_nil_r, Z.add_0_r. repeat split; auto.
  - set (f := fun handler : Handler => subscribe handler resume ≫= (fun _ => mret tt)) in *.
    intros r.
    pose proof (subscribe_connected h resume c s Hc Hws) as Hsub. cbv zeta in Hsub.
    eassert (Hf : f h c = (Returned tt, _, _)).
    { unfold f, mbind, M_bind. rewrite (bind_returned _ _ _ _ _ _ Hsub).
      cbn [mret M_ret ret]. rewrite app_nil_r. reflexivity. }
    eassert (Hr : r = _).
    { subst r. cbn [forEach]. unfold mbind, M_bind.
      apply (bind_returned _ _ _ _ _ _ Hf). }
    clearbody r. subst r.
    match type of Hf with
    | _ = (_, ?c1, _) =>
        specialize (IH c1 ltac:(destruct c; exact Hc) ltac:(destruct c; exact Hws));
        cbv zeta in IH; unfold state_of, outcome_of, effects_of in *;
        destruct (forEach l f c1) as [[r c2] e2]
    end.
    simpl in *. destruct IH as (H1 & H2 & H3 & H4 & H5 & H6 & H7 & H8).
    destruct c; simpl in *.
    clear Hsub Hf.
    rewrite H1, H2, H3, H7, <- app_assoc.
    repeat split; auto; try lia.
    constructor; [eexists; reflexivity|exact H8].
Qed.


Lemma dispatch_calls (m : Message) (c : Client) :
  List.filter is_call (effects_of (onMessageFrame (Data (Some m)) c))
  = map (fun h => Call h m) (messageHandlers c).
Proof.
  assert (H : forall (l : list Handler) (c1 : Client),
             effects_of (forEach l (fun handler => emit (Call handler m)) c1)
             = map (fun h => Call h m) l).
  { induction l as [|h l IH]; intros c1; [reflexivity|].
    simpl. unfold_js. specialize (IH c1). unfold effects_of in IH.
    destruct (forEach l _ c1) as [[r c2] e2]. simpl in *. rewrite IH. reflexivity. }
  assert (Hf : forall l : list Handler,
             List.filter is_call (map (fun h => Call h m) l) = map (fun h => Call h m) l).
  { induction l; simpl; [reflexivity|f_equal; assumption]. }
  unfold onMessageFrame. unfold_js.
  destruct (truthy (Some (id m))); cbv [modify]; cbv beta iota.
  - match goal with
    | |- context [forEach ?l ?f ?c1] =>
        pose proof (H l c1) as He; unfold effects_of in He;
        destruct (forEach l f c1) as [[r c2] e2]
    end.
    simpl in *. rewrite He. destruct c; apply Hf.
  - match goal with
    | |- context [forEach ?l ?f ?c1] =>
        pose proof (H l c1) as He; unfold effects_of in He;
        destruct (forEach l f c1) as [[r c2] e2]
    end.
    simpl in *. rewrite He. apply Hf.
Qed.

End MultiHandlerClientMore.

(** X19. Every reconnection doubles the handlers of the client with several
    handlers: [subscribeWithResume] on a connected client sends one start
    frame per registered handler, each resuming from the last id seen, and
    appends every handler to [messageHandlers] once more; a data frame that
    follows calls each handler twice. *)
Theorem reconnect_doubles_handlers (c : ClientWithResume.Client) (s : Js.Socket)
    (m : Message) :
  ClientWithResume.connected c = true ->
  ClientWithResume.ws c = Some s ->
  let c' := Js.state_of (ClientWithResume.subscribeWithResume c) in
  ClientWithResume.messageHandlers c'
  = ClientWithResume.messageHandlers c ++ ClientWithResume.messageHandlers c
  /\ length (Js.effects_of (ClientWithResume.subscribeWithResume c))
     = length (ClientWithResume.messageHandlers c)
  /\ Forall (fun e => exists i,
               e = Js.WsSend s
                     (Js.Start i
                        (if truthy (ClientWithResume.lastMessageId c)
                         then Js.OnMessageWithId else Js.OnMessage)
                        (if truthy (ClientWithResume.lastMessageId c)
                         then ClientWithResume.lastMessageId c else None)))
            (Js.effects_of (ClientWithResume.subscribeWithResume c))
  /\ List.filter Js.is_call
       (Js.effects_of (ClientWithResume.onMessageFrame (Js.Data (Some m)) c'))
     = map (fun h => Js.Call h m)
           (ClientWithResume.messageHandlers c ++ ClientWithResume.messageHandlers c).
Proof.
  intros Hc Hws c'.
  assert (H : ClientWithResume.messageHandlers c'
              = ClientWithResume.messageHandlers c ++ ClientWithResume.messageHandlers c
              /\ length (Js.effects_of (ClientWithResume.subscribeWithResume c))
                 = length (ClientWithResume.messageHandlers c)
              /\ Forall (fun e => exists i,
                           e = Js.WsSend s
                                 (Js.Start i
                                    (if truthy (ClientWithResume.lastMessageId c)
                                     then Js.OnMessageWithId else Js.OnMessage)
                                    (if truthy (ClientWithResume.lastMessageId c)
                                     then ClientWithResume.lastMessageId c else None)))
                        (Js.effects_of (ClientWithResume.subscribeWithResume c))).
  { subst c'.
    remember (ClientWithResume.subscribeWithResume c) as R eqn:HR.
    unfold ClientWithResume.subscribeWithResume in HR.
    unfold mbind at 1, M_bind at 1 in HR.
    rewrite (bind_returned Js.get _ c c c [] eq_refl) in HR.
    rewrite Hc, andb_true_r in HR. cbn [app] in HR.
    destruct (ClientWithResume.messageHandlers c) as [|h hs] eqn:Hhs.
    - cbn in HR. subst R. cbn. repeat split; auto.
    - change (0 <? length (h :: hs))%nat with true in HR.
      cbv beta iota zeta in HR.
      unfold mbind at 1, M_bind at 1 in HR.
      rewrite (bind_returned (Js.modify _) _ c _ tt [] eq_refl) in HR.
      cbn [app] in HR.
      match type of HR with
      | context [ClientWithResume.forEach ?l ?f ?c1] =>
          pose proof (forEach_subscribe (ClientWithResume.lastMessageId c) s l c1
                        ltac:(destruct c; exact Hc) ltac:(destruct c; exact Hws)) as Hf;
          cbv zeta in Hf;
          destruct (ClientWithResume.forEach l f c1) as [[r c2] e2] eqn:E
      end.
      subst R. unfold Js.state_of, Js.outcome_of, Js.effects_of in *.
      cbn [fst snd] in *. destruct Hf as (_ & H2 & _ & _ & _ & _ & H7 & H8).
      destruct c; cbn in Hhs, H2, H7, H8; subst. repeat split; auto. }
  destruct H as (H1 & H2 & H3). repeat split; auto.
  rewrite dispatch_calls, H1. reflexivity.
Qed.

Lemma reconnect_doubles_handlers_witness :
  ClientWithResume.messageHandlers
    (Js.state_of (ClientWithResume.subscribeWithResume client2_subscribed))
  = [10%nat; 10%nat]
  /\ List.filter Js.is_call
       (Js.effects_of
          (ClientWithResume.onMessageFrame (Js.Data (Some msg1))
             (Js.state_of (ClientWithResume.subscribeWithResume client2_subscribed))))
     = [Js.Call 10 msg1; Js.Call 10 msg1].
Proof.
  pose proof (reconnect_doubles_handlers client2_subscribed 1%nat msg1 eq_refl eq_refl)
    as (H1 & _ & _ & H4).
  exact (conj H1 H4).
Defined.

(** X20. Subscribing and unsubscribing in the client with several handlers: on
    a connected client [subscribe] returns the id built from the next
    counter value, sends one start frame and files the handler under that
    id; [unsubscribe] of that id sends the stop frame and removes the entry
    but leaves the handler in [messageHandlers]; [unsubscribe] of an id
    that is not filed does nothing. *)
Theorem subscribe_unsubscribe_round_trip (c : ClientWithResume.Client)
    (h : Js.Handler) (cursor : option string) (s : Js.Socket) (j : string) :
  ClientWithResume.connected c = true ->
  ClientWithResume.ws c = Some s ->
  ClientWithResume.subscriptions c !! j = None ->
  let i := ("subscription:" ++ Js.show (ClientWithResume.clientId c) ++ "-"
              ++ pretty (ClientWithResume.subscriptionId c + 1)%Z)%string in
  let c1 := Js.state_of (ClientWithResume.subscribe h cursor c) in
  let c2 := Js.state_of (ClientWithResume.unsubscribe i c1) in
  Js.outcome_of (ClientWithResume.subscribe h cursor c) = Js.Returned i
  /\ ClientWithResume.subscriptions c1 !! i = Some h
  /\ Js.effects_of (ClientWithResume.unsubscribe i c1) = [Js.WsSend s (Js.Stop i)]
  /\ ClientWithResume.subscriptions c2 = delete i (ClientWithResume.subscriptions c)
  /\ ClientWithResume.messageHandlers c2 = ClientWithResume.messageHandlers c ++ [h]
  /\ ClientWithResume.unsubscribe j c = (Js.Returned tt, c, []).
Proof.
  intros Hc Hws Hj i c1 c2.
  pose proof (subscribe_connected h cursor c s Hc Hws) as Hsub. cbv zeta in Hsub.
  fold i in Hsub.
  assert (H1 : ClientWithResume.subscriptions c1 !! i = Some h).
  { subst c1. rewrite Hsub. destruct c. simpl. apply lookup_insert_eq. }
  assert (Hws1 : ClientWithResume.ws c1 = Some s).
  { subst c1. rewrite Hsub. destruct c. exact Hws. }
  assert (Hun : ClientWithResume.unsubscribe i c1
                = (Js.Returned tt,
                   ClientWithResume.set_subscriptions
                     (delete i (ClientWithResume.subscriptions c1)) c1,
                   [Js.WsSend s (Js.Stop i)])).
  { unfold ClientWithResume.unsubscribe, ClientWithResume.ws_send. unfold_js.
    rewrite H1.
    rewrite bool_decide_eq_true_2 by (eexists; reflexivity).
    cbv beta iota. rewrite Hws1. reflexivity. }
  split; [rewrite Hsub; reflexivity|]. split; [exact H1|].
  split; [rewrite Hun; reflexivity|]. split.
  - subst c2. rewrite Hun. subst c1. rewrite Hsub. destruct c. simpl.
    apply delete_insert_eq.
  - split.
    + subst c2. rewrite Hun. subst c1. rewrite Hsub. destruct c. reflexivity.
    + unfold ClientWithResume.unsubscribe. unfold_js. rewrite Hj.
      rewrite bool_decide_eq_false_2 by (intros [x Hx]; discriminate).
      reflexivity.
Qed.

Lemma subscribe_unsubscribe_round_trip_witness :
  Js.outcome_of (ClientWithResume.subscribe 11%nat None client2_subscribed)
  = Js.Returned "subscription:1-2"
  /\ Js.effects_of
       (ClientWithResume.unsubscribe "subscription:1-2"
          (Js.state_of (ClientWithResume.subscribe 11%nat None client2_subscribed)))
     = [Js.WsSend 1 (Js.Stop "subscription:1-2")]
  /\ ClientWithResume.unsubscribe "subscription:1-9" client2_subscribed
     = (Js.Returned tt, client2_subscribed, []).
Proof.
  pose proof (subscribe_unsubscribe_round_trip client2_subscribed 11%nat None 1%nat
                "subscription:1-9" eq_refl eq_refl ltac:(vm_compute; reflexivity))
    as (H1 & _ & H3 & _ & _ & H6).
  exact (conj H1 (conj H3 H6)).
Defined.

(** ** The statistics of the traffic demos *)

Section Intervals.

Import DemoStats.

Lemma groupLoop_pairs (rest : list Z) :
  forall start end_,
    groupLoop start end_ rest
    = map (fun iv => interval (fst iv) (snd iv)) (pairsFrom start end_ rest).
Proof.
  induction rest as [|x rest IH]; intros start end_; simpl; [reflexivity|].
  destruct (x =? double (end_ + 1))%Z; simpl; rewrite IH; reflexivity.
Qed.

(** Adding one to a safe integer is exact. *)
Lemma double_succ_safe (n : Z) : safe n -> double (n + 1) = (n + 1)%Z.
Proof.
  unfold safe, double. change (2 ^ 53)%Z with 9007199254740992%Z.
  intros Hn. cbv zeta.
  destruct (Z.ltb_spec (Z.abs (n + 1)) 9007199254740992) as [Hlt|Hge];
    [reflexivity|].
  assert (E : (n + 1 = 9007199254740992)%Z) by lia.
  rewrite E. vm_compute. reflexivity.
Qed.

Lemma pairs_intervals (rest : list Z) :
  forall start end_,
    safe end_ -> Forall safe rest ->
    pairsFrom start end_ rest = intervalsFrom start end_ rest.
Proof.
  induction rest as [|x rest IH]; intros start end_ He Hr; simpl; [reflexivity|].
  apply Forall_cons in Hr as [Hx Hr].
  rewrite (double_succ_safe end_ He), !(IH _ _ Hx Hr). reflexivity.
Qed.

Lemma pairsFrom_head (rest : list Z) :
  forall start end_,
    exists e tl, pairsFrom start end_ rest = (start, e) :: tl.
Proof.
  induction rest as [|x rest IH]; intros start end_; simpl; [eauto|].
  destruct (x =? double (end_ + 1))%Z; [apply IH|eauto].
Qed.

(** On doubles in strictly ascending order the pairs of the code leave a
    gap between neighbours, whatever their size: were [x] the integer
    after [end], the sum [end + 1] would be the double [x] itself. *)
Lemma pairsFrom_separated (rest : list Z) :
  forall start end_,
    Forall is_double rest ->
    StronglySorted Z.lt (end_ :: rest) ->
    separated (pairsFrom start end_ rest).
Proof.
  induction rest as [|x rest IH]; intros start end_ Hd Hs; simpl; [auto|].
  apply Forall_cons in Hd as [Hx Hd].
  apply StronglySorted_inv in Hs as [Hrest Hall].
  destruct (Z.eqb_spec x (double (end_ + 1))) as [E|Hne].
  - apply IH; assumption.
  - destruct (pairsFrom_head rest x x) as (e & tl & Heq).
    simpl. rewrite Heq. rewrite <- Heq. split; [|apply IH; assumption].
    simpl. inversion Hall; subst.
    assert (x <> end_ + 1)%Z by (intros ->; apply Hne; symmetry; exact Hx).
    lia.
Qed.

Lemma intervalsFrom_expand (rest : list Z) :
  forall start end_,
    (start <= end_)%Z ->
    flat_map expand (intervalsFrom start end_ rest)
    = seqZ start (end_ - start + 1) ++ rest.
Proof.
  induction rest as [|x rest IH]; intros start end_ Hle; simpl.
  - unfold expand. simpl. rewrite !app_nil_r. reflexivity.
  - destruct (Z.eqb_spec x (end_ + 1)) as [->|Hne].
    + rewrite IH by lia.
      replace (end_ + 1 - start + 1)%Z with ((end_ - start + 1) + 1)%Z by lia.
      rewrite seqZ_app by lia. rewrite <- app_assoc. do 2 f_equal.
      replace (start + (end_ - start + 1))%Z with (end_ + 1)%Z by lia.
      reflexivity.
    + simpl. rewrite IH by lia. unfold expand at 1. simpl.
      replace (x - x + 1)%Z with 1%Z by lia. reflexivity.
Qed.

Lemma intervalsFrom_ordered (rest : list Z) :
  forall start end_,
    (start <= end_)%Z ->
    Forall (fun iv => (fst iv <= snd iv)%Z) (intervalsFrom start end_ rest).
Proof.
  induction rest as [|x rest IH]; intros start end_ Hle; simpl.
  - repeat constructor. exact Hle.
  - destruct (Z.eqb_spec x (end_ + 1)) as [->|Hne].
    + apply IH. lia.
    + constructor; [exact Hle|]. apply IH. lia.
Qed.



Lemma sorted_nodup_strict (l : list Z) :
  StronglySorted Z.le l -> NoDup l -> StronglySorted Z.lt l.
Proof.
  induction 1 as [|x l Hs IH Hall]; intros Hnd; [constructor|].
  apply NoDup_cons in Hnd as [Hx Hnd].
  constructor; [apply IH, Hnd|].
  rewrite Forall_forall in *. intros y Hy. specialize (Hall y Hy).
  assert (x <> y) by (intros ->; contradiction). lia.
Qed.

(** On safe integers the function prints the maximal runs of its sorted
    input. *)
Lemma group_is_intervals (numbers : list Z) :
  Forall safe numbers ->
  groupConsecutiveNumbers numbers
  = map (fun iv => interval (fst iv) (snd iv)) (intervalsOf numbers).
Proof.
  intros Hsafe. unfold groupConsecutiveNumbers, intervalsOf.
  destruct numbers as [|n ns]; [reflexivity|].
  change (length (n :: ns) =? 0)%nat with false. cbv iota.
  assert (Hs : Forall safe (merge_sort Z.le (n :: ns))).
  { rewrite merge_sort_Permutation. exact Hsafe. }
  destruct (merge_sort Z.le (n :: ns)) as [|first rest]; [reflexivity|].
  apply Forall_cons in Hs as [Hf Hr].
  rewrite groupLoop_pairs, (pairs_intervals rest first first Hf Hr). reflexivity.
Qed.

(** On doubles of any size that are all different, the function prints
    intervals with a gap between neighbours. *)
Lemma group_pairs_separated (numbers : list Z) :
  Forall is_double numbers -> NoDup numbers ->
  exists ivs,
    groupConsecutiveNumbers numbers
    = map (fun iv => interval (fst iv) (snd iv)) ivs
    /\ separated ivs.
Proof.
  intros Hd Hnd. unfold groupConsecutiveNumbers.
  destruct numbers as [|n ns]; [exists []; split; [reflexivity|exact I]|].
  change (length (n :: ns) =? 0)%nat with false. cbv iota.
  assert (Hs : Forall is_double (merge_sort Z.le (n :: ns))).
  { rewrite merge_sort_Permutation. exact Hd. }
  assert (Hsorted : StronglySorted Z.lt (merge_sort Z.le (n :: ns))).
  { apply sorted_nodup_strict.
    - apply StronglySorted_merge_sort; apply _.
    - rewrite merge_sort_Permutation. exact Hnd. }
  destruct (merge_sort Z.le (n :: ns)) as [|first rest]; [exists []; split; [reflexivity|exact I]|].
  apply Forall_cons in Hs as [_ Hr].
  exists (pairsFrom first first rest). split; [apply groupLoop_pairs|].
  apply pairsFrom_separated; assumption.
Qed.

Lemma intervalsOf_expand (numbers : list Z) :
  flat_map expand (intervalsOf numbers) = merge_sort Z.le numbers.
Proof.
  unfold intervalsOf. destruct (merge_sort Z.le numbers) as [|first rest]; [reflexivity|].
  rewrite intervalsFrom_expand by lia.
  replace (first - first + 1)%Z with 1%Z by lia. reflexivity.
Qed.

End Intervals.

(** X21. On safe integers [groupConsecutiveNumbers] loses and invents
    nothing: the texts it returns are those of intervals [start-end] with
    [start <= end] (a lone number when they are equal) which, written out
    in full and concatenated, give the input sorted in ascending order; an
    empty input gives no interval. Beyond the safe integers this fails:
    [2^53 + 1] is [2^53] again, so of two entries [2^53] only one is
    printed. *)
Theorem group_consecutive_round_trip (numbers : list Z) :
  Forall safe numbers ->
  (DemoStats.groupConsecutiveNumbers numbers
   = map (fun iv => DemoStats.interval (fst iv) (snd iv)) (intervalsOf numbers)
   /\ Forall (fun iv => (fst iv <= snd iv)%Z) (intervalsOf numbers)
   /\ flat_map expand (intervalsOf numbers) ≡ₚ numbers
   /\ Sorted Z.le (flat_map expand (intervalsOf numbers))
   /\ DemoStats.groupConsecutiveNumbers [] = [])
  /\ DemoStats.groupConsecutiveNumbers [2 ^ 53; 2 ^ 53]%Z = ["9007199254740992"].
Proof.
  intros Hsafe. split; [|vm_compute; reflexivity].
  split; [apply group_is_intervals; exact Hsafe|]. split.
  - unfold intervalsOf. destruct (merge_sort Z.le numbers); [constructor|].
    apply intervalsFrom_ordered. lia.
  - rewrite intervalsOf_expand. split; [apply merge_sort_Permutation|].
    split; [apply Sorted_merge_sort; apply _|reflexivity].
Qed.

Lemma group_consecutive_round_trip_witness :
  DemoStats.groupConsecutiveNumbers [7; 3; 4; 3; 9]%Z
  = map (fun iv => DemoStats.interval (fst iv) (snd iv)) (intervalsOf [7; 3; 4; 3; 9]%Z)
  /\ flat_map expand (intervalsOf [7; 3; 4; 3; 9]%Z) ≡ₚ [7; 3; 4; 3; 9]%Z.
Proof.
  assert (Hsafe : Forall safe [7; 3; 4; 3; 9]%Z).
  { repeat constructor; unfold safe; simpl; lia. }
  destruct (group_consecutive_round_trip [7; 3; 4; 3; 9]%Z Hsafe)
    as ((H1 & _ & H3 & _) & _).
  exact (conj H1 H3).
Defined.



Section Tracker.

Import DemoStats.

Lemma onDelivery_spec (m : Message) (t : ClientTracker) (dups : list (Z * string)) :
  NoDup (receivedMessages t) ->
  let r := onDelivery m (t, dups) in
  NoDup (receivedMessages (fst r))
  /\ id m ∈ receivedMessages (fst r)
  /\ (exists more, receivedMessages (fst r) = receivedMessages t ++ more)
  /\ (length (receivedMessages (fst r)) + length (snd r)
      = length (receivedMessages t) + length dups + 1)%nat
  /\ sentMessages (fst r) = sentMessages t
  /\ clientId (fst r) = clientId t.
Proof.
  intros Hnd. cbv zeta. unfold onDelivery.
  destruct (bool_decide_reflect (id m ∈ receivedMessages t)) as [Hin|Hnin]; simpl.
  - repeat split; auto.
    + exists []. rewrite app_nil_r. reflexivity.
    + rewrite length_app. simpl. lia.
  - repeat split; auto.
    + apply NoDup_app. repeat split; [exact Hnd| |apply NoDup_singleton].
      intros x Hx Hx'. apply list_elem_of_singleton in Hx'. subst. contradiction.
    + apply elem_of_app. right. apply list_elem_of_singleton. reflexivity.
    + eexists. reflexivity.
    + rewrite length_app. simpl. lia.
Qed.

End Tracker.

(** X23. The tracker of the traffic demo keeps each message id once: after any
    deliveries, starting from a list of received ids without repetition,
    the list still has no repetition, contains the id of every delivered
    message, only grew at its end, and every delivery was counted either
    as received or as duplicate. *)
Theorem tracker_dedupes (ms : list Message) (t : DemoStats.ClientTracker)
    (dups : list (Z * string)) :
  NoDup (DemoStats.receivedMessages t) ->
  let r := DemoStats.deliveries ms (t, dups) in
  NoDup (DemoStats.receivedMessages (fst r))
  /\ Forall (fun m => id m ∈ DemoStats.receivedMessages (fst r)) ms
  /\ (exists more, DemoStats.receivedMessages (fst r)
                   = DemoStats.receivedMessages t ++ more)
  /\ (length (DemoStats.receivedMessages (fst r)) + length (snd r)
      = length (DemoStats.receivedMessages t) + length dups + length ms)%nat.
Proof.
  revert t dups. unfold DemoStats.deliveries.
  induction ms as [|m ms IH]; intros t dups Hnd; cbv zeta.
  - simpl. repeat split; auto. exists []. rewrite app_nil_r. reflexivity.
  - cbn [foldl].
    destruct (onDelivery_spec m t dups Hnd) as (H1 & H2 & (more & H3) & H4 & _).
    destruct (DemoStats.onDelivery m (t, dups)) as [t1 dups1]. simpl in *.
    destruct (IH t1 dups1 H1) as (I1 & I2 & (more' & I3) & I4).
    split; [exact I1|]. split.
    + constructor; [|exact I2]. rewrite I3. apply elem_of_app. left. exact H2.
    + split; [exists (more ++ more'); rewrite I3, H3, app_assoc; reflexivity|].
      simpl. lia.
Qed.

Lemma tracker_dedupes_witness :
  NoDup (DemoStats.receivedMessages
           (fst (DemoStats.deliveries [msg1; msg2; msg1]
                   (DemoStats.newTracker 1, []))))
  /\ (length (DemoStats.receivedMessages
                (fst (DemoStats.deliveries [msg1; msg2; msg1]
                        (DemoStats.newTracker 1, []))))
      + length (snd (DemoStats.deliveries [msg1; msg2; msg1]
                       (DemoStats.newTracker 1, [])))
      = 3)%nat.
Proof.
  pose proof (tracker_dedupes [msg1; msg2; msg1] (DemoStats.newTracker 1) []
                ltac:(simpl; constructor)) as (H1 & _ & _ & H4).
  exact (conj H1 H4).
Defined.

Section Missing.

Import DemoStats.

Lemma indexOf_position (pre : list string) (x : string) (post : list string) :
  x ∉ pre -> indexOf (pre ++ x :: post) x = Z.of_nat (length pre).
Proof.
  unfold indexOf. induction pre as [|y pre IH]; intros Hnin; simpl.
  - rewrite String.eqb_refl. reflexivity.
  - apply not_elem_of_cons in Hnin as [Hne Hnin].
    replace (String.eqb y x) with false
      by (symmetry; apply String.eqb_neq; congruence).
    rewrite (IH Hnin). pose proof (Nat2Z.is_nonneg (length pre)).
    destruct (Z.of_nat (length pre)) eqn:E; lia.
Qed.

Lemma missing_positions (received : list string) (l : list string) :
  forall pre,
    NoDup (pre ++ l) ->
    flat_map (fun sentMessage =>
                if negb (bool_decide (sentMessage ∈ received))
                then [indexOf (pre ++ l) sentMessage] else [])
             l
    = map Z.of_nat
        (List.filter (fun n => match (pre ++ l) !! n with
                               | Some x => negb (bool_decide (x ∈ received))
                               | None => false
                               end)
                     (seq (length pre) (length l))).
Proof.
  induction l as [|x l IH]; intros pre Hnd; [reflexivity|].
  cbn [flat_map length seq List.filter].
  assert (Hx : x ∉ pre).
  { apply NoDup_app in Hnd as (_ & Hd & _). intros Hin.
    apply (Hd x Hin). left. }
  rewrite (indexOf_position pre x l Hx).
  rewrite (lookup_app_r pre (x :: l)) by lia.
  replace (length pre - length pre)%nat with 0%nat by lia. cbn [lookup list_lookup].
  specialize (IH (pre ++ [x])). rewrite <- app_assoc in IH. cbn [app] in IH.
  rewrite IH by exact Hnd.
  rewrite length_app. simpl. replace (length pre + 1)%nat with (S (length pre)) by lia.
  destruct (negb (bool_decide (x ∈ received))); reflexivity.
Qed.

End Missing.

(** X24. When the ids of the sent messages are all different, the indices
    [printDetailedStats] reports as lost for a client are exactly the
    positions, in ascending order, of the sent messages the client did not
    receive. *)
Theorem missing_indices_are_positions (sent received : list string) :
  NoDup sent ->
  DemoStats.missingIndices sent received
  = map Z.of_nat (lostPositions sent received).
Proof.
  intros Hnd. unfold DemoStats.missingIndices, lostPositions.
  apply (missing_positions received sent [] Hnd).
Qed.

Lemma missing_indices_are_positions_witness :
  DemoStats.missingIndices [id msg1; id msg2; "c4d5e6f7"] [id msg2]
  = map Z.of_nat (lostPositions [id msg1; id msg2; "c4d5e6f7"] [id msg2]).
Proof.
  apply (missing_indices_are_positions [id msg1; id msg2; "c4d5e6f7"] [id msg2]).
  apply (bool_decide_unpack _). vm_compute. exact I.
Defined.

Section Traffic.

Import TrafficStats.

Lemma size_split (X Y : gset string) :
  size X = (size (X ∖ Y) + size (X ∩ Y))%nat.
Proof.
  rewrite size_difference_alt.
  assert (Hle : (size (X ∩ Y) <= size X)%nat).
  { apply subseteq_size. set_solver. }
  lia.
Qed.

Lemma size_insert_le (x : string) (X : gset string) :
  (size ({[x]} ∪ X) <= size X + 1)%nat.
Proof.
  rewrite size_union_alt.
  assert (Hle : (size (X ∖ {[x]}) <= size X)%nat).
  { apply subseteq_size. set_solver. }
  rewrite size_singleton. lia.
Qed.

Lemma counters_bound_sets (es : list Step) :
  forall t,
    (Z.of_nat (size (receivedMessages t)) <= messagesReceived t)%Z ->
    (Z.of_nat (size (expectedMessages t)) <= messagesSent t)%Z ->
    (Z.of_nat (size (receivedMessages (foldl step t es)))
     <= messagesReceived (foldl step t es))%Z
    /\ (Z.of_nat (size (expectedMessages (foldl step t es)))
        <= messagesSent (foldl step t es))%Z.
Proof.
  induction es as [|e es IH]; intros t Hr He; [simpl; auto|].
  cbn [foldl]. apply IH; destruct e; simpl; try assumption.
  - pose proof (size_insert_le (id m) (receivedMessages t)). lia.
  - pose proof (size_insert_le (id m) (expectedMessages t)). lia.
Qed.

End Traffic.

(** X25. The [lostMessages] of the proxy traffic demo is only a lower bound:
    it never exceeds the number of sent messages that were not received,
    and falls short of it by at most the number of received messages the
    client did not send itself. Along any run of deliveries and sends the
    two sets never hold more ids than the counters beside them count. *)
Theorem lost_messages_bounds (t : TrafficStats.ClientTracker)
    (es : list TrafficStats.Step) :
  ((0 <= TrafficStats.lostMessages t)%Z
   /\ (TrafficStats.lostMessages t
       <= Z.of_nat (size (TrafficStats.expectedMessages t
                          ∖ TrafficStats.receivedMessages t)))%Z
   /\ (Z.of_nat (size (TrafficStats.expectedMessages t
                       ∖ TrafficStats.receivedMessages t))
       <= TrafficStats.lostMessages t
          + Z.of_nat (size (TrafficStats.receivedMessages t
                            ∖ TrafficStats.expectedMessages t)))%Z)
  /\ ((Z.of_nat (size (TrafficStats.receivedMessages
                         (foldl TrafficStats.step TrafficStats.newTracker es)))
       <= TrafficStats.messagesReceived
            (foldl TrafficStats.step TrafficStats.newTracker es))%Z
      /\ (Z.of_nat (size (TrafficStats.expectedMessages
                            (foldl TrafficStats.step TrafficStats.newTracker es)))
          <= TrafficStats.messagesSent
               (foldl TrafficStats.step TrafficStats.newTracker es))%Z).
Proof.
  split.
  - unfold TrafficStats.lostMessages.
    pose proof (size_split (TrafficStats.expectedMessages t)
                           (TrafficStats.receivedMessages t)) as HE.
    pose proof (size_split (TrafficStats.receivedMessages t)
                           (TrafficStats.expectedMessages t)) as HR.
    assert (Hcomm : TrafficStats.receivedMessages t ∩ TrafficStats.expectedMessages t
                    = TrafficStats.expectedMessages t ∩ TrafficStats.receivedMessages t)
      by set_solver.
    rewrite Hcomm in HR.
    lia.
  - apply counters_bound_sets;
      cbn [TrafficStats.newTracker TrafficStats.receivedMessages
           TrafficStats.expectedMessages TrafficStats.messagesReceived
           TrafficStats.messagesSent];
      rewrite size_empty; lia.
Qed.

(** ** Addresses and the newest cursor *)

Lemma replace_absent (pattern replacement s : string) :
  occurs pattern s = false -> Js.replace pattern replacement s = s.
Proof.
  induction s as [|ch s IH]; cbn [occurs Js.replace]; intros H.
  - destruct (String.prefix pattern ""); [discriminate H|reflexivity].
  - destruct (String.prefix pattern (String ch s)); [discriminate H|].
    rewrite (IH H). reflexivity.
Qed.

Lemma substring_all (s : string) : String.substring 0 (String.length s) s = s.
Proof. induction s as [|ch s IH]; simpl; [reflexivity|]. rewrite IH. reflexivity. Qed.

(** [replace] at the head of a string. *)
Lemma prefix_append (p rest : string) : String.prefix p (p ++ rest) = true.
Proof.
  induction p as [|a p IH].
  - destruct rest; reflexivity.
  - change (String a p ++ rest)%string with (String a (p ++ rest)%string).
    cbn [String.prefix]. destruct (Ascii.ascii_dec a a); [exact IH|congruence].
Qed.

Lemma substring_append (p rest : string) :
  String.substring (String.length p)
    (String.length (p ++ rest) - String.length p) (p ++ rest) = rest.
Proof.
  induction p as [|a p IH].
  - change ("" ++ rest)%string with rest. cbn [String.length].
    rewrite Nat.sub_0_r. apply substring_all.
  - change (String a p ++ rest)%string with (String a (p ++ rest)%string).
    cbn [String.length String.substring Nat.sub]. exact IH.
Qed.

Lemma replace_head (p r rest : string) : Js.replace p r (p ++ rest) = (r ++ rest)%string.
Proof.
  assert (H : forall s, Js.replace p r s
              = if String.prefix p s
                then (r ++ String.substring (String.length p)
                            (String.length s - String.length p) s)%string
                else match s with
                     | EmptyString => EmptyString
                     | String c s' => String c (Js.replace p r s')
                     end) by (intros []; reflexivity).
  rewrite H, prefix_append, substring_append. reflexivity.
Qed.

(** X26. The mutations go to the HTTP twin of the socket address: for an
    address [ws://rest] the client posts to [http://rest], for [wss://rest]
    to [https://rest], as long as [rest] does not itself contain the other
    scheme; a connected [sendMessage] makes exactly that one request and
    changes no field of the client, whatever comes back: the created
    message is returned, the error of a failed request is thrown again,
    and an answer with [errors] throws the message of the first. *)
Theorem mutations_go_to_http_twin (rest : string) (cid : option string)
    (c : Client.Client) (user text : string) (response : Js.Response) :
  occurs "wss://" rest = false ->
  occurs "ws://" rest = false ->
  Client.connected c = true ->
  Client.httpUrl (Client.new ("ws://" ++ rest) cid) = ("http://" ++ rest)%string
  /\ Client.httpUrl (Client.new ("wss://" ++ rest) cid) = ("https://" ++ rest)%string
  /\ Client.sendMessage user text response c
     = (match response with
        | Js.Created m => Js.Returned m
        | Js.Errors first => Js.Threw (Js.Err first)
        | Js.FetchFailed msg => Js.Threw (Js.Err msg)
        end,
        c, [Js.Fetch (Client.httpUrl c) text user]).
Proof.
  intros Hwss Hws Hc. split; [|split].
  - unfold Client.new. cbn [Client.httpUrl].
    rewrite (replace_head "ws://" "http://" rest).
    apply replace_absent. exact Hwss.
  - unfold Client.new. cbn [Client.httpUrl].
    rewrite (replace_absent "ws://" "http://" ("wss://" ++ rest)) by exact Hws.
    apply (replace_head "wss://" "https://" rest).
  - destruct c; simpl in Hc; subst. unfold_client.
    destruct response; reflexivity.
Qed.

Lemma mutations_go_to_http_twin_witness :
  Client.httpUrl (Client.new "ws://localhost:4000/graphql" (Some "1"))
  = "http://localhost:4000/graphql"
  /\ Client.httpUrl (Client.new "wss://localhost:4000/graphql" (Some "1"))
     = "https://localhost:4000/graphql"
  /\ Client.sendMessage "ann" "hello" (Js.Errors "boom") client_subscribed
     = (Js.Threw (Js.Err "boom"), client_subscribed,
        [Js.Fetch "http://localhost:4000/graphql" "hello" "ann"]).
Proof.
  exact (mutations_go_to_http_twin "localhost:4000/graphql" (Some "1")
           client_subscribed "ann" "hello" (Js.Errors "boom") eq_refl eq_refl eq_refl).
Defined.

(** X27. Resuming from the newest message: with a cursor that is the id of the
    last logged message and of no earlier one, the unstable server queues
    nothing at subscribe time, while the resumable server hands the cursor
    message out once more; with no live payload that is all either sends. *)
Theorem resume_from_newest (pre : list Message) (m : Message) (uuid : string)
    (roll : bool) (timeout : Z) (q ws : nat) (context_id : option string)
    (s : ServerUnstable.Server) :
  id m <> "" -> ~ In (id m) (ids pre) ->
  ServerUnstable.messages s = pre ++ [m] -> fresh q s ->
  ServerUnstable.queue_of q
    (fst (ServerUnstable.subscribe uuid roll timeout q ws context_id (Some (id m)) s))
  = []
  /\ ServerWithResume.yields (ServerWithResume.subscribe (Some (id m)) (pre ++ [m])) []
     = Some [{| onMessage := m |}].
Proof.
  intros Hid Hnin Hlog Hfresh.
  assert (Hpre : Forall (fun y => bool_decide (Some (id y) = Some (id m)) = false) pre).
  { apply List.Forall_forall. intros y Hy. apply bool_decide_eq_false.
    intros [= Heq]. apply Hnin. rewrite <- Heq. apply List.in_map. exact Hy. }
  assert (Hm : bool_decide (Some (id m) = Some (id m)) = true)
    by (apply bool_decide_eq_true; reflexivity).
  destruct (from_cursor_split (id m) pre m [] Hpre Hm) as [Hfrom Hafter].
  assert (Hin : In (id m) (ids (pre ++ [m]))).
  { unfold ids. rewrite map_app. apply List.in_or_app. right. left. reflexivity. }
  split.
  - destruct (subscribe_spec uuid roll timeout q ws context_id (Some (id m)) s)
      as (_ & _ & _ & Hq).
    rewrite Hq, Hlog, Hafter, (truthy_nonempty _ Hid).
    unfold ServerUnstable.queue_of. destruct Hfresh as (-> & _). reflexivity.
  - destruct (subscribe_found (id m) (pre ++ [m]) Hid Hin) as (Hsub & _).
    rewrite Hsub, Hfrom. reflexivity.
Qed.

Lemma resume_from_newest_witness :
  ServerUnstable.queue_of 7
    (fst (ServerUnstable.subscribe "sub-uuid" true 2500 7 1 None (Some (id msg2)) server12))
  = []
  /\ ServerWithResume.yields (ServerWithResume.subscribe (Some (id msg2)) ([msg1] ++ [msg2])) []
     = Some [{| onMessage := msg2 |}].
Proof.
  apply (resume_from_newest [msg1] msg2 "sub-uuid" true 2500 7 1 None server12).
  - discriminate.
  - simpl. intros [H|[]]. discriminate.
  - reflexivity.
  - repeat split; reflexivity.
Defined.
